(** * AtmosTrack and telecom-churn ETL pipelines: a shallow embedding

    The Python sources are embedded stage by stage:
    - [Num]: the cells of a pandas numeric column (a number or NaN) and the
      Python operators the sources apply to them;
    - [Py]: dictionaries, raised exceptions and the pandas parsers;
    - [Transformer]: AtmosTrack_ETL_pipeline/transform.py (first script);
    - [Fetcher]: AtmosTrack_ETL_pipeline/extract.py;
    - [Loader]: AtmosTrack_ETL_pipeline/load.py;
    - [Validator]: ETL_Pipeline/task3/scripts/validate.py together with the
      contract mapping of ETL_Pipeline/task3/scripts/transform.py;
    - [Transformer2]: the second script of AtmosTrack_ETL_pipeline/transform.py;
    - [RawNames]: the names extract.py gives the raw files;
    - [ChurnLoader]: the batch upload of ETL_Pipeline/task3/scripts/load.py;
    - [Telecom]: the engineered columns of
      ETL_Pipeline/task3/scripts/transform.py;
    - [Pipeline]: AtmosTrack_ETL_pipeline/run_pipeline.py;
    - [Double]: Python floats as IEEE 754 doubles;
    - [Transformer64]: the first script of
      AtmosTrack_ETL_pipeline/transform.py once more, on doubles.

    [Num] and the modules built on it represent a finite float by an exact
    rational, without rounding or overflow, and parse a time value by value;
    NaN is kept as a separate constructor because the sources' behaviour
    depends on it.  [Double] and [Transformer64] embed the first transform
    script with the arithmetic of doubles (rounding, infinities, NaN) and
    with the time column parsed as a column.

    All definitions come first; the properties proved about them follow. *)

From Stdlib Require Import QArith ZArith List String Bool Lia DecimalString.
From Stdlib Require Import Lqa Sorted.
From Stdlib Require Floats.SpecFloat.
Import ListNotations.
Open Scope string_scope.

(* ------------------------------------------------------------------ *)
(** ** Numeric cells *)

Module Num.

(** A cell of a float64 column: a finite number or NaN. *)
Inductive cell : Type :=
| Fin (q : Q)
| NaN.

Definition isna (c : cell) : bool :=
  match c with NaN => true | Fin _ => false end.

(** Python [x * y] and [x + y] on floats: NaN is absorbing. *)
Definition mul (x y : cell) : cell :=
  match x, y with
  | Fin a, Fin b => Fin (a * b)
  | _, _ => NaN
  end.

Definition add (x y : cell) : cell :=
  match x, y with
  | Fin a, Fin b => Fin (a + b)
  | _, _ => NaN
  end.

(** Python [x <= k] and [x > k] against a numeric literal: every comparison
    with NaN is False. *)
Definition le (x : cell) (k : Q) : bool :=
  match x with
  | Fin a => Qle_bool a k
  | NaN => false
  end.

Definition gt (x : cell) (k : Q) : bool :=
  match x with
  | Fin a => negb (Qle_bool a k)
  | NaN => false
  end.

(** Numeric equality of cells, up to the representation of rationals. *)
Definition eqv (x y : cell) : Prop :=
  match x, y with
  | Fin a, Fin b => a == b
  | NaN, NaN => True
  | _, _ => False
  end.

End Num.

(* ------------------------------------------------------------------ *)
(** ** Python values shared by the scripts *)

Module Py.

(** A [dict] (or a JSON object) as the list of its items in insertion
    order. *)
Definition dict (V : Type) : Type := list (string * V).

Fixpoint dict_get {V : Type} (d : dict V) (key : string) : option V :=
  match d with
  | [] => None
  | (k, v) :: rest => if String.eqb k key then Some v else dict_get rest key
  end.

(** The outcome of a call: a value, or a raised exception. *)
Inductive result (A : Type) : Type :=
| Ok (a : A)
| Raise (exn : string).
Arguments Ok {A} a.
Arguments Raise {A} exn.

(** [str(n)] for an integer. *)
Definition str_of_Z (z : Z) : string := NilZero.string_of_int (Z.to_int z).

(** The values met in the arrays of a JSON document and in the cells of a
    frame read from a file: a number, null (a missing value), or text. *)
Inductive json : Type :=
| JNum (q : Q)
| JNull
| JStr (s : string).

(** A pandas timestamp, as far as the scripts observe it: its ISO text and
    its hour of the day. *)
Record Timestamp : Type := mk_Timestamp {
  isoformat : string;
  dt_hour : Z
}.

(** The pandas parsers the scripts rely on: [pd.to_datetime] with
    [errors="coerce"] on one value ([None] stands for NaT), the parsing of
    a numeric string by [pd.to_numeric], and [pd.to_datetime] with
    [errors="coerce"] on a column, which infers the format from the column
    and is therefore given for a column as a whole: the timestamp, or NaT,
    of each position. *)
Class Pandas : Type := {
  to_datetime : json -> option Timestamp;
  str_to_float : string -> option Q;
  to_datetime_coerce : list json -> nat -> option Timestamp
}.

(** The rows of a frame with their positions. *)
Definition enumerate {A : Type} (l : list A) : list (nat * A) :=
  combine (seq 0 (List.length l)) l.

(** [pd.to_numeric(..., errors="coerce")] on one value. *)
Definition to_numeric {P : Pandas} (v : json) : Num.cell :=
  match v with
  | JNum q => Num.Fin q
  | JNull => Num.NaN
  | JStr s => match str_to_float s with
              | Some q => Num.Fin q
              | None => Num.NaN
              end
  end.

End Py.

(* ------------------------------------------------------------------ *)
(** ** transform.py (AtmosTrack) *)

Module Transformer.
Import Py Num.

(** *** Feature engineering *)

Definition compute_aqi (pm2_5 : cell) : string :=
  if le pm2_5 50 then "Good"
  else if le pm2_5 100 then "Moderate"
  else if le pm2_5 200 then "Unhealthy"
  else if le pm2_5 300 then "Very Unhealthy"
  else "Hazardous".

(** A pandas Series restricted to its numeric entries, by column name, and
    [Series.get(key, default)]: the default is returned only when the key is
    not in the index. *)
Definition series : Type := dict cell.

Definition get (row : series) (key : string) (default : cell) : cell :=
  match dict_get row key with
  | Some v => v
  | None => default
  end.

Definition compute_severity (row : series) : cell :=
  add (add (add (add (add
    (mul (get row "pm2_5" (Fin 0)) (Fin 5))
    (mul (get row "pm10" (Fin 0)) (Fin 3)))
    (mul (get row "nitrogen_dioxide" (Fin 0)) (Fin 4)))
    (mul (get row "sulphur_dioxide" (Fin 0)) (Fin 4)))
    (mul (get row "carbon_monoxide" (Fin 0)) (Fin 2)))
    (mul (get row "ozone" (Fin 0)) (Fin 3)).

Definition classify_risk (severity : cell) : string :=
  if gt severity 400 then "High Risk"
  else if gt severity 200 then "Moderate Risk"
  else "Low Risk".

(** *** Raw artifacts *)

(** A raw file: the stem of its name and [data.get("hourly", {})]. *)
Record raw_file : Type := mk_raw_file {
  stem : string;
  hourly_of : dict (list json)
}.

(** [s.split(sep)[0]]: the part of [s] before the first occurrence of
    [sep]. *)
Fixpoint split_head (sep s : string) : string :=
  if String.prefix sep s then ""
  else match s with
       | EmptyString => ""
       | String c s' => String c (split_head sep s')
       end.

(** [pd.DataFrame(hourly)]: the number of rows, or ValueError when the arrays
    differ in length. *)
Definition DataFrame (hourly : dict (list json)) : result nat :=
  match hourly with
  | [] => Ok 0%nat
  | (_, v) :: rest =>
      if forallb (fun kv => Nat.eqb (List.length (snd kv)) (List.length v)) rest
      then Ok (List.length v)
      else Raise "ValueError"
  end.

(** The subset of [dropna] on line 80. *)
Definition pollutants : list string :=
  ["pm10"; "pm2_5"; "carbon_monoxide"; "nitrogen_dioxide"; "ozone";
   "sulphur_dioxide"].

(** A row of the frame after the numeric conversion (line 77). *)
Record num_row : Type := mk_num_row {
  nr_city : string;
  nr_pm10 : cell;
  nr_pm2_5 : cell;
  nr_carbon_monoxide : cell;
  nr_nitrogen_dioxide : cell;
  nr_ozone : cell;
  nr_sulphur_dioxide : cell;
  nr_uv_index : cell
}.

Definition num_items (r : num_row) : series :=
  [("pm10", nr_pm10 r); ("pm2_5", nr_pm2_5 r);
   ("carbon_monoxide", nr_carbon_monoxide r);
   ("nitrogen_dioxide", nr_nitrogen_dioxide r);
   ("ozone", nr_ozone r); ("sulphur_dioxide", nr_sulphur_dioxide r);
   ("uv_index", nr_uv_index r)].

(** [df.dropna(subset=..., how="all")] on a frame whose rows carry their
    index: a row goes when every column of the subset is missing in it. *)
Definition all_missing (subset : list string) (r : num_row) : bool :=
  forallb (fun c => isna (get (num_items r) c NaN)) subset.

Definition dropna_all (subset : list string) (df : list (nat * num_row))
    : list (nat * num_row) :=
  filter (fun ir => negb (all_missing subset (snd ir))) df.

(** A field of the comma-delimited staged file: a number, or text. *)
Inductive csv_cell : Type :=
| CsvNum (q : Q)
| CsvText (s : string).

(** [DataFrame.to_csv] writes a missing value as its [na_rep], whose default
    is the empty string. *)
Definition na_rep : string := "".

Definition csv_of_cell (c : cell) : csv_cell :=
  match c with
  | Fin q => CsvNum q
  | NaN => CsvText na_rep
  end.

Section Frames.
Context {P : Pandas}.

(** [pd.to_numeric(df.get(col, 0), errors="coerce")] assigned to [df[col]]:
    a column absent from the frame yields the scalar 0, which the assignment
    broadcasts to the [n] rows. *)
Definition numeric_column (hourly : dict (list json)) (n : nat)
    (col : string) : list cell :=
  match dict_get hourly col with
  | Some v => map to_numeric v
  | None => repeat (Fin 0) n
  end.

(** The frame after line 77, row by row, each with its index. *)
Definition num_rows (city_name : string) (hourly : dict (list json))
    (n : nat) : list (nat * num_row) :=
  let col c i := nth i (numeric_column hourly n c) NaN in
  map (fun i =>
         (i, mk_num_row city_name
               (col "pm10" i) (col "pm2_5" i) (col "carbon_monoxide" i)
               (col "nitrogen_dioxide" i) (col "ozone" i)
               (col "sulphur_dioxide" i) (col "uv_index" i)))
      (seq 0 n).

(** A row of the frame a city file is transformed to (line 91). *)
Record staged_row : Type := mk_staged_row {
  city : string;
  time : option Timestamp;
  pm10 : cell;
  pm2_5 : cell;
  carbon_monoxide : cell;
  nitrogen_dioxide : cell;
  ozone : cell;
  sulphur_dioxide : cell;
  uv_index : cell;
  hour : cell;
  AQI_category : string;
  severity : cell;
  risk : string
}.

(** [df["time"].dt.hour]: NaN on NaT. *)
Definition hour_of (t : option Timestamp) : cell :=
  match t with
  | Some ts => Fin (inject_Z (dt_hour ts))
  | None => NaN
  end.

(** The numeric entries of the Series that [df.apply(..., axis=1)] hands to
    [compute_severity]: at that point the frame has the seven numeric columns
    and [hour]. *)
Definition row_items (r : num_row) (h : cell) : series :=
  (num_items r ++ [("hour", h)])%list.

(** Lines 83-89 on one row; [t] is the row's entry of [df["time"]]. *)
Definition add_features (r : num_row) (t : json) : staged_row :=
  let time' := to_datetime t in
  let hour' := hour_of time' in
  let sev := compute_severity (row_items r hour') in
  mk_staged_row (nr_city r) time'
    (nr_pm10 r) (nr_pm2_5 r) (nr_carbon_monoxide r)
    (nr_nitrogen_dioxide r) (nr_ozone r) (nr_sulphur_dioxide r)
    (nr_uv_index r) hour'
    (compute_aqi (nr_pm2_5 r)) sev (classify_risk sev).

(** The frame returned for one raw file, as indexed rows. *)
Definition transform_city_file (f : raw_file)
    : result (list (nat * staged_row)) :=
  let city_name := split_head "_raw_" (stem f) in
  let hourly := hourly_of f in
  match hourly with
  | [] => Ok []
  | _ :: _ =>
      match DataFrame hourly with
      | Raise e => Raise e
      | Ok O => Ok []
      | Ok n =>
          let df := dropna_all pollutants (num_rows city_name hourly n) in
          match dict_get hourly "time" with
          | None => Raise "KeyError"
          | Some times =>
              Ok (map (fun ir => (fst ir, add_features (snd ir)
                                            (nth (fst ir) times JNull))) df)
          end
      end
  end.

(** *** The staged file *)

(** The text written for a timestamp; NaT is a missing value. *)
Definition csv_of_time (t : option Timestamp) : csv_cell :=
  match t with
  | Some ts => CsvText (isoformat ts)
  | None => CsvText na_rep
  end.

(** One line of the staged file, by column name.  The columns are listed in
    the order they have for a payload of the source API. *)
Definition to_csv_row (r : staged_row) : dict csv_cell :=
  [("time", csv_of_time (time r));
   ("pm10", csv_of_cell (pm10 r));
   ("pm2_5", csv_of_cell (pm2_5 r));
   ("carbon_monoxide", csv_of_cell (carbon_monoxide r));
   ("nitrogen_dioxide", csv_of_cell (nitrogen_dioxide r));
   ("ozone", csv_of_cell (ozone r));
   ("sulphur_dioxide", csv_of_cell (sulphur_dioxide r));
   ("uv_index", csv_of_cell (uv_index r));
   ("city", CsvText (city r));
   ("hour", csv_of_cell (hour r));
   ("AQI_category", CsvText (AQI_category r));
   ("severity", csv_of_cell (severity r));
   ("risk", CsvText (risk r))].

Definition to_csv (df : list staged_row) : list (dict csv_cell) :=
  map to_csv_row df.

(** The loop of [transform_all]: the non-empty frames, in the order of the
    files. *)
Fixpoint collect (files : list raw_file)
    : result (list (list (nat * staged_row))) :=
  match files with
  | [] => Ok []
  | f :: rest =>
      match transform_city_file f with
      | Raise e => Raise e
      | Ok df =>
          match collect rest with
          | Raise e => Raise e
          | Ok all_dfs =>
              match df with
              | [] => Ok all_dfs
              | _ :: _ => Ok (df :: all_dfs)
              end
          end
      end
  end.

(** [pd.concat(all_dfs, ignore_index=True)]: the rows in order, their
    indices dropped. *)
Definition concat_ignore_index (all_dfs : list (list (nat * staged_row)))
    : list staged_row :=
  map snd (List.concat all_dfs).

(** [transform_all]: the frame returned and, when one is written, the content
    of the staged file. *)
Definition transform_all (files : list raw_file)
    : result (list staged_row * option (list (dict csv_cell))) :=
  match collect files with
  | Raise e => Raise e
  | Ok [] => Ok ([], None)
  | Ok all_dfs =>
      let final_df := concat_ignore_index all_dfs in
      Ok (final_df, Some (to_csv final_df))
  end.

(** The severity as the specification words it, for comparison with the one
    computed: the weighted sum in which a missing metric counts as zero. *)
Definition zero_default (c : cell) : cell :=
  match c with
  | Fin q => Fin q
  | NaN => Fin 0
  end.

Definition spec_severity (r : staged_row) : cell :=
  add (add (add (add (add
    (mul (zero_default (pm2_5 r)) (Fin 5))
    (mul (zero_default (pm10 r)) (Fin 3)))
    (mul (zero_default (nitrogen_dioxide r)) (Fin 4)))
    (mul (zero_default (sulphur_dioxide r)) (Fin 4)))
    (mul (zero_default (carbon_monoxide r)) (Fin 2)))
    (mul (zero_default (ozone r)) (Fin 3)).

(** The numeric fields of a staged row, by column name. *)
Definition numeric_fields (r : staged_row) : series :=
  [("pm10", pm10 r); ("pm2_5", pm2_5 r);
   ("carbon_monoxide", carbon_monoxide r);
   ("nitrogen_dioxide", nitrogen_dioxide r);
   ("ozone", ozone r); ("sulphur_dioxide", sulphur_dioxide r);
   ("uv_index", uv_index r); ("severity", severity r); ("hour", hour r)].

End Frames.

(** A parser instance for worked examples: timestamps of the shape
    [YYYY-MM-DDTHH:MM], whose hour is read from the two digits after the
    [T]; no text is numeric. *)
Definition digit_of (a : Ascii.ascii) : option Z :=
  let n := Z.of_nat (Ascii.nat_of_ascii a) in
  if ((48 <=? n) && (n <=? 57))%Z then Some (n - 48)%Z else None.

Definition hour_digits (s : string) : option Z :=
  match String.get 11 s, String.get 12 s with
  | Some a, Some b =>
      match digit_of a, digit_of b with
      | Some x, Some y =>
          if (10 * x + y <? 24)%Z then Some (10 * x + y)%Z else None
      | _, _ => None
      end
  | _, _ => None
  end.

Definition iso_time (v : json) : option Timestamp :=
  match v with
  | JStr s => match hour_digits s with
              | Some h => Some (mk_Timestamp (s ++ ":00") h)
              | None => None
              end
  | _ => None
  end.

Definition iso_minutes : Pandas := {|
  to_datetime := iso_time;
  str_to_float := fun _ => None;
  to_datetime_coerce := fun col k => iso_time (nth k col JNull)
|}.

End Transformer.

(* ------------------------------------------------------------------ *)
(** ** extract.py (AtmosTrack) *)

Module Fetcher.
Import Py.

Definition CITIES : dict (Q * Q) :=
  [("Delhi", (28.7041, 77.1025));
   ("Mumbai", (19.0760, 72.8777));
   ("Bengaluru", (12.9716, 77.5946));
   ("Hyderabad", (17.3850, 78.4867));
   ("Kolkata", (22.5726, 88.3639))].

Definition MAX_RETRIES : Z := 3.
Definition SLEEP_BETWEEN_CALLS : Q := 1.0.

(** What the body of the [try] of [fetch_city] (the GET, the status check,
    the decoding and [save_raw]) comes to: the path of the saved file, a
    [requests.RequestException], or an exception the handler does not
    catch. *)
Inductive attempt_outcome : Type :=
| Saved (path : string)
| RequestException (e : string)
| OtherException (e : string).

(** The source API and the file system as seen by one attempt. *)
Class Source : Type := {
  world : Type;
  try_get : string -> Q -> Q -> world -> attempt_outcome * world
}.

(** What the run does to its environment, in order. *)
Inductive event : Type :=
| Get (city : string)
| Sleep (seconds : Q).

Record fetch_result : Type := mk_fetch_result {
  fr_city : string;
  success : bool;
  raw_path : option string;
  error : option string
}.

Section Fetch.
Context {Src : Source}.

(** The state threaded through a run: the environment and the events so
    far. *)
Definition state : Type := (world * list event)%type.

Definition log (e : event) (st : state) : state :=
  (fst st, (snd st ++ [e])%list).

(** The [for attempt in range(1, max_retries + 1)] loop from [attempt] on,
    with [fuel] iterations left; [None] when the loop runs out. *)
Fixpoint attempts (max_retries : Z) (fuel : nat) (attempt : Z)
    (city : string) (lat lon : Q) (st : state)
    : result (option fetch_result) * state :=
  match fuel with
  | O => (Ok None, st)
  | S fuel' =>
      let (o, w) := try_get city lat lon (fst st) in
      let st1 := log (Get city) (w, snd st) in
      match o with
      | Saved path =>
          (Ok (Some (mk_fetch_result city true (Some path) None)), st1)
      | RequestException _ =>
          let st2 :=
            if (attempt <? max_retries)%Z
            then log (Sleep (inject_Z (2 ^ (attempt - 1)))) st1
            else st1 in
          attempts max_retries fuel' (attempt + 1)%Z city lat lon st2
      | OtherException e => (Raise e, st1)
      end
  end.

Definition fetch_city_with (max_retries : Z) (city : string) (lat lon : Q)
    (st : state) : result fetch_result * state :=
  match attempts max_retries (Z.to_nat max_retries) 1 city lat lon st with
  | (Ok (Some r), st') => (Ok r, st')
  | (Ok None, st') =>
      (Ok (mk_fetch_result city false None
             (Some ("Failed after " ++ str_of_Z max_retries ++ " attempts"))),
       st')
  | (Raise e, st') => (Raise e, st')
  end.

Definition fetch_city : string -> Q -> Q -> state
    -> result fetch_result * state :=
  fetch_city_with MAX_RETRIES.

(** The loop of [fetch_all_cities] over the items of a dictionary of
    cities. *)
Fixpoint fetch_each (cities : dict (Q * Q)) (st : state)
    : result (list fetch_result) * state :=
  match cities with
  | [] => (Ok [], st)
  | (city, (lat, lon)) :: rest =>
      match fetch_city city lat lon st with
      | (Raise e, st1) => (Raise e, st1)
      | (Ok res, st1) =>
          match fetch_each rest (log (Sleep SLEEP_BETWEEN_CALLS) st1) with
          | (Raise e, st2) => (Raise e, st2)
          | (Ok results, st2) => (Ok (res :: results), st2)
          end
      end
  end.

Definition fetch_all_cities (st : state)
    : result (list fetch_result) * state :=
  fetch_each CITIES st.

(** The requests and the delays of a run. *)
Definition gets (evs : list event) : list string :=
  flat_map (fun e => match e with Get c => [c] | Sleep _ => [] end) evs.

Definition sleeps (evs : list event) : list Q :=
  flat_map (fun e => match e with Get _ => [] | Sleep s => [s] end) evs.

End Fetch.

(** The delays the retry policy schedules between [n] attempts: the base
    delay of one second, doubled after every attempt. *)
Fixpoint doubling (base : Z) (k : nat) : list Z :=
  match k with
  | O => []
  | S k' => base :: doubling (2 * base) k'
  end.

Definition backoff_schedule (n : Z) : list Z :=
  doubling 1 (Z.to_nat n - 1).

(** The events of a fetch in which [k] attempts in a row fail and the last
    of them is the last one allowed: a request, then the delay [base], then
    the same with the delay doubled; nothing follows the last request. *)
Fixpoint exhausted_trace (city : string) (base : Z) (k : nat) : list event :=
  match k with
  | O => []
  | S k' =>
      match k' with
      | O => [Get city]
      | S _ => Get city :: Sleep (inject_Z base)
                 :: exhausted_trace city (2 * base) k'
      end
  end.

(** The record returned when the attempts are exhausted. *)
Definition failure (city : string) : fetch_result :=
  mk_fetch_result city false None (Some "Failed after 3 attempts").

(** A source that is down: every attempt raises a [RequestException]; the
    environment counts the attempts. *)
Definition source_down : Source := {|
  world := nat;
  try_get := fun _ _ _ w => (RequestException "ConnectionError", S w)
|}.

(** A source that fails a given number of times, then answers. *)
Definition source_flaky : Source := {|
  world := nat;
  try_get := fun city _ _ w =>
    match w with
    | O => (Saved (city ++ ".json"), O)
    | S w' => (RequestException "Timeout", w')
    end
|}.

End Fetcher.

(* ------------------------------------------------------------------ *)
(** ** load.py (AtmosTrack) *)

Module Loader.
Import Py Num.

(** The settings read from the environment when the module is imported. *)
Record config : Type := mk_config {
  BATCH_SIZE : Z;
  LOAD_MAX_RETRIES : Z;
  LOAD_BACKOFF_SECONDS : Z
}.

(** The values used when the environment sets none. *)
Definition default_config : config := mk_config 200 2 3.

(** A value of a record sent to the table, as [to_dict] gives it: a number,
    the float [nan], [None], or text. *)
Inductive value : Type :=
| VNum (q : Q)
| VNaN
| VNone
| VStr (s : string).

(** A record sent to the table: a value per column. *)
Definition record : Type := dict value.

Definition rename_map : dict string :=
  [("AQI_Category", "aqi_category");
   ("aqi_category", "aqi_category");
   ("Risk_Level", "risk_flag");
   ("risk", "risk_flag");
   ("severity", "severity_score");
   ("Severity", "severity_score");
   ("pm2_5", "pm2_5");
   ("pm25", "pm2_5");
   ("pm10", "pm10");
   ("carbon_monoxide", "carbon_monoxide");
   ("nitrogen_dioxide", "nitrogen_dioxide");
   ("sulphur_dioxide", "sulphur_dioxide");
   ("ozone", "ozone");
   ("uv_index", "uv_index");
   ("hour", "hour");
   ("city", "city");
   ("time", "time")].

Definition expected : list string :=
  ["city"; "time"; "pm10"; "pm2_5"; "carbon_monoxide"; "nitrogen_dioxide";
   "sulphur_dioxide"; "ozone"; "uv_index"; "aqi_category"; "severity_score";
   "risk_flag"; "hour"].

Definition numeric_cols : list string :=
  ["pm10"; "pm2_5"; "carbon_monoxide"; "nitrogen_dioxide";
   "sulphur_dioxide"; "ozone"; "uv_index"; "severity_score"; "hour"].

Definition mem (c : string) (l : list string) : bool :=
  existsb (String.eqb c) l.

(** The columns of line 81. *)
Definition text_cols : list string := ["city"; "aqi_category"; "risk_flag"].

Section Prepare.
Context {P : Pandas}.

Definition rename_col (c : string) : string :=
  match dict_get rename_map c with
  | Some c' => c'
  | None => c
  end.

(** A row with its columns renamed (lines 56-58). *)
Definition rename_row (row : dict json) : dict json :=
  map (fun kv => (rename_col (fst kv), snd kv)) row.

(** A frame given by its rows: every row has the same columns, and no two
    of them get the same name by the renaming. *)
Definition is_frame (df : list (dict json)) : Prop :=
  exists cols,
    NoDup (map rename_col cols) /\
    forall row, In row df -> map fst row = cols.

(** The values of a column of a frame. *)
Definition column (df : list (dict json)) (c : string) : list json :=
  flat_map (fun row => match dict_get row c with
                       | Some v => [v]
                       | None => []
                       end) df.

(** Whether a column read from a file has the object dtype, which is the
    case when it holds a text; a column of numbers and missing values is a
    float column. *)
Definition is_object (col : list json) : bool :=
  existsb (fun v => match v with JStr _ => true | _ => false end) col.

Definition object_columns (df : list (dict json)) : dict bool :=
  map (fun c => (c, is_object (column df c))) text_cols.

(** The time column handed to [pd.to_datetime] (line 69). *)
Definition time_column (df : list (dict json)) : list json :=
  map (fun row => match dict_get row "time" with
                  | Some v => v
                  | None => JNull
                  end) df.

(** What lines 69-83 make of the value of column [c] in one row; [t] is the
    row's entry of the parsed time column.  The time becomes its ISO text,
    or [None].  A numeric column is coerced to a float column, in which
    [where(notna, None)] leaves a missing value as it is: nan.  In a text
    column [where(notna, None)] puts [None] for a missing value when the
    column has the object dtype, and leaves nan in a float column. *)
Definition prepare_value (dtypes : dict bool) (t : option Timestamp)
    (c : string) (v : json) : value :=
  if String.eqb c "time" then
    match t with
    | Some ts => VStr (isoformat ts)
    | None => VNone
    end
  else if mem c numeric_cols then
    match to_numeric v with
    | Fin q => VNum q
    | NaN => VNaN
    end
  else
    match v with
    | JNum q => VNum q
    | JStr s => VStr s
    | JNull =>
        match dict_get dtypes c with
        | Some false => VNaN
        | _ => VNone
        end
    end.

(** The value of an expected column that the frame lacks: line 66 creates
    it as a column of [None], which the numeric conversion turns into a
    float column of nan and which stays [None] otherwise. *)
Definition prepare_absent (c : string) : value :=
  if String.eqb c "time" then VNone
  else if mem c numeric_cols then VNaN
  else VNone.

(** One row of the frame, its columns renamed, turned into the record of
    the expected columns. *)
Definition prepare_row (dtypes : dict bool) (t : option Timestamp)
    (row : dict json) : record :=
  map (fun c => (c, match dict_get row c with
                    | Some v => prepare_value dtypes t c v
                    | None => prepare_absent c
                    end))
      expected.

Definition normalize_and_prepare (df : list (dict json)) : list record :=
  let renamed := map rename_row df in
  let dtypes := object_columns renamed in
  let times := to_datetime_coerce (time_column renamed) in
  map (fun krow => prepare_row dtypes (times (fst krow)) (snd krow))
      (enumerate renamed).

End Prepare.

(** The remote table: an insert of a batch either goes through or raises. *)
Class Sink : Type := {
  store : Type;
  execute_insert : list record -> store -> bool * store
}.

(** What a run does to its environment, in order: the inserts it sends, the
    lines it prints and the delays it takes. *)
Inductive event : Type :=
| Insert (batch : list record)
| PrintNoRecords
| PrintInserted (batch_no batches : Z) (rows : nat)
| PrintInsertFailed (batch_no attempt : Z)
| PrintSkipping (batch_no : Z)
| Sleep (seconds : Z)
| PrintNoTransformedFile
| PrintLoadCompleted (inserted : Z) (total : nat).

Section Batches.
Context {K : Sink}.

Definition state : Type := (store * list event)%type.

Definition log (e : event) (st : state) : state :=
  (fst st, (snd st ++ [e])%list).

(** The [while attempt <= LOAD_MAX_RETRIES] loop of one batch, with [fuel]
    iterations left; returns the updated count of inserted rows. *)
Fixpoint try_insert (cfg : config) (fuel : nat) (attempt : Z)
    (batch : list record) (batch_no batches : Z) (inserted : Z) (st : state)
    : Z * state :=
  match fuel with
  | O => (inserted, st)
  | S fuel' =>
      let (ok, s') := execute_insert batch (fst st) in
      let st1 := log (Insert batch) (s', snd st) in
      if ok then
        (inserted + Z.of_nat (List.length batch),
         log (PrintInserted batch_no batches (List.length batch)) st1)%Z
      else
        let attempt' := (attempt + 1)%Z in
        let st2 := log (PrintInsertFailed batch_no attempt') st1 in
        if (attempt' >? LOAD_MAX_RETRIES cfg)%Z
        then (inserted, log (PrintSkipping batch_no) st2)
        else try_insert cfg fuel' attempt' batch batch_no batches inserted
               (log (Sleep (LOAD_BACKOFF_SECONDS cfg)) st2)
  end.

(** [range(0, total, step)] for a step that is not zero. *)
Definition range_step (total step : Z) : list Z :=
  if (0 <? step)%Z
  then map (fun k => Z.of_nat k * step)%Z
           (seq 0 (Z.to_nat (- ((- total) / step))))
  else [].

(** [records[lo:hi]] for indices that are not negative. *)
Definition slice {A : Type} (l : list A) (lo hi : Z) : list A :=
  firstn (Z.to_nat (hi - lo)) (skipn (Z.to_nat lo) l).

Fixpoint insert_loop (cfg : config) (idxs : list Z) (records : list record)
    (batches : Z) (inserted : Z) (st : state) : Z * state :=
  match idxs with
  | [] => (inserted, st)
  | idx :: rest =>
      let batch := slice records idx (idx + BATCH_SIZE cfg) in
      let batch_no := (idx / BATCH_SIZE cfg + 1)%Z in
      let (inserted', st') :=
        try_insert cfg (Z.to_nat (LOAD_MAX_RETRIES cfg + 1)) 0 batch
          batch_no batches inserted st in
      insert_loop cfg rest records batches inserted' st'
  end.

Definition insert_batches (cfg : config) (records : list record) (st : state)
    : result Z * state :=
  let total := Z.of_nat (List.length records) in
  if (total =? 0)%Z then (Ok 0%Z, log PrintNoRecords st)
  else if (BATCH_SIZE cfg =? 0)%Z then (Raise "ZeroDivisionError", st)
  else
    let batches := (- ((- total) / BATCH_SIZE cfg))%Z in
    let (inserted, st') :=
      insert_loop cfg (range_step total (BATCH_SIZE cfg)) records batches 0 st in
    (Ok inserted, st').

(** [load_data]: [None] stands for a staged file that does not exist.  The
    function has no [return] with a value: what it gives back is Python's
    [None], here [tt]. *)
Definition load_data {P : Pandas} (cfg : config)
    (staged : option (list (dict json))) (st : state) : result unit * state :=
  match staged with
  | None => (Ok tt, log PrintNoTransformedFile st)
  | Some df =>
      let records := normalize_and_prepare df in
      match insert_batches cfg records st with
      | (Raise e, st') => (Raise e, st')
      | (Ok inserted, st') =>
          (Ok tt, log (PrintLoadCompleted inserted (List.length records)) st')
      end
  end.

(** The batches sent to the table and the batches given up, as a run's
    events tell them. *)
Definition sent (evs : list event) : list (list record) :=
  flat_map (fun e => match e with Insert b => [b] | _ => [] end) evs.

Definition skipped (evs : list event) : list Z :=
  flat_map (fun e => match e with PrintSkipping b => [b] | _ => [] end) evs.

End Batches.

(** A table that refuses, at every attempt, the batches whose first record
    has the given [pm10] value, and stores the others. *)
Definition first_pm10 (batch : list record) : option value :=
  match batch with
  | [] => None
  | r :: _ => dict_get r "pm10"
  end.

Definition sink_rejecting (q : Q) : Sink := {|
  store := list record;
  execute_insert := fun batch s =>
    match first_pm10 batch with
    | Some (VNum x) => if Qeq_bool x q then (false, s) else (true, (s ++ batch)%list)
    | _ => (true, (s ++ batch)%list)
    end
|}.

(** A staged table of [n] rows, numbered by their [pm10] value. *)
Definition staged_rows (n : nat) : list (dict json) :=
  map (fun i => [("city", JStr "delhi");
                 ("pm10", JNum (inject_Z (Z.of_nat i)))])
      (seq 0 n).

(** The load of 450 such rows, with the default settings, into a table that
    refuses the batch starting at row [q]; and the insertion of their
    records alone. *)
Definition records_450 : list record :=
  normalize_and_prepare (P := Transformer.iso_minutes) (staged_rows 450).

Definition load_450 (q : Q)
    : result unit * state (K := sink_rejecting q) :=
  load_data (P := Transformer.iso_minutes) (K := sink_rejecting q)
    default_config (Some (staged_rows 450)) ([], []).

Definition insert_450 (q : Q) : result Z * state (K := sink_rejecting q) :=
  insert_batches (K := sink_rejecting q) default_config records_450 ([], []).

End Loader.

(* ------------------------------------------------------------------ *)
(** ** task3: transform.py (contract mapping) and validate.py *)

Module Validator.
Import Py Num.

(** *** transform.py, lines 92-96 *)

Definition contract_map : dict Q :=
  [("Month-to-month", 0); ("One year", 1); ("Two year", 2)].

(** [Series.map(d)] on one value: NaN when the value is not a key. *)
Definition series_map (d : dict Q) (x : string) : cell :=
  match dict_get d x with
  | Some q => Fin q
  | None => NaN
  end.

Definition fillna (value : Q) (c : cell) : cell :=
  match c with
  | Fin q => Fin q
  | NaN => Fin value
  end.

(** The column [contract_type_code] computed from the column [Contract]. *)
Definition contract_type_code (Contract : list string) : list cell :=
  map (fun x => fillna 0 (series_map contract_map x)) Contract.

(** *** validate.py *)

(** The staged frame as read from the file: its columns by name. *)
Definition frame : Type := dict (list json).

(** Python [==] between two values of a column. *)
Definition py_eq (a b : json) : bool :=
  match a, b with
  | JNum x, JNum y => Qeq_bool x y
  | JStr s, JStr t => String.eqb s t
  | JNull, JNull => true
  | _, _ => false
  end.

Definition isnull (v : json) : bool :=
  match v with JNull => true | _ => false end.

(** [int(col.isnull().sum())]. *)
Definition isnull_sum (col : list json) : Z :=
  Z.of_nat (List.length (filter isnull col)).

(** [set(col.dropna().unique())], as the list of its distinct members. *)
Fixpoint unique (l : list json) : list json :=
  match l with
  | [] => []
  | x :: rest => x :: filter (fun y => negb (py_eq x y)) (unique rest)
  end.

Definition present (df : frame) (col : string) : list json :=
  match dict_get df col with
  | Some c => unique (filter (fun v => negb (isnull v)) c)
  | None => []
  end.

(** [a.issubset(b)]. *)
Definition issubset (a b : list json) : bool :=
  forallb (fun x => existsb (py_eq x) b) a.

Definition missing (df : frame) (col : string) : option Z :=
  match dict_get df col with
  | Some c => Some (isnull_sum c)
  | None => None
  end.

(** The set the contract codes are tested against on line 77. *)
Definition accepted_codes : list json :=
  [JNum (-1); JNum 0; JNum 1; JNum 2].

(** The entries of the summary returned by [validate] that are computed
    from the staged frame alone (checks 1, 4 and 5); the row counts of the
    raw file and of the remote table are not part of this model. *)
Record summary : Type := mk_summary {
  missing_info : dict (option Z);
  tenure_groups_present : list json;
  monthly_segments_present : list json;
  contract_codes_present : list json;
  contract_codes_ok : bool
}.

Definition validate (df_staged : frame) : summary :=
  let codes := present df_staged "contract_type_code" in
  mk_summary
    [("tenure", missing df_staged "tenure");
     ("MonthlyCharges", missing df_staged "MonthlyCharges");
     ("TotalCharges", missing df_staged "TotalCharges")]
    (present df_staged "tenure_group")
    (present df_staged "monthly_charge_segment")
    codes
    (issubset codes accepted_codes).

(** The value set of the coded field according to the header of
    validate.py ("Contract codes only in {0,1,2}") and to the mapping of
    transform.py. *)
Definition defined_codes : list json := [JNum 0; JNum 1; JNum 2].

Definition in_defined_codes (v : json) : bool :=
  existsb (py_eq v) defined_codes.

End Validator.

(* ------------------------------------------------------------------ *)
(** ** Concrete inputs used by the worked examples *)

Module Inputs.
Import Py Num Transformer.

(** A payload of one hour in which the API reports no PM2.5 value. *)
Definition file_null_pm2_5 : raw_file :=
  mk_raw_file "delhi_raw_20240101T000000Z"
    [("time", [JStr "2024-01-01T00:00"]);
     ("pm10", [JNum 10]);
     ("pm2_5", [JNull]);
     ("carbon_monoxide", [JNum 1]);
     ("nitrogen_dioxide", [JNum 1]);
     ("ozone", [JNum 1]);
     ("sulphur_dioxide", [JNum 1]);
     ("uv_index", [JNum 1])].

(** Two payloads of three hours each; in each, one hour has no pollutant
    value at all (its UV index is reported). *)
Definition file_delhi : raw_file :=
  mk_raw_file "delhi_raw_20240101T000000Z"
    [("time", [JStr "2024-01-01T00:00"; JStr "2024-01-01T01:00";
               JStr "2024-01-01T02:00"]);
     ("pm10", [JNum 80; JNull; JNum 95]);
     ("pm2_5", [JNum 50; JNull; JNum 50.0001]);
     ("carbon_monoxide", [JNum 20; JNull; JNull]);
     ("nitrogen_dioxide", [JNum 5; JNull; JNum 6]);
     ("ozone", [JNum 10; JNull; JNum 12]);
     ("sulphur_dioxide", [JNum 2; JNull; JNum 3]);
     ("uv_index", [JNum 0; JNum 1; JNum 2])].

Definition file_mumbai : raw_file :=
  mk_raw_file "mumbai_raw_20240101T000005Z"
    [("time", [JStr "2024-01-01T00:00"; JStr "2024-01-01T01:00";
               JStr "not a date"]);
     ("pm10", [JNull; JNum 40; JNum 41]);
     ("pm2_5", [JNull; JNum 20; JNum 301]);
     ("carbon_monoxide", [JNull; JNum 10; JNum 11]);
     ("nitrogen_dioxide", [JNull; JNum 3; JNum 4]);
     ("ozone", [JNull; JNum 8; JNum 9]);
     ("sulphur_dioxide", [JNull; JNum 1; JNum 2]);
     ("uv_index", [JNull; JNull; JNum 3])].

Definition two_files : list raw_file := [file_delhi; file_mumbai].

(** A staged churn table in which one contract code is -1. *)
Definition staged_minus_one : Validator.frame :=
  [("tenure", [JNum 1; JNum 30; JNum 70]);
   ("contract_type_code", [JNum 0; JNum (-1); JNum 2])].

(** The row and the line of the staged file that the payload without PM2.5
    comes to, and the outcome of the transform of the two payloads. *)
Definition row_null_pm2_5 : staged_row :=
  mk_staged_row "delhi" (Some (mk_Timestamp "2024-01-01T00:00:00" 0))
    (Fin 10) NaN (Fin 1) (Fin 1) (Fin 1) (Fin 1) (Fin 1) (Fin 0)
    "Hazardous" NaN "Low Risk".

Definition line_null_pm2_5 : dict csv_cell :=
  Eval vm_compute in to_csv_row row_null_pm2_5.

Definition staged_two_files
    : result (list staged_row * option (list (dict csv_cell))) :=
  Eval vm_compute in transform_all (P := iso_minutes) two_files.

End Inputs.

(* ------------------------------------------------------------------ *)
(** ** The order of the labels *)

Module Labels.

(** The category labels from the cleanest to the worst, and the risk tiers
    from the lowest to the highest; a text that is no label ranks last. *)
Definition aqi_labels : list string :=
  ["Good"; "Moderate"; "Unhealthy"; "Very Unhealthy"; "Hazardous"].

Definition risk_labels : list string :=
  ["Low Risk"; "Moderate Risk"; "High Risk"].

Fixpoint index_of (x : string) (l : list string) : nat :=
  match l with
  | [] => O
  | y :: rest => if String.eqb x y then O else S (index_of x rest)
  end.

Definition aqi_rank (label : string) : nat := index_of label aqi_labels.

Definition risk_rank (label : string) : nat := index_of label risk_labels.

End Labels.

(* ------------------------------------------------------------------ *)
(** ** More inputs for worked examples *)

Module MoreInputs.
Import Py Num Transformer.

(** A payload whose arrays differ in length. *)
Definition file_ragged : raw_file :=
  mk_raw_file "pune_raw_20240101T000000Z"
    [("time", [JStr "2024-01-01T00:00"; JStr "2024-01-01T01:00"]);
     ("pm10", [JNum 10])].

(** A payload without ozone values: the other pollutants of its second hour
    are all missing. *)
Definition file_no_ozone : raw_file :=
  mk_raw_file "kochi_raw_20240101T000000Z"
    [("time", [JStr "2024-01-01T00:00"; JStr "2024-01-01T01:00"]);
     ("pm10", [JNum 10; JNull]);
     ("pm2_5", [JNum 90; JNull]);
     ("carbon_monoxide", [JNum 1; JNull]);
     ("nitrogen_dioxide", [JNum 1; JNull]);
     ("sulphur_dioxide", [JNum 1; JNull]);
     ("uv_index", [JNum 1; JNull])].

(** A payload with no measurement at all. *)
Definition file_all_null : raw_file :=
  mk_raw_file "agra_raw_20240101T000000Z"
    [("time", [JStr "2024-01-01T00:00"]);
     ("pm10", [JNull]); ("pm2_5", [JNull]); ("carbon_monoxide", [JNull]);
     ("nitrogen_dioxide", [JNull]); ("ozone", [JNull]);
     ("sulphur_dioxide", [JNull]); ("uv_index", [JNum 4])].

Definition staged_no_ozone : result (list (nat * staged_row)) :=
  Eval vm_compute in transform_city_file (P := iso_minutes) file_no_ozone.

Definition staged_delhi : result (list (nat * staged_row)) :=
  Eval vm_compute in transform_city_file (P := iso_minutes) Inputs.file_delhi.

Definition staged_mumbai : result (list (nat * staged_row)) :=
  Eval vm_compute in transform_city_file (P := iso_minutes) Inputs.file_mumbai.

(** The rows of a frame, and its row of a given index. *)
Definition rows_of (df : result (list (nat * staged_row)))
    : list (nat * staged_row) :=
  match df with
  | Ok rows => rows
  | Raise _ => []
  end.

Definition blank_row : staged_row :=
  mk_staged_row "" None NaN NaN NaN NaN NaN NaN NaN NaN "" NaN "".

Fixpoint row_at (i : nat) (rows : list (nat * staged_row)) : staged_row :=
  match rows with
  | [] => blank_row
  | (j, r) :: rest => if Nat.eqb i j then r else row_at i rest
  end.

Definition delhi_0 : staged_row :=
  Eval vm_compute in row_at 0 (rows_of staged_delhi).

Definition mumbai_2 : staged_row :=
  Eval vm_compute in row_at 2 (rows_of staged_mumbai).

Definition no_ozone_1 : staged_row :=
  Eval vm_compute in row_at 1 (rows_of staged_no_ozone).

End MoreInputs.

(* ------------------------------------------------------------------ *)
(** ** transform.py (AtmosTrack), second script *)

Module Transformer2.
Import Py Num Transformer.

Definition aqi_category (pm25 : cell) : string :=
  if isna pm25 then "Unknown"
  else if le pm25 50 then "Good"
  else if le pm25 100 then "Moderate"
  else if le pm25 200 then "Unhealthy"
  else if le pm25 300 then "Very Unhealthy"
  else "Hazardous".

Definition num_cols : list string :=
  ["pm10"; "pm2_5"; "carbon_monoxide"; "nitrogen_dioxide"; "sulphur_dioxide";
   "ozone"; "uv_index"].

(** [hourly.get(key, [])]. *)
Definition get_list (hourly : dict (list json)) (key : string) : list json :=
  match dict_get hourly key with
  | Some v => v
  | None => []
  end.

(** One tuple of [zip(times, pm10, pm25, co, no2, so2, ozone, uv)]. *)
Definition zipped_row : Type :=
  (json * (json * (json * (json * (json * (json * (json * json)))))))%type.

(** The [zip] of the eight arrays: it stops with the shortest. *)
Definition zipped (hourly : dict (list json)) : list zipped_row :=
  combine (get_list hourly "time")
    (combine (get_list hourly "pm10")
       (combine (get_list hourly "pm2_5")
          (combine (get_list hourly "carbon_monoxide")
             (combine (get_list hourly "nitrogen_dioxide")
                (combine (get_list hourly "sulphur_dioxide")
                   (combine (get_list hourly "ozone")
                      (get_list hourly "uv_index"))))))).

(** The name of a raw file and the city read from it:
    [file.name.split("_")[0]]. *)
Definition file_name (f : raw_file) : string := stem f ++ ".json".

Definition city_of (f : raw_file) : string := split_head "_" (file_name f).

(** The severity, written as a sum of columns in this script: NaN
    propagates. *)
Definition severity_of (r : num_row) : cell :=
  add (add (add (add (add
    (mul (nr_pm2_5 r) (Fin 5))
    (mul (nr_pm10 r) (Fin 3)))
    (mul (nr_nitrogen_dioxide r) (Fin 4)))
    (mul (nr_sulphur_dioxide r) (Fin 4)))
    (mul (nr_carbon_monoxide r) (Fin 2)))
    (mul (nr_ozone r) (Fin 3)).

Section Frames.
Context {P : Pandas}.

(** A row of [all_rows] once its time is kept aside and its measurements
    are converted to numbers. *)
Definition numeric_row (city_name : string) (z : zipped_row)
    : json * num_row :=
  let '(t, (p10, (p25, (co, (no2, (so2, (oz, uv))))))) := z in
  (t, mk_num_row city_name (to_numeric p10) (to_numeric p25) (to_numeric co)
        (to_numeric no2) (to_numeric oz) (to_numeric so2) (to_numeric uv)).

Definition file_rows (f : raw_file) : list (json * num_row) :=
  map (numeric_row (city_of f)) (zipped (hourly_of f)).

(** The derived columns of one row; the columns [AQI_Category] and
    [Risk_Level] of this script are the fields [AQI_category] and [risk] of
    the record. *)
Definition add_features2 (tr : json * num_row) : staged_row :=
  let r := snd tr in
  let time' := to_datetime (fst tr) in
  let sev := severity_of r in
  mk_staged_row (nr_city r) time'
    (nr_pm10 r) (nr_pm2_5 r) (nr_carbon_monoxide r)
    (nr_nitrogen_dioxide r) (nr_ozone r) (nr_sulphur_dioxide r)
    (nr_uv_index r) (hour_of time')
    (aqi_category (nr_pm2_5 r)) sev (classify_risk sev).

(** [transform_data]: [None] when there is no raw file and nothing is
    written; otherwise the rows of the staged file.  A frame built from no
    row has no column, and the access to its ["time"] column raises. *)
Definition transform_data (raw_files : list raw_file)
    : result (option (list staged_row)) :=
  match raw_files with
  | [] => Ok None
  | _ :: _ =>
      match flat_map file_rows raw_files with
      | [] => Raise "KeyError"
      | all_rows =>
          Ok (Some (map add_features2
                      (filter (fun tr => negb (all_missing num_cols (snd tr)))
                              all_rows)))
      end
  end.

End Frames.

(** The eight arrays the script reads. *)
Definition arrays : list string := "time" :: num_cols.




End Transformer2.

(* ------------------------------------------------------------------ *)
(** ** extract.py: the names of the raw files *)

Module RawNames.
Import Ascii.
Import Py Transformer.

(** Whether a character occurs in a text. *)
Fixpoint has_char (a : Ascii.ascii) (s : string) : bool :=
  match s with
  | EmptyString => false
  | String b rest => Ascii.eqb a b || has_char a rest
  end.

(** Texts are modelled by their bytes.  On a text of ASCII characters,
    [str.lower] changes the letters A to Z and nothing else; a text with
    other characters is outside this model of [str.lower]. *)
Fixpoint is_ascii (s : string) : bool :=
  match s with
  | EmptyString => true
  | String a rest => (Ascii.nat_of_ascii a <? 128)%nat && is_ascii rest
  end.

Definition lower_ascii (a : Ascii.ascii) : Ascii.ascii :=
  let n := Ascii.nat_of_ascii a in
  if ((65 <=? n) && (n <=? 90))%nat then Ascii.ascii_of_nat (n + 32) else a.

Fixpoint lower (s : string) : string :=
  match s with
  | EmptyString => EmptyString
  | String a rest => String (lower_ascii a) (lower rest)
  end.

(** [Path.name]: the last component of a path, what follows its last
    slash. *)
Fixpoint name_of (path : string) : string :=
  match path with
  | EmptyString => EmptyString
  | String a rest =>
      if has_char "/"%char (String a rest) then name_of rest
      else String a rest
  end.

(** [name[:name.rfind('.')]], when the name has a dot. *)
Fixpoint before_last_dot (name : string) : option string :=
  match name with
  | EmptyString => None
  | String a rest =>
      match before_last_dot rest with
      | Some p => Some (String a p)
      | None => if Ascii.eqb a "."%char then Some EmptyString else None
      end
  end.

(** [Path.stem]: the name without its last suffix; with [i] the place of
    the last dot, the name has a suffix when [0 < i < len(name) - 1]. *)
Definition stem_of (name : string) : string :=
  match before_last_dot name with
  | Some p =>
      if (String.length p =? 0)%nat
         || (String.length name - 1 <=? String.length p)%nat
      then name
      else p
  | None => name
  end.

(** The name [save_raw] gives to the file of a city, [ts] being the text
    of [now_ts()]; the path [RAW_DIR / filename] it writes; and the stem
    [file_path.stem] of the directory entry so created. *)
Definition raw_file_name (city ts : string) : string :=
  lower city ++ "_raw_" ++ ts ++ ".json".

Definition raw_file_path (city ts : string) : string :=
  "data/raw/" ++ raw_file_name city ts.

Definition raw_file_stem (city ts : string) : string :=
  stem_of (name_of (raw_file_path city ts)).

(** The raw file [save_raw] writes for a city with a given payload. *)
Definition saved_file (city ts : string) (hourly : dict (list json))
    : raw_file :=
  mk_raw_file (raw_file_stem city ts) hourly.

End RawNames.

(* ------------------------------------------------------------------ *)
(** ** Measures of a run of the extraction *)

Module FetcherMore.
Import Py Fetcher.

(** The time a run spends sleeping. *)
Definition total_sleep (evs : list event) : Q :=
  fold_right Qplus 0 (sleeps evs).

(** The events of a run over [cities] in which the fetch of the i-th city
    makes [nth i ks] requests: for each city in turn its requests, separated
    by the doubling delays, then the pause between two cities. *)
Definition run_trace (cities : list string) (ks : list nat) : list event :=
  List.concat
    (map (fun ck => (exhausted_trace (fst ck) 1 (snd ck)
                     ++ [Sleep SLEEP_BETWEEN_CALLS])%list)
         (combine cities ks)).

(** A source that is down for one city and answers for the others. *)
Definition source_down_for (bad : string) : Source := {|
  world := nat;
  try_get := fun city _ _ w =>
    if String.eqb city bad
    then (RequestException "ConnectionError", S w)
    else (Saved (city ++ ".json"), S w)
|}.

(** The run over the configured cities when the source is down. *)
Definition run_source_down
    : result (list fetch_result) * state (Src := source_down) :=
  Eval vm_compute in fetch_all_cities (Src := source_down) (0%nat, []).

End FetcherMore.

(* ------------------------------------------------------------------ *)
(** ** Measures of a load *)

Module LoaderMore.
Import Py Num Loader.

(** The batches [insert_batches] cuts a list of records into. *)
Definition batches_of (cfg : config) (records : list record)
    : list (list record) :=
  map (fun idx => slice records idx (idx + BATCH_SIZE cfg))
      (range_step (Z.of_nat (List.length records)) (BATCH_SIZE cfg)).



Definition slept (evs : list event) : list Z :=
  flat_map (fun e => match e with Sleep s => [s] | _ => [] end) evs.




Definition total_rows (batches : list (list record)) : Z :=
  fold_right Z.add 0%Z (map (fun b => Z.of_nat (List.length b)) batches).

(** The total size of the batches cut at the given indices. *)
Definition sizes (cfg : config) (records : list record) (idxs : list Z) : Z :=
  fold_right Z.add 0%Z
    (map (fun idx => Z.of_nat (List.length
                         (slice records idx (idx + BATCH_SIZE cfg)))) idxs).

(** The value a record holds for a numeric cell of the staged table. *)
Definition value_of_cell (c : cell) : value :=
  match c with
  | Fin q => VNum q
  | NaN => VNaN
  end.

(** A numeric cell of a staged table as it is read back from the file. *)
Definition json_of_cell (c : cell) : json :=
  match c with
  | Fin q => JNum q
  | NaN => JNull
  end.

(** A line of the staged file of the first transform script, once each of
    its fields is read back by [read]. *)
Definition read_line (read : Transformer.csv_cell -> json)
    (line : dict Transformer.csv_cell) : dict json :=
  map (fun kv => (fst kv, read (snd kv))) line.

(** A reader of fields for worked examples: a number is read as a number,
    the empty field as a missing value, any other text as it is. *)
Definition read_field (c : Transformer.csv_cell) : json :=
  match c with
  | Transformer.CsvNum q => JNum q
  | Transformer.CsvText s => if String.eqb s "" then JNull else JStr s
  end.

(** A table that takes every batch, and one that refuses every batch. *)
Definition sink_accepting : Sink := {|
  store := list record;
  execute_insert := fun batch s => (true, (s ++ batch)%list)
|}.

Definition sink_refusing : Sink := {|
  store := nat;
  execute_insert := fun batch s => (false, S s)
|}.

End LoaderMore.

(* ------------------------------------------------------------------ *)
(** ** task3: load.py, the batch upload of [load_data] *)

Module ChurnLoader.
Import Py.

Definition batch_size : Z := 200.

(** What a run does to its environment, in order: the batches it sends to
    the table, the lines it prints and the delays it takes. *)
Inductive event : Type :=
| SendBatch (batch : list Loader.record)
| PrintUploading (total_rows : Z)
| PrintUploaded (start end_ : Z)
| PrintUploadFailed (attempts start end_ : Z)
| PrintError
| Wait (seconds : Z)
| PrintFailedAfterRetries (start end_ : Z)
| PrintUploadCompleted.

Section Upload.
Context {K : Loader.Sink}.

Definition state : Type := (Loader.store * list event)%type.

Definition log (e : event) (st : state) : state :=
  (fst st, (snd st ++ [e])%list).

(** The loop [while attempts < 3 and not uploaded] of one batch, with [fuel]
    iterations left; returns [uploaded]. *)
Fixpoint upload_attempts (fuel : nat) (attempts : Z)
    (batch : list Loader.record) (start end_ : Z) (st : state)
    : bool * state :=
  match fuel with
  | O => (false, st)
  | S fuel' =>
      if (attempts <? 3)%Z then
        let (ok, s') := Loader.execute_insert batch (fst st) in
        let st1 := log (SendBatch batch) (s', snd st) in
        if ok then (true, log (PrintUploaded start end_) st1)
        else
          let attempts' := (attempts + 1)%Z in
          upload_attempts fuel' attempts' batch start end_
            (log (Wait 2)
               (log PrintError
                  (log (PrintUploadFailed attempts' start end_) st1)))
      else (false, st)
  end.

(** The loop over [range(0, total_rows, batch_size)], which a batch that is
    not uploaded leaves by [break]. *)
Fixpoint upload_batches (starts : list Z) (data_records : list Loader.record)
    (total_rows : Z) (st : state) : state :=
  match starts with
  | [] => st
  | start :: rest =>
      let end_ := Z.min (start + batch_size) total_rows in
      let batch := Loader.slice data_records start end_ in
      let (uploaded, st') := upload_attempts 3 0 batch start end_ st in
      if uploaded then upload_batches rest data_records total_rows st'
      else log (PrintFailedAfterRetries start end_) st'
  end.

(** [load_data], from the records read from the staged file on: [None]
    stands for a staged file that does not exist. *)
Definition load_data (staged : option (list Loader.record)) (st : state)
    : result unit * state :=
  match staged with
  | None => (Raise "FileNotFoundError", st)
  | Some data_records =>
      let total_rows := Z.of_nat (List.length data_records) in
      let st1 := log (PrintUploading total_rows) st in
      let st2 :=
        upload_batches (Loader.range_step total_rows batch_size)
          data_records total_rows st1 in
      (Ok tt, log PrintUploadCompleted st2)
  end.

End Upload.

(** What the events of a run tell: the batches sent, the ranges reported as
    uploaded, the ranges reported as failed, and the delays. *)
Definition sent (evs : list event) : list (list Loader.record) :=
  flat_map (fun e => match e with SendBatch b => [b] | _ => [] end) evs.

Definition uploaded (evs : list event) : list (Z * Z) :=
  flat_map (fun e => match e with
                     | PrintUploaded s e => [(s, e)]
                     | _ => []
                     end) evs.

Definition given_up (evs : list event) : list (Z * Z) :=
  flat_map (fun e => match e with
                     | PrintFailedAfterRetries s e => [(s, e)]
                     | _ => []
                     end) evs.

Definition waited (evs : list event) : list Z :=
  flat_map (fun e => match e with Wait s => [s] | _ => [] end) evs.

(** The ranges and the batches the loop goes through when none fails. *)
Definition bounds_at (total_rows start : Z) : Z * Z :=
  (start, Z.min (start + batch_size) total_rows).

Definition batch_at (data_records : list Loader.record) (start : Z)
    : list Loader.record :=
  Loader.slice data_records start
    (Z.min (start + batch_size) (Z.of_nat (List.length data_records))).

Definition starts_of (data_records : list Loader.record) : list Z :=
  Loader.range_step (Z.of_nat (List.length data_records)) batch_size.

(** A batch sent [n] times in a row, for each batch of a list. *)
Definition repeated (batches : list (list Loader.record)) (tries : list nat)
    : list (list Loader.record) :=
  List.concat (map (fun p => repeat (fst p) (snd p)) (combine batches tries)).

(** A table that refuses every batch whose first record has a [pm10] value
    of at least [q]. *)
Definition sink_full_from (q : Q) : Loader.Sink := {|
  Loader.store := list Loader.record;
  Loader.execute_insert := fun batch s =>
    match Loader.first_pm10 batch with
    | Some (Loader.VNum x) =>
        if Qle_bool q x then (false, s) else (true, (s ++ batch)%list)
    | _ => (true, (s ++ batch)%list)
    end
|}.

End ChurnLoader.

(* ------------------------------------------------------------------ *)
(** ** task3: transform.py, the engineered columns *)

Module Telecom.
Import Py Num.

(** A numeric column after the cleaning step that holds at least one
    number: the median has then replaced every missing value, so that each
    row holds a number. *)
Record series : Type := mk_series {
  first_value : Q;
  other_values : list Q
}.

Definition values (s : series) : list Q := first_value s :: other_values s.

Definition qmax (a b : Q) : Q := if Qle_bool a b then b else a.

(** [Series.max()]. *)
Definition series_max (s : series) : Q :=
  fold_left qmax (other_values s) (first_value s).

(** [pd.cut(x, bins=bins, labels=labels, include_lowest=True)]: the edges
    must increase; a value gets the label of the bin [(lo, hi]] it lies in,
    the lowest edge belongs to the first bin, and a value outside every bin
    gets no label (NaN). *)
Fixpoint increasing (bins : list Q) : bool :=
  match bins with
  | a :: (b :: _) as rest => negb (Qle_bool b a) && increasing rest
  | _ => true
  end.

Fixpoint bin_label (lo : Q) (edges : list Q) (labels : list string) (x : Q)
    : option string :=
  match edges, labels with
  | hi :: edges', l :: labels' =>
      if negb (Qle_bool x lo) && Qle_bool x hi then Some l
      else bin_label hi edges' labels' x
  | _, _ => None
  end.

Definition cut_value (bins : list Q) (labels : list string) (x : Q)
    : option string :=
  match bins with
  | [] => None
  | lowest :: edges =>
      if Qeq_bool x lowest then hd_error labels
      else bin_label lowest edges labels x
  end.

Definition cut (x : list Q) (bins : list Q) (labels : list string)
    : result (list (option string)) :=
  if increasing bins then Ok (map (cut_value bins labels) x)
  else Raise "ValueError".

(** Lines 66-71. *)
Definition tenure_group (tenure : series) : result (list (option string)) :=
  cut (values tenure) [0; 12; 36; 60; series_max tenure]
    ["New"; "Regular"; "Loyal"; "Champion"].

(** Lines 74-79. *)
Definition monthly_charge_segment (MonthlyCharges : series)
    : result (list (option string)) :=
  cut (values MonthlyCharges) [0; 30; 70; series_max MonthlyCharges]
    ["Low"; "Medium"; "High"].

(** Lines 82-86. *)
Definition internet_map : dict Q :=
  [("DSL", 1); ("Fiber optic", 1); ("No", 0)].

Definition has_internet_service (InternetService : list string) : list cell :=
  map (fun x => Validator.fillna 0 (Validator.series_map internet_map x))
      InternetService.

(** Line 89. *)
Definition is_multi_line_user (MultipleLines : list string) : list Z :=
  map (fun x => if String.eqb x "Yes" then 1%Z else 0%Z) MultipleLines.

(** The three coded columns as the cells of the staged file read back. *)
Definition staged_codes (codes : list cell) : list json :=
  map LoaderMore.json_of_cell codes.

(** Columns for worked examples. *)
Definition tenures : series := mk_series 0 [1; 12; 13; 36; 37; 60; 61; 72].

Definition short_tenures : series := mk_series 1 [12; 24; 60].

Definition charges : series := mk_series 18.25 [30; 30.05; 70; 70.5; 118.75].

Definition contracts : list string :=
  ["Month-to-month"; "Two year"; "Unknown"; "One year"].

End Telecom.

(* ------------------------------------------------------------------ *)
(** ** AtmosTrack: run_pipeline.py *)

Module Pipeline.
Import Py.

(** The interpreter a step is run with: the exit status of the script, and
    what the script has done to the machine. *)
Class Shell : Type := {
  world : Type;
  subprocess_run : string -> world -> Z * world
}.

Inductive event : Type :=
| PrintHeader
| PrintTitle (title : string)
| Run (command : string)
| PrintStepCompleted (title : string)
| PrintStepFailed (title : string) (returncode : Z)
| PrintStopping
| PrintPipelineCompleted.

Section Steps.
Context {Sh : Shell}.

Definition state : Type := (world * list event)%type.

Definition log (e : event) (st : state) : state :=
  (fst st, (snd st ++ [e])%list).

(** [run_step]: [subprocess.run(..., check=True)] raises CalledProcessError
    exactly when the exit status is not zero, and [sys.exit(1)] raises
    SystemExit. *)
Definition run_step (title command : string) (st : state)
    : result unit * state :=
  let st1 := log (PrintTitle title) st in
  let (returncode, w) := subprocess_run command (fst st1) in
  let st2 := log (Run command) (w, snd st1) in
  if (returncode =? 0)%Z
  then (Ok tt, log (PrintStepCompleted title) st2)
  else (Raise "SystemExit(1)",
        log PrintStopping (log (PrintStepFailed title returncode) st2)).

(** The calls of [run_step] of the main block, one after the other. *)
Fixpoint run_steps (steps : list (string * string)) (st : state)
    : result unit * state :=
  match steps with
  | [] => (Ok tt, st)
  | (title, command) :: rest =>
      match run_step title command st with
      | (Ok _, st') => run_steps rest st'
      | (Raise e, st') => (Raise e, st')
      end
  end.

Definition steps : list (string * string) :=
  [("STEP 1 — Extract (extract.py)", "extract.py");
   ("STEP 2 — Transform (transform.py)", "transform.py");
   ("STEP 3 — Load to Supabase (load.py)", "load.py");
   ("STEP 4 — Analysis & Reports (etl_analysis.py)", "etl_analysis.py")].

Definition main (st : state) : result unit * state :=
  match run_steps steps (log PrintHeader st) with
  | (Ok _, st') => (Ok tt, log PrintPipelineCompleted st')
  | (Raise e, st') => (Raise e, st')
  end.

End Steps.

Definition launched (evs : list event) : list string :=
  flat_map (fun e => match e with Run c => [c] | _ => [] end) evs.

Definition completed (evs : list event) : list string :=
  flat_map (fun e => match e with PrintStepCompleted t => [t] | _ => [] end)
           evs.

Definition failed (evs : list event) : list string :=
  flat_map (fun e => match e with PrintStepFailed t _ => [t] | _ => [] end)
           evs.

Definition finished (evs : list event) : nat :=
  List.length
    (filter (fun e => match e with PrintPipelineCompleted => true | _ => false end)
            evs).

(** A machine on which the script named [bad] ends with status 2 and every
    other script with status 0; its state counts the scripts run. *)
Definition shell_failing (bad : string) : Shell := {|
  world := nat;
  subprocess_run := fun command w =>
    (if String.eqb command bad then 2%Z else 0%Z, S w)
|}.

End Pipeline.

(* ------------------------------------------------------------------ *)
(** ** Equality of the cells of a frame *)

Module Cells.
Import Py.

(** What Python's [==] decides between two cells: numbers are compared by
    value, texts by their characters, and a number never equals a text. *)
Definition same (a b : json) : Prop :=
  match a, b with
  | JNum x, JNum y => x == y
  | JStr s, JStr t => s = t
  | JNull, JNull => True
  | _, _ => False
  end.

End Cells.

(* ------------------------------------------------------------------ *)
(** ** Floats as Python has them *)

Module Double.
Import SpecFloat.

(** A Python float, and a cell of a float64 column: an IEEE 754 binary64
    value, with its two infinities, its signed zeros and NaN. *)
Definition double : Type := spec_float.

Definition prec : Z := 53.
Definition emax : Z := 1024.

Definition nan : double := S754_nan.
Definition inf : double := S754_infinity false.
Definition neg_inf : double := S754_infinity true.

(** [pd.isna(x)], and [math.isfinite(x)]. *)
Definition isna (x : double) : bool :=
  match x with S754_nan => true | _ => false end.

Definition is_finite (x : double) : bool :=
  match x with
  | S754_zero _ | S754_finite _ _ _ => true
  | _ => false
  end.

(** Python [x * y] and [x + y] on floats: the exact result rounded to the
    nearest double, ties to even; a result beyond the range is an
    infinity. *)
Definition mul (x y : double) : double := SFmul prec emax x y.
Definition add (x y : double) : double := SFadd prec emax x y.

(** Python [x <= y] and [x > y]: every comparison with NaN is False. *)
Definition le (x y : double) : bool := SFleb x y.
Definition gt (x y : double) : bool := SFltb y x.

(** The float an integer operand or literal stands for. *)
Definition of_Z (z : Z) : double := binary_normalize prec emax z 0 false.

(** The float a decimal literal of a JSON document is read as: the double
    nearest to the rational the literal denotes. *)
Definition of_Q (q : Q) : double :=
  match Qnum q with
  | Z0 => S754_zero false
  | Zpos n =>
      let '(m, e, l) :=
        SFdiv_core_binary prec emax (Zpos n) 0 (Zpos (Qden q)) 0 in
      binary_round_aux prec emax false m e l
  | Zneg n =>
      let '(m, e, l) :=
        SFdiv_core_binary prec emax (Zpos n) 0 (Zpos (Qden q)) 0 in
      binary_round_aux prec emax true m e l
  end.

End Double.

(* ------------------------------------------------------------------ *)
(** ** transform.py (AtmosTrack), first script, on floats *)

(** The first script once more, with the numbers of the frame as the
    doubles pandas holds and the time column parsed as a column.  The raw
    files, [DataFrame], the pollutant subset and the city name are those of
    [Transformer]. *)
Module Transformer64.
Import Py Double.

(** The pandas parsers of the script.  [pd.to_datetime(column,
    errors="coerce")] infers the format from the column, so it is given for
    a column as a whole: the timestamp, or NaT ([None]), of each position;
    [Raise] stands for a column that [to_datetime], or the [.dt] accessor
    applied to what it returns, refuses.  [str_to_double] is the parsing of
    a numeric string by [pd.to_numeric]. *)
Class Parsers : Type := {
  to_datetime_column : list json -> result (nat -> option Timestamp);
  str_to_double : string -> option double
}.

(** *** Feature engineering *)

Definition compute_aqi (pm2_5 : double) : string :=
  if le pm2_5 (of_Z 50) then "Good"
  else if le pm2_5 (of_Z 100) then "Moderate"
  else if le pm2_5 (of_Z 200) then "Unhealthy"
  else if le pm2_5 (of_Z 300) then "Very Unhealthy"
  else "Hazardous".

Definition series : Type := dict double.

Definition get (row : series) (key : string) (default : double) : double :=
  match dict_get row key with
  | Some v => v
  | None => default
  end.

Definition compute_severity (row : series) : double :=
  add (add (add (add (add
    (mul (get row "pm2_5" (of_Z 0)) (of_Z 5))
    (mul (get row "pm10" (of_Z 0)) (of_Z 3)))
    (mul (get row "nitrogen_dioxide" (of_Z 0)) (of_Z 4)))
    (mul (get row "sulphur_dioxide" (of_Z 0)) (of_Z 4)))
    (mul (get row "carbon_monoxide" (of_Z 0)) (of_Z 2)))
    (mul (get row "ozone" (of_Z 0)) (of_Z 3)).

Definition classify_risk (severity : double) : string :=
  if gt severity (of_Z 400) then "High Risk"
  else if gt severity (of_Z 200) then "Moderate Risk"
  else "Low Risk".

(** *** The frame of a city file *)

(** The columns of the loop on line 76. *)
Definition measured : list string :=
  ["pm10"; "pm2_5"; "carbon_monoxide"; "nitrogen_dioxide"; "ozone";
   "sulphur_dioxide"; "uv_index"].

(** A row of the frame after the numeric conversion (line 77). *)
Record num_row : Type := mk_num_row {
  nr_city : string;
  nr_pm10 : double;
  nr_pm2_5 : double;
  nr_carbon_monoxide : double;
  nr_nitrogen_dioxide : double;
  nr_ozone : double;
  nr_sulphur_dioxide : double;
  nr_uv_index : double
}.

Definition num_items (r : num_row) : series :=
  [("pm10", nr_pm10 r); ("pm2_5", nr_pm2_5 r);
   ("carbon_monoxide", nr_carbon_monoxide r);
   ("nitrogen_dioxide", nr_nitrogen_dioxide r);
   ("ozone", nr_ozone r); ("sulphur_dioxide", nr_sulphur_dioxide r);
   ("uv_index", nr_uv_index r)].

(** [df.dropna(subset=..., how="all")]: a row goes when every column of the
    subset is missing in it; an infinity is not a missing value. *)
Definition all_missing (subset : list string) (r : num_row) : bool :=
  forallb (fun c => isna (get (num_items r) c nan)) subset.

Definition dropna_all (subset : list string) (df : list (nat * num_row))
    : list (nat * num_row) :=
  filter (fun ir => negb (all_missing subset (snd ir))) df.

(** A field of the comma-delimited staged file: a number, text, or a
    timestamp in the date format of pandas. *)
Inductive csv_cell : Type :=
| CsvNum (x : double)
| CsvText (s : string)
| CsvTime (t : Timestamp).

(** [DataFrame.to_csv] writes a missing value as its [na_rep], whose default
    is the empty string, and any other float as a number: an infinity as
    [inf] or [-inf]. *)
Definition na_rep : string := "".

Definition csv_of_double (x : double) : csv_cell :=
  if isna x then CsvText na_rep else CsvNum x.

(** A row of the frame a city file is transformed to (line 91). *)
Record staged_row : Type := mk_staged_row {
  city : string;
  time : option Timestamp;
  pm10 : double;
  pm2_5 : double;
  carbon_monoxide : double;
  nitrogen_dioxide : double;
  ozone : double;
  sulphur_dioxide : double;
  uv_index : double;
  hour : double;
  AQI_category : string;
  severity : double;
  risk : string
}.

(** [df["time"].dt.hour]: NaN on NaT. *)
Definition hour_of (t : option Timestamp) : double :=
  match t with
  | Some ts => of_Z (dt_hour ts)
  | None => nan
  end.

(** The numeric entries of the Series that [df.apply(..., axis=1)] hands to
    [compute_severity]. *)
Definition row_items (r : num_row) (h : double) : series :=
  (num_items r ++ [("hour", h)])%list.

(** Lines 84-89 on one row; [t] is the row's entry of the parsed time
    column. *)
Definition add_features (r : num_row) (t : option Timestamp) : staged_row :=
  let hour' := hour_of t in
  let sev := compute_severity (row_items r hour') in
  mk_staged_row (nr_city r) t
    (nr_pm10 r) (nr_pm2_5 r) (nr_carbon_monoxide r)
    (nr_nitrogen_dioxide r) (nr_ozone r) (nr_sulphur_dioxide r)
    (nr_uv_index r) hour'
    (compute_aqi (nr_pm2_5 r)) sev (classify_risk sev).

Section Frames.
Context {P : Parsers}.

(** [pd.to_numeric(..., errors="coerce")] on one value. *)
Definition to_numeric (v : json) : double :=
  match v with
  | JNum q => of_Q q
  | JNull => nan
  | JStr s => match str_to_double s with
              | Some x => x
              | None => nan
              end
  end.

(** [pd.to_numeric(df.get(col, 0), errors="coerce")] assigned to [df[col]]:
    a column absent from the frame yields the scalar 0, which the assignment
    broadcasts to the [n] rows. *)
Definition numeric_column (hourly : dict (list json)) (n : nat)
    (col : string) : list double :=
  match dict_get hourly col with
  | Some v => map to_numeric v
  | None => repeat (of_Z 0) n
  end.

(** The frame after line 77, row by row, each with its index. *)
Definition num_rows (city_name : string) (hourly : dict (list json))
    (n : nat) : list (nat * num_row) :=
  let col c i := nth i (numeric_column hourly n c) nan in
  map (fun i =>
         (i, mk_num_row city_name
               (col "pm10" i) (col "pm2_5" i) (col "carbon_monoxide" i)
               (col "nitrogen_dioxide" i) (col "ozone" i)
               (col "sulphur_dioxide" i) (col "uv_index" i)))
      (seq 0 n).

(** The frame returned for one raw file, as indexed rows.  The time column
    is parsed after the rows without pollutants are dropped, so the parser
    sees the times of the rows that are kept, in their order. *)
Definition transform_city_file (f : Transformer.raw_file)
    : result (list (nat * staged_row)) :=
  let city_name := Transformer.split_head "_raw_" (Transformer.stem f) in
  let hourly := Transformer.hourly_of f in
  match hourly with
  | [] => Ok []
  | _ :: _ =>
      match Transformer.DataFrame hourly with
      | Raise e => Raise e
      | Ok O => Ok []
      | Ok n =>
          let df :=
            dropna_all Transformer.pollutants (num_rows city_name hourly n) in
          match dict_get hourly "time" with
          | None => Raise "KeyError"
          | Some times =>
              match to_datetime_column
                      (map (fun ir => nth (fst ir) times JNull) df) with
              | Raise e => Raise e
              | Ok parsed =>
                  Ok (map (fun kir =>
                             (fst (snd kir),
                              add_features (snd (snd kir)) (parsed (fst kir))))
                          (enumerate df))
              end
          end
      end
  end.

(** *** The staged file *)

(** The field written for a timestamp; NaT is a missing value. *)
Definition csv_of_time (t : option Timestamp) : csv_cell :=
  match t with
  | Some ts => CsvTime ts
  | None => CsvText na_rep
  end.

(** One line of the staged file, by column name.  The columns are listed in
    the order they have for a payload of the source API. *)
Definition to_csv_row (r : staged_row) : dict csv_cell :=
  [("time", csv_of_time (time r));
   ("pm10", csv_of_double (pm10 r));
   ("pm2_5", csv_of_double (pm2_5 r));
   ("carbon_monoxide", csv_of_double (carbon_monoxide r));
   ("nitrogen_dioxide", csv_of_double (nitrogen_dioxide r));
   ("ozone", csv_of_double (ozone r));
   ("sulphur_dioxide", csv_of_double (sulphur_dioxide r));
   ("uv_index", csv_of_double (uv_index r));
   ("city", CsvText (city r));
   ("hour", csv_of_double (hour r));
   ("AQI_category", CsvText (AQI_category r));
   ("severity", csv_of_double (severity r));
   ("risk", CsvText (risk r))].

Definition to_csv (df : list staged_row) : list (dict csv_cell) :=
  map to_csv_row df.

(** The loop of [transform_all]: the non-empty frames, in the order of the
    files. *)
Fixpoint collect (files : list Transformer.raw_file)
    : result (list (list (nat * staged_row))) :=
  match files with
  | [] => Ok []
  | f :: rest =>
      match transform_city_file f with
      | Raise e => Raise e
      | Ok df =>
          match collect rest with
          | Raise e => Raise e
          | Ok all_dfs =>
              match df with
              | [] => Ok all_dfs
              | _ :: _ => Ok (df :: all_dfs)
              end
          end
      end
  end.

(** [pd.concat(all_dfs, ignore_index=True)]: the rows in order, their
    indices dropped. *)
Definition concat_ignore_index (all_dfs : list (list (nat * staged_row)))
    : list staged_row :=
  map snd (List.concat all_dfs).

(** [transform_all]: the frame returned and, when one is written, the content
    of the staged file. *)
Definition transform_all (files : list Transformer.raw_file)
    : result (list staged_row * option (list (dict csv_cell))) :=
  match collect files with
  | Raise e => Raise e
  | Ok [] => Ok ([], None)
  | Ok all_dfs =>
      let final_df := concat_ignore_index all_dfs in
      Ok (final_df, Some (to_csv final_df))
  end.

End Frames.

(** The numeric fields of a line of the staged file. *)
Definition numeric_names : list string :=
  ["pm10"; "pm2_5"; "carbon_monoxide"; "nitrogen_dioxide"; "ozone";
   "sulphur_dioxide"; "uv_index"; "severity"; "hour"].

(** A parser instance for worked examples: a column of timestamps of the
    shape [YYYY-MM-DDTHH:MM] is parsed value by value; no text is
    numeric. *)
Definition iso_columns : Parsers := {|
  to_datetime_column := fun col =>
    Ok (fun k => Transformer.iso_time (nth k col JNull));
  str_to_double := fun _ => None
|}.

(** A payload of one hour whose PM2.5 value is 1e308, and the staged table
    it gives. *)
Definition file_huge_pm2_5 : Transformer.raw_file :=
  Transformer.mk_raw_file "delhi_raw_20240101T000000Z"
    [("time", [JStr "2024-01-01T00:00"]);
     ("pm10", [JNum 1]);
     ("pm2_5", [JNum (10 ^ 308)]);
     ("carbon_monoxide", [JNum 1]);
     ("nitrogen_dioxide", [JNum 1]);
     ("ozone", [JNum 1]);
     ("sulphur_dioxide", [JNum 1]);
     ("uv_index", [JNum 1])].

(** A payload of one hour whose weighted sum is exactly 400: PM10 86.4 and
    nitrogen dioxide 35.2, the other pollutants 0. *)
Definition file_boundary : Transformer.raw_file :=
  Transformer.mk_raw_file "pune_raw_20240101T000000Z"
    [("time", [JStr "2024-01-01T00:00"]);
     ("pm10", [JNum 86.4]);
     ("pm2_5", [JNum 0]);
     ("carbon_monoxide", [JNum 0]);
     ("nitrogen_dioxide", [JNum 35.2]);
     ("ozone", [JNum 0]);
     ("sulphur_dioxide", [JNum 0]);
     ("uv_index", [JNum 0])].

End Transformer64.

(* ================================================================== *)
(** * Properties *)

Module PyFacts.
Import Py.

Lemma in_combine_seq {A : Type} (l : list A) (s k : nat) (x : A) :
  In (k, x) (combine (seq s (List.length l)) l) <->
  (s <= k)%nat /\ nth_error l (k - s) = Some x.
Proof.
  revert s. induction l as [|a l IH]; intros s; cbn [List.length seq combine].
  - split; [intros [] | intros [_ H]]. destruct (k - s)%nat; discriminate.
  - cbn [In]. rewrite IH. split.
    + intros [H | [Hle H]].
      * injection H as <- <-. split; [lia|]. rewrite Nat.sub_diag. reflexivity.
      * split; [lia|]. replace (k - s)%nat with (S (k - S s)) by lia. exact H.
    + intros [Hle H]. destruct (Nat.eq_dec s k) as [<-|Hne].
      * left. rewrite Nat.sub_diag in H. injection H as <-. reflexivity.
      * right. split; [lia|].
        replace (k - s)%nat with (S (k - S s)) in H by lia. exact H.
Qed.

(** A row is at a position of [enumerate] exactly when it is at that
    position of the frame. *)
Lemma in_enumerate {A : Type} (l : list A) (k : nat) (x : A) :
  In (k, x) (enumerate l) <-> nth_error l k = Some x.
Proof.
  unfold enumerate. rewrite in_combine_seq, Nat.sub_0_r.
  split; [tauto | intros H; split; [lia | exact H]].
Qed.

Lemma map_snd_enumerate {A : Type} (l : list A) : map snd (enumerate l) = l.
Proof.
  unfold enumerate. generalize 0%nat. induction l as [|a l IH]; intros s.
  - reflexivity.
  - cbn. f_equal. apply IH.
Qed.

Lemma length_enumerate {A : Type} (l : list A) :
  List.length (enumerate l) = List.length l.
Proof.
  rewrite <- (map_snd_enumerate l) at 2. symmetry. apply length_map.
Qed.

Lemma nth_error_combine_seq {A : Type} (l : list A) (s k : nat) :
  nth_error (combine (seq s (List.length l)) l) k
  = option_map (pair (s + k)%nat) (nth_error l k).
Proof.
  revert s k. induction l as [|a l IH]; intros s k.
  - destruct k; reflexivity.
  - cbn [List.length seq combine]. destruct k as [|k].
    + cbn. rewrite Nat.add_0_r. reflexivity.
    + cbn [nth_error]. rewrite IH.
      replace (S s + k)%nat with (s + S k)%nat by lia. reflexivity.
Qed.

Lemma nth_error_enumerate {A : Type} (l : list A) (k : nat) :
  nth_error (enumerate l) k = option_map (pair k) (nth_error l k).
Proof. unfold enumerate. apply nth_error_combine_seq. Qed.

End PyFacts.

Module NumFacts.
Import Num.

Lemma le_true (a k : Q) : le (Fin a) k = true <-> a <= k.
Proof. unfold le. apply Qle_bool_iff. Qed.

Lemma le_false (a k : Q) : le (Fin a) k = false <-> k < a.
Proof.
  unfold le. rewrite <- not_true_iff_false, Qle_bool_iff.
  split; [apply Qnot_le_lt | apply Qlt_not_le].
Qed.

Lemma gt_true (a k : Q) : gt (Fin a) k = true <-> k < a.
Proof. unfold gt. rewrite negb_true_iff. apply (le_false a k). Qed.

Lemma gt_false (a k : Q) : gt (Fin a) k = false <-> a <= k.
Proof. unfold gt. rewrite negb_false_iff. apply Qle_bool_iff. Qed.



End NumFacts.

Module TransformerFacts.
Import Py Num NumFacts Transformer.

(** Decides a comparison between two rational literals. *)
Ltac qcmp := unfold Qle, Qlt; simpl; lia.

(** Splits [compute_aqi] or [classify_risk] on the outcome of each of its
    comparisons, turning them into facts about the rational. *)
Ltac by_bands q :=
  repeat match goal with
    | |- context [le (Fin q) ?k] =>
        let E := fresh "E" in
        destruct (le (Fin q) k) eqn:E;
        [apply le_true in E | apply le_false in E]
    | |- context [gt (Fin q) ?k] =>
        let E := fresh "E" in
        destruct (gt (Fin q) k) eqn:E;
        [apply gt_true in E | apply gt_false in E]
    end.

(** Closes a goal whose rational hypotheses contradict one another. *)
Ltac q_absurd :=
  exfalso;
  repeat match goal with
    | H : _ /\ _ |- _ => destruct H
    end;
  repeat match goal with
    | H1 : ?a <= ?k, H2 : ?k' < ?a |- _ =>
        first [ apply (Qlt_irrefl a);
                apply Qle_lt_trans with k; [exact H1|];
                apply Qle_lt_trans with k'; [qcmp | exact H2]
              | fail 1 ]
    end.

(** C4. The category label is a step function of the PM2.5 value with
    inclusive upper bounds: "Good" up to and including 50, "Moderate" above
    50 up to and including 100, "Unhealthy" up to and including 200, "Very
    Unhealthy" up to and including 300, "Hazardous" above 300. *)
Theorem compute_aqi_bands (q : Q) :
  (q <= 50 -> compute_aqi (Fin q) = "Good") /\
  (50 < q /\ q <= 100 -> compute_aqi (Fin q) = "Moderate") /\
  (100 < q /\ q <= 200 -> compute_aqi (Fin q) = "Unhealthy") /\
  (200 < q /\ q <= 300 -> compute_aqi (Fin q) = "Very Unhealthy") /\
  (300 < q -> compute_aqi (Fin q) = "Hazardous").
Proof.
  unfold compute_aqi.
  repeat split; intros H; by_bands q; try reflexivity; q_absurd.
Qed.

Lemma compute_aqi_bands_witness :
  compute_aqi (Fin 50) = "Good" /\
  compute_aqi (Fin 50.0001) = "Moderate" /\
  compute_aqi (Fin 100) = "Moderate" /\
  compute_aqi (Fin 200) = "Unhealthy" /\
  compute_aqi (Fin 300) = "Very Unhealthy" /\
  compute_aqi (Fin 300.0001) = "Hazardous".
Proof.
  repeat apply conj.
  - apply (compute_aqi_bands 50). qcmp.
  - apply (compute_aqi_bands 50.0001). split; qcmp.
  - apply (compute_aqi_bands 100). split; qcmp.
  - apply (compute_aqi_bands 200). split; qcmp.
  - apply (compute_aqi_bands 300). split; qcmp.
  - apply (compute_aqi_bands 300.0001). qcmp.
Defined.

(** C5. The risk tier is a step function of the severity score with
    exclusive lower bounds: "High Risk" strictly above 400, "Moderate Risk"
    strictly above 200 up to and including 400, "Low Risk" up to and
    including 200. *)
Theorem classify_risk_bands (s : Q) :
  (400 < s -> classify_risk (Fin s) = "High Risk") /\
  (200 < s /\ s <= 400 -> classify_risk (Fin s) = "Moderate Risk") /\
  (s <= 200 -> classify_risk (Fin s) = "Low Risk").
Proof.
  unfold classify_risk.
  repeat split; intros H; by_bands s; try reflexivity; q_absurd.
Qed.

Lemma classify_risk_bands_witness :
  classify_risk (Fin 400) = "Moderate Risk" /\
  classify_risk (Fin 400.0001) = "High Risk" /\
  classify_risk (Fin 200) = "Low Risk" /\
  classify_risk (Fin 200.0001) = "Moderate Risk".
Proof.
  repeat apply conj.
  - apply (classify_risk_bands 400). split; qcmp.
  - apply (classify_risk_bands 400.0001). qcmp.
  - apply (classify_risk_bands 200). qcmp.
  - apply (classify_risk_bands 200.0001). split; qcmp.
Defined.

Section Rows.
Context {P : Pandas}.

(** Where a row of the frame of a city file comes from. *)
Lemma in_transform_city_file (f : raw_file) out (i : nat) (r : staged_row) :
  transform_city_file f = Ok out ->
  In (i, r) out ->
  exists n nr times,
    DataFrame (hourly_of f) = Ok n /\
    dict_get (hourly_of f) "time" = Some times /\
    In (i, nr) (num_rows (split_head "_raw_" (stem f)) (hourly_of f) n) /\
    all_missing pollutants nr = false /\
    r = add_features nr (nth i times JNull).
Proof.
  unfold transform_city_file. intros Hf Hin.
  destruct (hourly_of f) as [|kv hourly] eqn:Eh.
  { inversion Hf; subst. destruct Hin. }
  destruct (DataFrame (kv :: hourly)) as [n|e] eqn:Ed; [|discriminate].
  destruct n as [|n]. { inversion Hf; subst. destruct Hin. }
  destruct (dict_get (kv :: hourly) "time") as [times|] eqn:Et; [|discriminate].
  remember (num_rows (split_head "_raw_" (stem f)) (kv :: hourly) (S n))
    as rows eqn:Er.
  injection Hf as Hf. rewrite <- Hf in Hin.
  apply in_map_iff in Hin. destruct Hin as [[j nr] [Heq Hin]].
  cbn [fst snd] in Heq. injection Heq as Hj Hr. subst j.
  apply filter_In in Hin. destruct Hin as [Hin Hk].
  cbn [snd] in Hk. apply negb_true_iff in Hk.
  exists (S n), nr, times. subst r rows. repeat split; assumption.
Qed.

(** The derived fields of a staged row are functions of its stored ones. *)
Lemma add_features_derived (nr : num_row) (t : json) :
  let r := add_features nr t in
  AQI_category r = compute_aqi (pm2_5 r) /\
  severity r =
    add (add (add (add (add
      (mul (pm2_5 r) (Fin 5)) (mul (pm10 r) (Fin 3)))
      (mul (nitrogen_dioxide r) (Fin 4)))
      (mul (sulphur_dioxide r) (Fin 4)))
      (mul (carbon_monoxide r) (Fin 2)))
      (mul (ozone r) (Fin 3)) /\
  risk r = classify_risk (severity r).
Proof. repeat split. Qed.

(** The [0] default of [row.get] in [compute_severity] is never taken on a
    row of the frame: the seven numeric columns are always in its index. *)
Lemma get_row_items (nr : num_row) (h : cell) (key : string) (d : cell) :
  In key pollutants ->
  exists v, dict_get (row_items nr h) key = Some v /\
            get (row_items nr h) key d = v.
Proof.
  unfold pollutants. simpl.
  intros [H|[H|[H|[H|[H|[H|[]]]]]]]; subst; unfold get; simpl; eauto.
Qed.


(** When the six metrics are all present the severity is the weighted sum,
    and agrees with the zero-default reading. *)
Lemma severity_all_present (f : raw_file) out (i : nat) (r : staged_row)
    (a b c d e g : Q) :
  transform_city_file f = Ok out ->
  In (i, r) out ->
  pm2_5 r = Fin a -> pm10 r = Fin b -> nitrogen_dioxide r = Fin c ->
  sulphur_dioxide r = Fin d -> carbon_monoxide r = Fin e -> ozone r = Fin g ->
  severity r = Fin (a * 5 + b * 3 + c * 4 + d * 4 + e * 2 + g * 3) /\
  severity r = spec_severity r.
Proof.
  intros Hf Hin H1 H2 H3 H4 H5 H6.
  destruct (in_transform_city_file f out i r Hf Hin)
    as (n & nr & times & _ & _ & _ & _ & Hr).
  destruct (add_features_derived nr (nth i times JNull)) as (_ & Hs & _).
  rewrite <- Hr in Hs. unfold spec_severity.
  rewrite Hs, H1, H2, H3, H4, H5, H6. split; reflexivity.
Qed.

Lemma forallb_false {A : Type} (p : A -> bool) (l : list A) :
  forallb p l = false <-> exists x, In x l /\ p x = false.
Proof.
  induction l as [|a l IH]; simpl.
  - split; [discriminate | intros (x & [] & _)].
  - rewrite andb_false_iff, IH. split.
    + intros [Ha | (x & Hx & Hp)]; [exists a | exists x]; auto.
    + intros (x & [Hx | Hx] & Hp); [subst; auto | right; exists x; auto].
Qed.

(** The row of index [i] of the frame after the numeric conversion. *)
Lemma in_num_rows (city_name : string) (hourly : dict (list json)) (n i : nat)
    (nr : num_row) :
  In (i, nr) (num_rows city_name hourly n) <->
  (i < n)%nat /\
  nr = mk_num_row city_name
         (nth i (numeric_column hourly n "pm10") NaN)
         (nth i (numeric_column hourly n "pm2_5") NaN)
         (nth i (numeric_column hourly n "carbon_monoxide") NaN)
         (nth i (numeric_column hourly n "nitrogen_dioxide") NaN)
         (nth i (numeric_column hourly n "ozone") NaN)
         (nth i (numeric_column hourly n "sulphur_dioxide") NaN)
         (nth i (numeric_column hourly n "uv_index") NaN).
Proof.
  unfold num_rows. rewrite in_map_iff. split.
  - intros (j & Heq & Hj). apply in_seq in Hj.
    injection Heq as Hi Hr. subst j. split; [lia | now symmetry].
  - intros (Hi & Hr). exists i. split; [now rewrite Hr | apply in_seq; lia].
Qed.

(** A row of that frame lacks all six pollutants exactly when the six cells
    of its index are NaN. *)
Lemma all_missing_row (city_name : string) (hourly : dict (list json))
    (n i : nat) (nr : num_row) :
  In (i, nr) (num_rows city_name hourly n) ->
  (all_missing pollutants nr = false <->
   exists c, In c pollutants /\
             isna (nth i (numeric_column hourly n c) NaN) = false).
Proof.
  intros Hin. apply in_num_rows in Hin. destruct Hin as [_ Hr].
  unfold all_missing. rewrite forallb_false.
  split; intros (c & Hc & Hp); exists c; split; try assumption;
    revert Hp; subst nr; unfold pollutants in Hc; simpl in Hc;
    destruct Hc as [H|[H|[H|[H|[H|[H|[]]]]]]]; subst c; exact (fun x => x).
Qed.

(** Which rows of a raw file are in the frame of its city: those with at
    least one pollutant present. *)
Lemma transform_city_file_keeps (f : raw_file) (n : nat) out :
  DataFrame (hourly_of f) = Ok n ->
  transform_city_file f = Ok out ->
  forall i, (i < n)%nat ->
    ((exists r, In (i, r) out) <->
     exists c, In c pollutants /\
               isna (nth i (numeric_column (hourly_of f) n c) NaN) = false).
Proof.
  intros Hd Hf i Hi. split.
  - intros (r & Hin).
    destruct (in_transform_city_file f out i r Hf Hin)
      as (n' & nr & times & Hd' & _ & Hnr & Hm & _).
    rewrite Hd in Hd'. injection Hd' as <-.
    apply (all_missing_row _ _ _ _ _ Hnr). exact Hm.
  - intros Hc. unfold transform_city_file in Hf.
    destruct (hourly_of f) as [|kv hourly] eqn:Eh.
    { simpl in Hd. injection Hd as <-. lia. }
    rewrite Hd in Hf. destruct n as [|n]; [lia|].
    destruct (dict_get (kv :: hourly) "time") as [times|]; [|discriminate].
    injection Hf as <-.
    remember (split_head "_raw_" (stem f)) as city_name.
    assert (Hex : exists nr, In (i, nr) (num_rows city_name (kv :: hourly) (S n))).
    { eexists. apply in_num_rows. split; [exact Hi | reflexivity]. }
    destruct Hex as (nr & Hnr).
    exists (add_features nr (nth i times JNull)).
    set (g := fun ir : nat * num_row =>
                (fst ir, add_features (snd ir) (nth (fst ir) times JNull))).
    change (In (g (i, nr))
              (map g (dropna_all pollutants
                        (num_rows city_name (kv :: hourly) (S n))))).
    apply in_map. unfold dropna_all.
    apply (proj2 (filter_In _ _ _)). split; [exact Hnr|].
    cbn [snd]. apply negb_true_iff.
    apply (all_missing_row _ _ _ _ _ Hnr). exact Hc.
Qed.

(** The frames collected by [transform_all] hold the rows of the frames of
    the files, and nothing else. *)
Lemma collect_rows (files : list raw_file) all_dfs :
  collect files = Ok all_dfs ->
  (forall f, In f files -> exists out, transform_city_file f = Ok out) /\
  (forall ir, In ir (List.concat all_dfs) <->
     exists f out, In f files /\ transform_city_file f = Ok out /\ In ir out).
Proof.
  revert all_dfs. induction files as [|f files IH]; simpl; intros all_dfs H.
  - injection H as <-. split; [intros f []|]. simpl.
    split; [intros [] | intros (f & out & [] & _)].
  - destruct (transform_city_file f) as [df|e] eqn:Ef; [|discriminate].
    destruct (collect files) as [rest|e] eqn:Ec; [|discriminate].
    destruct (IH rest eq_refl) as [IH1 IH2].
    split.
    + intros g [<-|Hg]; [exists df; exact Ef | apply IH1; exact Hg].
    + intros ir.
      assert (Hcat : In ir (List.concat all_dfs) <->
                     In ir df \/ In ir (List.concat rest)).
      { destruct df as [|x df]; injection H as <-.
        - simpl. tauto.
        - rewrite concat_cons, in_app_iff. tauto. }
      rewrite Hcat, IH2. split.
      * intros [Hd | (g & out & Hg & Ho & Hin)].
        -- exists f, df. auto.
        -- exists g, out. auto.
      * intros (g & out & [<-|Hg] & Ho & Hin).
        -- left. rewrite Ef in Ho. injection Ho as <-. exact Hin.
        -- right. exists g, out. auto.
Qed.

Lemma transform_all_inv (files : list raw_file) final csv :
  transform_all files = Ok (final, csv) ->
  exists all_dfs,
    collect files = Ok all_dfs /\
    final = concat_ignore_index all_dfs /\
    (csv = None \/ csv = Some (to_csv final)).
Proof.
  unfold transform_all. intros H.
  destruct (collect files) as [all_dfs|e]; [|discriminate].
  exists all_dfs. destruct all_dfs; injection H as <- <-; auto.
Qed.

(** C6, amended.  In a run of the transform that ends normally, a row of a
    raw file is in the frame of its file exactly when at least one of the
    six pollutant columns (pm10, pm2_5, carbon_monoxide, nitrogen_dioxide,
    ozone, sulphur_dioxide) is present in it after the numeric conversion,
    in which a pollutant array absent from the payload is the number 0 in
    every row; the UV index is not consulted.  The rows so kept are in the
    staged table, and the staged table has no other row. *)
Theorem rows_dropped_iff_all_absent (files : list raw_file) final csv :
  transform_all files = Ok (final, csv) ->
  (forall f, In f files ->
     exists n out,
       DataFrame (hourly_of f) = Ok n /\
       transform_city_file f = Ok out /\
       (forall i, (i < n)%nat ->
          ((exists r, In (i, r) out) <->
           exists c, In c pollutants /\
                     isna (nth i (numeric_column (hourly_of f) n c) NaN)
                     = false)) /\
       (forall i r, In (i, r) out -> (i < n)%nat /\ In r final)) /\
  (forall r, In r final ->
     exists f out i,
       In f files /\ transform_city_file f = Ok out /\ In (i, r) out).
Proof.
  intros H.
  destruct (transform_all_inv files final csv H) as (all_dfs & Hc & Hfin & _).
  destruct (collect_rows files all_dfs Hc) as [Hok Hrows].
  split.
  - intros f Hf. destruct (Hok f Hf) as (out & Hout).
    assert (Hn : exists n, DataFrame (hourly_of f) = Ok n).
    { unfold transform_city_file in Hout.
      destruct (hourly_of f) as [|kv hourly]; [exists 0%nat; reflexivity|].
      destruct (DataFrame (kv :: hourly)) as [n|e]; [eauto | discriminate]. }
    destruct Hn as (n & Hn). exists n, out.
    split; [exact Hn|]. split; [exact Hout|]. split.
    + apply transform_city_file_keeps; assumption.
    + intros i r Hin. split.
      * destruct (in_transform_city_file f out i r Hout Hin)
          as (n' & nr & times & Hd' & _ & Hnr & _).
        rewrite Hn in Hd'. injection Hd' as <-.
        apply in_num_rows in Hnr. tauto.
      * subst final. unfold concat_ignore_index.
        apply in_map_iff. exists (i, r). split; [reflexivity|].
        apply Hrows. exists f, out. auto.
  - intros r Hr. subst final. unfold concat_ignore_index in Hr.
    apply in_map_iff in Hr. destruct Hr as ([i r'] & Heq & Hin).
    simpl in Heq. subst r'.
    apply Hrows in Hin. destruct Hin as (f & out & Hf & Ho & Hin).
    exists f, out, i. auto.
Qed.

End Rows.

Lemma rows_dropped_iff_all_absent_witness :
  exists final csv,
    transform_all (P := iso_minutes) Inputs.two_files = Ok (final, csv) /\
    List.length final = 4%nat /\
    (forall r, In r final ->
       exists f out i,
         In f Inputs.two_files /\
         transform_city_file (P := iso_minutes) f = Ok out /\
         In (i, r) out).
Proof.
  assert (Hrun : transform_all (P := iso_minutes) Inputs.two_files
                 = Inputs.staged_two_files) by (vm_compute; reflexivity).
  unfold Inputs.staged_two_files in Hrun.
  eexists. eexists. split; [exact Hrun|].
  split; [reflexivity|].
  exact (proj2 (rows_dropped_iff_all_absent (P := iso_minutes)
                  Inputs.two_files _ _ Hrun)).
Defined.

(** C2. At a payload whose only row lacks the PM2.5 value, the row is kept
    with its PM2.5 field missing, and the severity computed is NaN; the
    weighted sum with zero for the missing metric is 43. *)
Theorem severity_nan_on_absent_metric :
  transform_city_file (P := iso_minutes) Inputs.file_null_pm2_5
  = Ok [(0%nat, Inputs.row_null_pm2_5)] /\
  pm2_5 Inputs.row_null_pm2_5 = NaN /\
  pm10 Inputs.row_null_pm2_5 = Fin 10 /\
  severity Inputs.row_null_pm2_5 = NaN /\
  spec_severity Inputs.row_null_pm2_5 = Fin 43 /\
  ~ eqv (severity Inputs.row_null_pm2_5) (spec_severity Inputs.row_null_pm2_5).
Proof.
  repeat apply conj; try (vm_compute; reflexivity).
  vm_compute. exact (fun x => x).
Qed.


End TransformerFacts.

Module FetcherFacts.
Import Py Fetcher.

Section Fetch.
Context {Src : Source}.

(** The loop makes at most [fuel] requests, all for its city, and only adds
    events to the log; when it runs out with its last iteration at
    [max_retries], the events are those of [exhausted_trace]. *)
Lemma attempts_trace (max_retries : Z) (city : string) (lat lon : Q)
    (fuel : nat) :
  forall (attempt : Z) (st : state) res st',
    attempts max_retries fuel attempt city lat lon st = (res, st') ->
    exists evs,
      snd st' = (snd st ++ evs)%list /\
      (List.length (gets evs) <= fuel)%nat /\
      (res = Ok None ->
       (1 <= attempt)%Z ->
       (attempt + Z.of_nat fuel = max_retries + 1)%Z ->
       evs = exhausted_trace city (2 ^ (attempt - 1)) fuel).
Proof.
  induction fuel as [|fuel IH]; intros attempt st res st' H.
  - simpl in H. injection H as <- <-. exists []. rewrite app_nil_r.
    repeat split; auto.
  - cbn [attempts] in H.
    destruct (try_get city lat lon (fst st)) as [o w].
    destruct o as [path | e | e].
    + injection H as <- <-. exists [Get city].
      repeat split; simpl; try lia. discriminate.
    + destruct (attempt <? max_retries)%Z eqn:Elt.
      * apply IH in H. destruct H as (evs & Hlog & Hlen & Hex).
        exists (Get city :: Sleep (inject_Z (2 ^ (attempt - 1))) :: evs).
        split; [|split].
        -- rewrite Hlog. unfold log. cbn [fst snd].
           rewrite <- !app_assoc. reflexivity.
        -- simpl. simpl in Hlen. lia.
        -- intros Hres H1 Hsum. apply Z.ltb_lt in Elt.
           destruct fuel as [|fuel]; [lia|].
           cbn [exhausted_trace]. do 2 f_equal.
           rewrite (Hex Hres) by lia.
           f_equal. replace (attempt + 1 - 1)%Z with (Z.succ (attempt - 1)) by lia.
           rewrite Z.pow_succ_r by lia. reflexivity.
      * apply Z.ltb_ge in Elt. destruct fuel as [|fuel].
        -- simpl in H. injection H as <- <-. exists [Get city].
           split; [|split]; [reflexivity | simpl; lia | reflexivity].
        -- apply IH in H. destruct H as (evs & Hlog & Hlen & _).
           exists (Get city :: evs).
           split; [|split].
           ++ rewrite Hlog. unfold log. cbn [fst snd].
              rewrite <- !app_assoc. reflexivity.
           ++ simpl. simpl in Hlen. lia.
           ++ intros _ H1 Hsum. lia.
    + injection H as <- <-. exists [Get city].
      repeat split; simpl; try lia. discriminate.
Qed.

Lemma attempts_some_success (max_retries : Z) (city : string) (lat lon : Q)
    (fuel : nat) :
  forall (attempt : Z) (st : state) r st',
    attempts max_retries fuel attempt city lat lon st = (Ok (Some r), st') ->
    success r = true /\ fr_city r = city.
Proof.
  induction fuel as [|fuel IH]; intros attempt st r st' H.
  - discriminate.
  - cbn [attempts] in H.
    destruct (try_get city lat lon (fst st)) as [o w].
    destruct o as [path | e | e].
    + injection H as <- _. split; reflexivity.
    + apply IH in H. exact H.
    + discriminate.
Qed.

Lemma gets_exhausted_trace (city : string) (k : nat) :
  forall base, gets (exhausted_trace city base k) = repeat city k.
Proof.
  induction k as [|k IH]; intros base; [reflexivity|].
  destruct k as [|k]; [reflexivity|].
  change (gets (Get city :: Sleep (inject_Z base)
                  :: exhausted_trace city (2 * base) (S k))
          = city :: repeat city (S k)).
  unfold gets. cbn [flat_map app]. fold (gets (exhausted_trace city (2 * base) (S k))).
  rewrite IH. reflexivity.
Qed.

Lemma sleeps_exhausted_trace (city : string) (k : nat) :
  forall base,
    sleeps (exhausted_trace city base k) = map inject_Z (doubling base (k - 1)).
Proof.
  induction k as [|k IH]; intros base; [reflexivity|].
  destruct k as [|k]; [reflexivity|].
  change (sleeps (Get city :: Sleep (inject_Z base)
                    :: exhausted_trace city (2 * base) (S k))
          = map inject_Z (doubling base (S k))).
  unfold sleeps. cbn [flat_map app].
  fold (sleeps (exhausted_trace city (2 * base) (S k))).
  rewrite IH. simpl. rewrite Nat.sub_0_r. reflexivity.
Qed.

(** No delay follows the last request of an exhausted fetch. *)
Lemma last_exhausted_trace (city : string) (k : nat) :
  forall base d, last (exhausted_trace city base (S k)) d = Get city.
Proof.
  induction k as [|k IH]; intros base d; [reflexivity|].
  change (last (Get city :: Sleep (inject_Z base)
                  :: exhausted_trace city (2 * base) (S k)) d = Get city).
  specialize (IH (2 * base)%Z d).
  destruct (exhausted_trace city (2 * base) (S k)) as [|e l] eqn:E.
  - destruct k; discriminate.
  - exact IH.
Qed.

(** The retry policy for any bound on the attempts. *)
Lemma fetch_city_with_bound (max_retries : Z) (city : string) (lat lon : Q)
    (st : state) res st' :
  fetch_city_with max_retries city lat lon st = (res, st') ->
  exists evs,
    snd st' = (snd st ++ evs)%list /\
    (List.length (gets evs) <= Z.to_nat max_retries)%nat /\
    (forall r, res = Ok r -> success r = false ->
       evs = exhausted_trace city 1 (Z.to_nat max_retries) /\
       fr_city r = city).
Proof.
  unfold fetch_city_with. intros H.
  destruct (attempts max_retries (Z.to_nat max_retries) 1 city lat lon st)
    as [res0 st0] eqn:Ea.
  destruct (attempts_trace _ _ _ _ _ _ _ _ _ Ea) as (evs & Hlog & Hlen & Hex).
  destruct res0 as [[r0|]|e]; injection H as <- <-;
    exists evs; (split; [exact Hlog|]); (split; [exact Hlen|]);
    intros r Hr Hs.
  - injection Hr as <-.
    apply attempts_some_success in Ea. destruct Ea as [Ea _]. congruence.
  - injection Hr as <-. split; [|reflexivity].
    destruct (Z_le_gt_dec max_retries 0) as [Hle|Hgt].
    + replace (Z.to_nat max_retries) with 0%nat in * by lia.
      simpl in Ea. injection Ea as <-.
      destruct evs as [|ev evs]; [reflexivity|].
      apply (f_equal (@List.length event)) in Hlog.
      rewrite length_app in Hlog. simpl in Hlog. lia.
    + change 1%Z with (2 ^ (1 - 1))%Z. apply Hex; [reflexivity | lia | lia].
  - discriminate.
Qed.

(** A source that answers at the second attempt: one delay of one second,
    and the record of the saved file. *)
Example fetch_city_second_attempt :
  fetch_city (Src := source_flaky) "Mumbai" 19.0760 72.8777 (1%nat, [])
  = (Ok (mk_fetch_result "Mumbai" true (Some "Mumbai.json") None),
     (0%nat, [Get "Mumbai"; Sleep 1; Get "Mumbai"])).
Proof. vm_compute. reflexivity. Qed.

(** C7. A fetch makes at most [MAX_RETRIES] = 3 requests for its city.  When
    it ends with the failure record, it has made three requests, slept one
    second after the first and two after the second, which are the delays of
    the doubling schedule, three seconds in all, and nothing after the
    third. *)
Theorem fetch_city_retry_bound (city : string) (lat lon : Q) (st : state)
    res st' :
  fetch_city city lat lon st = (res, st') ->
  exists evs,
    snd st' = (snd st ++ evs)%list /\
    (List.length (gets evs) <= Z.to_nat MAX_RETRIES)%nat /\
    Z.to_nat MAX_RETRIES = 3%nat /\
    (forall r, res = Ok r -> success r = false ->
       evs = [Get city; Sleep 1; Get city; Sleep 2; Get city] /\
       sleeps evs = map inject_Z (backoff_schedule MAX_RETRIES) /\
       backoff_schedule MAX_RETRIES = [1; 2]%Z /\
       fold_right Qplus 0 (sleeps evs) == 3 /\
       last evs (Sleep 0) = Get city).
Proof.
  intros H. apply fetch_city_with_bound in H.
  destruct H as (evs & Hlog & Hlen & Hex).
  exists evs. split; [exact Hlog|]. split; [exact Hlen|].
  split; [reflexivity|].
  intros r Hr Hs. destruct (Hex r Hr Hs) as [-> _].
  repeat apply conj; reflexivity.
Qed.

(** Without an exception that the handler does not catch, the loop ends
    normally. *)
Lemma attempts_no_raise (max_retries : Z) (city : string) (lat lon : Q) :
  (forall c la lo w e, fst (try_get c la lo w) <> OtherException e) ->
  forall (fuel : nat) (attempt : Z) (st : state),
    exists o st', attempts max_retries fuel attempt city lat lon st = (Ok o, st').
Proof.
  intros Hno. induction fuel as [|fuel IH]; intros attempt st.
  - simpl. eauto.
  - cbn [attempts].
    destruct (try_get city lat lon (fst st)) as [o w] eqn:Et.
    destruct o as [path | e | e].
    + eauto.
    + apply IH.
    + exfalso. apply (Hno city lat lon (fst st) e). rewrite Et. reflexivity.
Qed.

Lemma fetch_city_total (city : string) (lat lon : Q) (st : state) :
  (forall c la lo w e, fst (try_get c la lo w) <> OtherException e) ->
  exists r st',
    fetch_city city lat lon st = (Ok r, st') /\
    fr_city r = city /\
    (success r = false -> r = failure city).
Proof.
  intros Hno. unfold fetch_city, fetch_city_with.
  destruct (attempts_no_raise MAX_RETRIES city lat lon Hno
              (Z.to_nat MAX_RETRIES) 1 st) as (o & st' & Ha).
  rewrite Ha. destruct o as [r|].
  - apply attempts_some_success in Ha. destruct Ha as [Hs Hc].
    exists r, st'. repeat split; [exact Hc | congruence].
  - eexists. exists st'. repeat split.
Qed.

Lemma fetch_each_total (cities : dict (Q * Q)) :
  (forall c la lo w e, fst (try_get c la lo w) <> OtherException e) ->
  forall st : state,
    exists results st',
      fetch_each cities st = (Ok results, st') /\
      map fr_city results = map fst cities /\
      (forall r, In r results -> success r = false -> r = failure (fr_city r)).
Proof.
  intros Hno. induction cities as [|[city [lat lon]] cities IH]; intros st.
  - exists [], st. repeat split. intros r [].
  - cbn [fetch_each].
    destruct (fetch_city_total city lat lon st Hno) as (r & st1 & Hf & Hc & Hs).
    rewrite Hf.
    destruct (IH (log (Sleep SLEEP_BETWEEN_CALLS) st1))
      as (results & st2 & He & Hm & Hall).
    rewrite He. exists (r :: results), st2. repeat split.
    + simpl. rewrite Hc, Hm. reflexivity.
    + intros r' [<-|Hin] Hr'; [rewrite Hc; auto | auto].
Qed.

End Fetch.

Lemma fetch_city_retry_bound_witness :
  exists st',
    fetch_city (Src := source_down) "Delhi" 28.7041 77.1025 (0%nat, [])
    = (Ok (failure "Delhi"), st') /\
    snd st' = [Get "Delhi"; Sleep 1; Get "Delhi"; Sleep 2; Get "Delhi"].
Proof.
  eexists. split; [vm_compute; reflexivity|].
  match goal with
  | |- snd ?s = _ =>
      destruct (fetch_city_retry_bound (Src := source_down)
                  "Delhi" 28.7041 77.1025 (0%nat, [])
                  (Ok (failure "Delhi")) s eq_refl)
        as (evs & Hlog & _ & _ & Hex)
  end.
  destruct (Hex _ eq_refl eq_refl) as (Hevs & _).
  exact (eq_trans Hlog (f_equal (app []) Hevs)).
Defined.

End FetcherFacts.

Module LoaderFacts.
Import Py Loader.

Section Batches.
Context {K : Sink}.

(** An insert that goes through ends the loop of its batch. *)
Lemma try_insert_ok (cfg : config) (fuel : nat) (attempt : Z)
    (batch : list record) (batch_no batches inserted : Z) (st : state) s' :
  execute_insert batch (fst st) = (true, s') ->
  try_insert cfg (S fuel) attempt batch batch_no batches inserted st
  = ((inserted + Z.of_nat (List.length batch))%Z,
     (s', (snd st ++ [Insert batch;
                      PrintInserted batch_no batches (List.length batch)])%list)).
Proof.
  intros H. cbn [try_insert]. rewrite H. unfold log. cbn [fst snd].
  rewrite <- app_assoc. reflexivity.
Qed.

(** An insert that fails before the last attempt is tried again after the
    delay; one that fails at the last attempt is given up. *)
Lemma try_insert_retry (cfg : config) (fuel : nat) (attempt : Z)
    (batch : list record) (batch_no batches inserted : Z) (st : state) s' :
  execute_insert batch (fst st) = (false, s') ->
  (attempt + 1 <= LOAD_MAX_RETRIES cfg)%Z ->
  try_insert cfg (S fuel) attempt batch batch_no batches inserted st
  = try_insert cfg fuel (attempt + 1) batch batch_no batches inserted
      (s', (snd st ++ [Insert batch;
                       PrintInsertFailed batch_no (attempt + 1);
                       Sleep (LOAD_BACKOFF_SECONDS cfg)])%list).
Proof.
  intros H Hle. cbn [try_insert]. rewrite H.
  replace (attempt + 1 >? LOAD_MAX_RETRIES cfg)%Z with false
    by (symmetry; rewrite Z.gtb_ltb; apply Z.ltb_ge; exact Hle).
  unfold log. cbn [fst snd]. rewrite <- !app_assoc. reflexivity.
Qed.

Lemma try_insert_give_up (cfg : config) (fuel : nat) (attempt : Z)
    (batch : list record) (batch_no batches inserted : Z) (st : state) s' :
  execute_insert batch (fst st) = (false, s') ->
  (LOAD_MAX_RETRIES cfg < attempt + 1)%Z ->
  try_insert cfg (S fuel) attempt batch batch_no batches inserted st
  = (inserted,
     (s', (snd st ++ [Insert batch;
                      PrintInsertFailed batch_no (attempt + 1);
                      PrintSkipping batch_no])%list)).
Proof.
  intros H Hlt. cbn [try_insert]. rewrite H.
  replace (attempt + 1 >? LOAD_MAX_RETRIES cfg)%Z with true
    by (symmetry; rewrite Z.gtb_ltb; apply Z.ltb_lt; exact Hlt).
  unfold log. cbn [fst snd]. rewrite <- !app_assoc. reflexivity.
Qed.

(** The three slices that a list of 450 records is cut into. *)
Lemma slices_450 {A : Type} (l : list A) :
  List.length l = 450%nat ->
  l = (slice l 0 200 ++ slice l 200 400 ++ slice l 400 600)%list /\
  List.length (slice l 0 200) = 200%nat /\
  List.length (slice l 200 400) = 200%nat /\
  List.length (slice l 400 600) = 50%nat.
Proof.
  intros Hlen. unfold slice.
  change (Z.to_nat (200 - 0)) with 200%nat.
  change (Z.to_nat (400 - 200)) with 200%nat.
  change (Z.to_nat (600 - 400)) with 200%nat.
  change (Z.to_nat 0) with 0%nat.
  change (Z.to_nat 200) with 200%nat.
  change (Z.to_nat 400) with 400%nat.
  rewrite skipn_O.
  assert (H3 : firstn 200 (skipn 400 l) = skipn 400 l).
  { apply firstn_all2. rewrite length_skipn. lia. }
  rewrite H3. repeat split.
  - rewrite <- (firstn_skipn 200 l) at 1. f_equal.
    rewrite <- (firstn_skipn 200 (skipn 200 l)) at 1. f_equal.
    rewrite skipn_skipn. reflexivity.
  - rewrite length_firstn. lia.
  - rewrite length_firstn, length_skipn. lia.
  - rewrite length_skipn. lia.
Qed.

(** C3. A table of 450 records loaded with the default settings (batches of
    200, two retries) is sent as three batches of 200, 200 and 50 records,
    in order.  When the table refuses the middle batch at each of its three
    attempts and takes the two others, the third batch is still sent,
    [insert_batches] returns 250, and [load_data] prints 250 of 450 rows
    inserted; the batch given up is named in a printed line only, and
    [load_data] returns no value. *)
Theorem load_450_middle_batch_fails {P : Pandas} (df : list (dict json))
    (s0 s1 s2 s3 s4 s5 : store) (out0 : list event) :
  List.length df = 450%nat ->
  let records := normalize_and_prepare df in
  let b1 := slice records 0 200 in
  let b2 := slice records 200 400 in
  let b3 := slice records 400 600 in
  let printed :=
    [Insert b1; PrintInserted 1 3 200;
     Insert b2; PrintInsertFailed 2 1; Sleep 3;
     Insert b2; PrintInsertFailed 2 2; Sleep 3;
     Insert b2; PrintInsertFailed 2 3; PrintSkipping 2;
     Insert b3; PrintInserted 3 3 50] in
  execute_insert b1 s0 = (true, s1) ->
  execute_insert b2 s1 = (false, s2) ->
  execute_insert b2 s2 = (false, s3) ->
  execute_insert b2 s3 = (false, s4) ->
  execute_insert b3 s4 = (true, s5) ->
  records = (b1 ++ b2 ++ b3)%list /\
  List.length b1 = 200%nat /\
  List.length b2 = 200%nat /\
  List.length b3 = 50%nat /\
  sent printed = [b1; b2; b2; b2; b3] /\
  skipped printed = [2%Z] /\
  insert_batches default_config records (s0, out0)
  = (Ok 250%Z, (s5, (out0 ++ printed)%list)) /\
  load_data default_config (Some df) (s0, out0)
  = (Ok tt, (s5, (out0 ++ printed ++ [PrintLoadCompleted 250 450])%list)).
Proof.
  intros Hdf records b1 b2 b3 printed H1 H2 H3 H4 H5.
  assert (Hlen : List.length records = 450%nat).
  { unfold records, normalize_and_prepare. cbv zeta.
    rewrite length_map, PyFacts.length_enumerate, length_map. exact Hdf. }
  destruct (slices_450 records Hlen) as (Hcat & L1 & L2 & L3).
  fold b1 b2 b3 in Hcat, L1, L2, L3.
  assert (Hins : insert_batches default_config records (s0, out0)
                 = (Ok 250%Z, (s5, (out0 ++ printed)%list))).
  { unfold insert_batches. rewrite Hlen.
    change (Z.of_nat 450) with 450%Z.
    change (BATCH_SIZE default_config) with 200%Z.
    change (450 =? 0)%Z with false. change (200 =? 0)%Z with false.
    change (range_step 450 200) with [0; 200; 400]%Z.
    change (- (- 450 / 200))%Z with 3%Z.
    cbv iota. cbn [insert_loop].
    change (BATCH_SIZE default_config) with 200%Z.
    change (LOAD_MAX_RETRIES default_config) with 2%Z.
    change (Z.to_nat (2 + 1)) with 3%nat.
    change (0 / 200 + 1)%Z with 1%Z.
    change (200 / 200 + 1)%Z with 2%Z.
    change (400 / 200 + 1)%Z with 3%Z.
    change (0 + 200)%Z with 200%Z.
    change (200 + 200)%Z with 400%Z.
    change (400 + 200)%Z with 600%Z.
    fold b1 b2 b3.
    rewrite (try_insert_ok _ _ _ _ _ _ _ (s0, out0) s1 H1). rewrite L1.
    rewrite (try_insert_retry _ _ _ _ _ _ _ (_, _) s2 H2) by (simpl; lia).
    rewrite (try_insert_retry _ _ _ _ _ _ _ (_, _) s3 H3) by (simpl; lia).
    rewrite (try_insert_give_up _ _ _ _ _ _ _ (_, _) s4 H4) by (simpl; lia).
    rewrite (try_insert_ok _ _ _ _ _ _ _ (_, _) s5 H5). rewrite L3.
    cbn [fst snd]. rewrite <- !app_assoc. reflexivity. }
  repeat apply conj; try assumption; try reflexivity.
  unfold load_data. fold records. rewrite Hins, Hlen.
  unfold log. cbn [fst snd]. rewrite <- !app_assoc. reflexivity.
Qed.

End Batches.

Lemma load_450_middle_batch_fails_witness :
  exists printed,
    insert_450 200
    = (Ok 250%Z,
       ((slice records_450 0 200 ++ slice records_450 400 600)%list, printed)) /\
    skipped printed = [2%Z].
Proof.
  pose (b1 := slice records_450 0 200).
  pose (b3 := slice records_450 400 600).
  destruct (load_450_middle_batch_fails (P := Transformer.iso_minutes)
              (K := sink_rejecting 200) (staged_rows 450)
              [] b1 b1 b1 b1 (b1 ++ b3)%list [])
    as (_ & _ & _ & _ & _ & _ & Hins & _);
    try (vm_compute; reflexivity).
  eexists. split; [exact Hins | reflexivity].
Defined.

(** The value returned by a load does not tell which batches were given up:
    with the 450 rows and the default settings, a table refusing the middle
    batch and a table refusing the first batch lead to the same returned
    value, of [load_data] and of [insert_batches] alike, while the batches
    given up differ.  So no reading of the returned value yields the batches
    given up. *)
Lemma load_return_hides_failed_batches :
  fst (load_450 200) = Ok tt /\
  fst (insert_450 200) = Ok 250%Z /\
  skipped (snd (snd (load_450 200))) = [2%Z] /\
  ~ (exists failed_batches : result unit -> list Z,
       forall q,
         failed_batches (fst (load_450 q)) = skipped (snd (snd (load_450 q)))) /\
  ~ (exists failed_batches : result Z -> list Z,
       forall q,
         failed_batches (fst (insert_450 q))
         = skipped (snd (snd (insert_450 q)))).
Proof.
  assert (E200 : fst (load_450 200) = Ok tt) by (vm_compute; reflexivity).
  assert (E0 : fst (load_450 0) = Ok tt) by (vm_compute; reflexivity).
  assert (S200 : skipped (snd (snd (load_450 200))) = [2%Z])
    by (vm_compute; reflexivity).
  assert (S0 : skipped (snd (snd (load_450 0))) = [1%Z])
    by (vm_compute; reflexivity).
  assert (I200 : fst (insert_450 200) = Ok 250%Z) by (vm_compute; reflexivity).
  assert (I0 : fst (insert_450 0) = Ok 250%Z) by (vm_compute; reflexivity).
  assert (T200 : skipped (snd (snd (insert_450 200))) = [2%Z])
    by (vm_compute; reflexivity).
  assert (T0 : skipped (snd (snd (insert_450 0))) = [1%Z])
    by (vm_compute; reflexivity).
  repeat apply conj; try assumption.
  - intros (g & Hg).
    pose proof (Hg 200) as A. pose proof (Hg 0) as B.
    rewrite E200, S200 in A. rewrite E0, S0 in B. congruence.
  - intros (g & Hg).
    pose proof (Hg 200) as A. pose proof (Hg 0) as B.
    rewrite I200, T200 in A. rewrite I0, T0 in B. congruence.
Qed.

End LoaderFacts.

Module ValidatorFacts.
Import Py Num Validator.

(** The mapping of the transform only produces the codes 0, 1 and 2. *)
Lemma contract_type_code_range (Contract : list string) (c : cell) :
  In c (contract_type_code Contract) -> c = Fin 0 \/ c = Fin 1 \/ c = Fin 2.
Proof.
  unfold contract_type_code. rewrite in_map_iff. intros (x & <- & _).
  unfold series_map, contract_map. cbn [dict_get].
  destruct (String.eqb "Month-to-month" x); [cbn [fillna]; auto|].
  destruct (String.eqb "One year" x); [cbn [fillna]; auto|].
  destruct (String.eqb "Two year" x); cbn [fillna]; auto.
Qed.

Lemma in_unique (l : list json) (x : json) : In x (unique l) -> In x l.
Proof.
  induction l as [|a l IH]; simpl; [auto|].
  intros [H|H]; [auto|]. apply filter_In in H. right. apply IH, H.
Qed.

Lemma defined_is_accepted (v : json) :
  in_defined_codes v = true -> existsb (py_eq v) accepted_codes = true.
Proof.
  unfold in_defined_codes, defined_codes, accepted_codes. simpl.
  intros H. rewrite H. apply orb_true_r.
Qed.

(** The check passes on every table whose codes are all among 0, 1, 2. *)
Lemma contract_codes_ok_sound (df : frame) (col : list json) :
  dict_get df "contract_type_code" = Some col ->
  (forall v, In v col -> isnull v = false -> in_defined_codes v = true) ->
  contract_codes_ok (validate df) = true.
Proof.
  intros Hcol Hall. unfold validate. cbn [contract_codes_ok].
  unfold present. rewrite Hcol. unfold issubset. apply forallb_forall.
  intros v Hv. apply in_unique, filter_In in Hv. destruct Hv as [Hin Hnn].
  apply defined_is_accepted, Hall; [exact Hin|].
  apply negb_true_iff. exact Hnn.
Qed.

(** C9. On a staged table holding the contract code -1, which is not one of
    0, 1, 2, the check of the contract codes succeeds. *)
Theorem contract_codes_ok_accepts_minus_one :
  contract_codes_present (validate Inputs.staged_minus_one)
  = [JNum 0; JNum (-1); JNum 2] /\
  in_defined_codes (JNum (-1)) = false /\
  contract_codes_ok (validate Inputs.staged_minus_one) = true.
Proof. repeat apply conj; vm_compute; reflexivity. Qed.

End ValidatorFacts.

(* ================================================================== *)
(** * Further properties of the transform *)

Module TransformerMore.
Import Py Num NumFacts Transformer TransformerFacts Labels.

(** X7. Both step functions are monotone on numbers: a larger PM2.5 value
    never gets a cleaner category, a larger severity never a lower tier;
    and their results are always among the five, respectively three,
    labels, NaN included. *)
Theorem labels_monotone :
  (forall a b : Q, a <= b ->
     (aqi_rank (compute_aqi (Fin a)) <= aqi_rank (compute_aqi (Fin b)))%nat) /\
  (forall a b : Q, a <= b ->
     (risk_rank (classify_risk (Fin a))
      <= risk_rank (classify_risk (Fin b)))%nat) /\
  (forall c : cell, In (compute_aqi c) aqi_labels) /\
  (forall c : cell, In (classify_risk c) risk_labels).
Proof.
  repeat apply conj.
  - intros a b Hab. unfold compute_aqi.
    by_bands a; by_bands b; try (vm_compute; lia);
      exfalso;
      match goal with
      | H1 : b <= ?k, H2 : ?k < a |- _ =>
          apply (Qlt_irrefl a); apply Qle_lt_trans with k; [|exact H2];
          apply Qle_trans with b; assumption
      end.
  - intros a b Hab. unfold classify_risk.
    by_bands a; by_bands b; try (vm_compute; lia);
      exfalso;
      match goal with
      | H1 : b <= ?k, H2 : ?k < a |- _ =>
          apply (Qlt_irrefl a); apply Qle_lt_trans with k; [|exact H2];
          apply Qle_trans with b; assumption
      end.
  - intros c. unfold compute_aqi, aqi_labels.
    destruct (le c 50); [simpl; tauto|].
    destruct (le c 100); [simpl; tauto|].
    destruct (le c 200); [simpl; tauto|].
    destruct (le c 300); simpl; tauto.
  - intros c. unfold classify_risk, risk_labels.
    destruct (gt c 400); [simpl; tauto|].
    destruct (gt c 200); simpl; tauto.
Qed.

Section Frames.
Context {P : Pandas}.

Lemma collect_nonempty (files : list raw_file) all_dfs :
  collect files = Ok all_dfs -> Forall (fun df => df <> []) all_dfs.
Proof.
  revert all_dfs. induction files as [|f files IH]; simpl; intros all_dfs H.
  - injection H as <-. constructor.
  - destruct (transform_city_file f) as [df|e]; [|discriminate].
    destruct (collect files) as [rest|e]; [|discriminate].
    specialize (IH rest eq_refl).
    destruct df as [|x df]; injection H as <-; [exact IH|].
    constructor; [discriminate | exact IH].
Qed.

(** X1. The staged file is written exactly when the transform keeps at least
    one row: a run in which every file is empty or loses all its rows writes
    nothing (a staged file of an earlier run is left as it is), and a file
    that is written has one line per row of the returned table. *)
Theorem staged_file_written_iff_rows (files : list raw_file) final csv :
  transform_all files = Ok (final, csv) ->
  (csv = None <-> final = []) /\
  (forall lines, csv = Some lines ->
     lines = to_csv final /\ List.length lines = List.length final /\
     lines <> []).
Proof.
  unfold transform_all. intros H.
  destruct (collect files) as [all_dfs|e] eqn:Ec; [|discriminate].
  pose proof (collect_nonempty files all_dfs Ec) as Hne.
  destruct all_dfs as [|df rest].
  - injection H as <- <-. split; [tauto|]. intros lines Hl. discriminate.
  - injection H as <- <-.
    assert (Hfin : concat_ignore_index (df :: rest) <> []).
    { inversion Hne as [|? ? Hdf _]; subst.
      destruct df as [|x df]; [congruence|]. discriminate. }
    split.
    + split; [discriminate | intros E; contradiction].
    + intros lines Hl. injection Hl as <-.
      split; [reflexivity|]. split; [apply length_map|].
      unfold to_csv. intros E. apply Hfin.
      destruct (concat_ignore_index (df :: rest)); [reflexivity | discriminate].
Qed.

(** When the frame of a payload can be built. *)
Lemma DataFrame_cons (k : string) (v : list json) (rest : dict (list json)) :
  ((forall k' v', In (k', v') rest -> List.length v' = List.length v) /\
   DataFrame ((k, v) :: rest) = Ok (List.length v)) \/
  ((exists k' v', In (k', v') rest /\ List.length v' <> List.length v) /\
   DataFrame ((k, v) :: rest) = Raise "ValueError").
Proof.
  unfold DataFrame.
  destruct (forallb (fun kv => Nat.eqb (List.length (snd kv)) (List.length v))
              rest) eqn:E.
  - left. split; [|reflexivity]. intros k' v' Hin.
    rewrite forallb_forall in E. apply Nat.eqb_eq. exact (E (k', v') Hin).
  - right. split; [|reflexivity].
    apply forallb_false in E. destruct E as ([k' v'] & Hin & Hne).
    exists k', v'. split; [exact Hin|]. apply Nat.eqb_neq. exact Hne.
Qed.

Lemma transform_city_file_raises (f : raw_file) :
  (exists e, transform_city_file f = Raise e) <->
  DataFrame (hourly_of f) = Raise "ValueError" \/
  (exists n, DataFrame (hourly_of f) = Ok (S n) /\
             dict_get (hourly_of f) "time" = None).
Proof.
  unfold transform_city_file.
  destruct (hourly_of f) as [|kv hourly] eqn:Eh.
  - simpl. split.
    + intros (e & He). discriminate.
    + intros [H | (n & H & _)]; discriminate.
  - destruct (DataFrame (kv :: hourly)) as [n|e] eqn:Ed.
    + destruct n as [|n].
      * split; [intros (e & He); discriminate|].
        intros [H | (n & H & _)]; discriminate.
      * destruct (dict_get (kv :: hourly) "time") as [times|].
        -- split; [intros (e & He); discriminate|].
           intros [H | (m & _ & H)]; discriminate.
        -- split; [intros _; right; exists n; auto | intros _; eauto].
    + assert (He : e = "ValueError").
      { unfold DataFrame in Ed. destruct kv as [k v].
        destruct (forallb _ hourly); [discriminate|]. now injection Ed as <-. }
      subst e. split; [intros _; left; reflexivity | intros _; eauto].
Qed.

(** X2. On a payload whose ["hourly"] is a dictionary of arrays, the
    transform of the file raises ValueError when two of the arrays differ in
    length, and KeyError when the arrays have one common length that is not
    zero and none of them is ["time"]; it returns the empty frame, without
    raising, when the dictionary is empty and when all its arrays are
    empty, a ["time"] array being then not needed. *)
Theorem transform_city_file_raises_on (f : raw_file) :
  (forall k v rest k' v',
     hourly_of f = (k, v) :: rest -> In (k', v') rest ->
     List.length v' <> List.length v ->
     transform_city_file f = Raise "ValueError") /\
  (forall k v rest,
     hourly_of f = (k, v) :: rest -> v <> [] ->
     (forall k' v', In (k', v') rest -> List.length v' = List.length v) ->
     dict_get (hourly_of f) "time" = None ->
     transform_city_file f = Raise "KeyError") /\
  (hourly_of f = [] -> transform_city_file f = Ok []) /\
  (forall k rest,
     hourly_of f = (k, []) :: rest ->
     (forall k' v', In (k', v') rest -> v' = []) ->
     transform_city_file f = Ok []).
Proof.
  unfold transform_city_file. repeat apply conj.
  - intros k v rest k' v' E Hin Hne. rewrite E.
    destruct (DataFrame_cons k v rest) as [[Hall _] | [_ ->]]; [|reflexivity].
    exfalso. apply Hne. exact (Hall k' v' Hin).
  - intros k v rest E Hv Hall Ht. rewrite E in Ht |- *.
    destruct (DataFrame_cons k v rest) as [[_ ->] | [(k' & v' & Hin & Hne) _]].
    + destruct v as [|x v]; [congruence|]. cbn [List.length].
      rewrite Ht. reflexivity.
    + exfalso. apply Hne. exact (Hall k' v' Hin).
  - intros ->. reflexivity.
  - intros k rest E Hall. rewrite E.
    destruct (DataFrame_cons k [] rest)
      as [[_ ->] | [(k' & v' & Hin & Hne) _]]; [reflexivity|].
    exfalso. apply Hne. rewrite (Hall k' v' Hin). reflexivity.
Qed.

(** X3. One file that cannot be transformed makes the whole run raise: no
    table is returned and no staged file is written, whatever the other
    files hold. *)
Theorem transform_all_aborts (files : list raw_file) (f : raw_file) e :
  In f files ->
  transform_city_file f = Raise e ->
  exists e', transform_all files = Raise e'.
Proof.
  intros Hin Hf. unfold transform_all.
  destruct (collect files) as [all_dfs|e'] eqn:Ec; [|eauto].
  exfalso. destruct (collect_rows files all_dfs Ec) as [Hok _].
  destruct (Hok f Hin) as (out & Hout). congruence.
Qed.

(** The frame of a file is the frame after the numeric conversion, filtered,
    with the derived columns added row by row. *)
Lemma transform_city_file_shape (f : raw_file) (n : nat) out :
  DataFrame (hourly_of f) = Ok n ->
  transform_city_file f = Ok out ->
  exists times,
    out = map (fun ir => (fst ir, add_features (snd ir)
                                    (nth (fst ir) times JNull)))
              (dropna_all pollutants
                 (num_rows (split_head "_raw_" (stem f)) (hourly_of f) n)).
Proof.
  unfold transform_city_file. intros Hd Hf.
  destruct (hourly_of f) as [|kv hourly] eqn:Eh.
  - simpl in Hd. injection Hd as <-. injection Hf as <-. exists []. reflexivity.
  - rewrite Hd in Hf. destruct n as [|n].
    + injection Hf as <-. exists []. reflexivity.
    + destruct (dict_get (kv :: hourly) "time") as [times|]; [|discriminate].
      injection Hf as <-. exists times. reflexivity.
Qed.

Lemma map_fst_features (times : list json) (rows : list (nat * num_row)) :
  map fst (map (fun ir => (fst ir, add_features (snd ir)
                                     (nth (fst ir) times JNull))) rows)
  = map fst rows.
Proof. rewrite map_map. apply map_ext. reflexivity. Qed.

Lemma map_fst_num_rows (city_name : string) (hourly : dict (list json))
    (n : nat) : map fst (num_rows city_name hourly n) = seq 0 n.
Proof.
  unfold num_rows. rewrite map_map. cbn [fst]. apply map_id.
Qed.

Lemma filter_all {A : Type} (p : A -> bool) (l : list A) :
  (forall x, In x l -> p x = true) -> filter p l = l.
Proof.
  induction l as [|a l IH]; intros H; [reflexivity|].
  simpl. rewrite (H a (or_introl eq_refl)). f_equal.
  apply IH. intros x Hx. apply H. right. exact Hx.
Qed.

Lemma sorted_map_fst_filter {A : Type} (p : nat * A -> bool)
    (l : list (nat * A)) :
  StronglySorted lt (map fst l) -> StronglySorted lt (map fst (filter p l)).
Proof.
  induction l as [|a l IH]; intros H; [constructor|].
  simpl in H. inversion H as [|? ? Hs Hall]; subst.
  simpl. destruct (p a).
  - simpl. constructor; [apply IH, Hs|].
    rewrite Forall_forall in *. intros x Hx. apply Hall.
    apply in_map_iff in Hx. destruct Hx as (y & <- & Hy).
    apply filter_In in Hy. apply in_map. tauto.
  - apply IH, Hs.
Qed.

Lemma sorted_seq (a n : nat) : StronglySorted lt (seq a n).
Proof.
  revert a. induction n as [|n IH]; intros a; [constructor|].
  simpl. constructor; [apply IH|].
  apply Forall_forall. intros x Hx. apply in_seq in Hx. lia.
Qed.

(** X4. A pollutant array that is absent from a payload is stored as zero in
    every row, and then the filter on missing pollutants drops no row of
    that file, not even a row whose other measurements are all missing. *)
Theorem missing_pollutant_column_is_zero (f : raw_file) (c : string)
    (n : nat) out :
  In c pollutants ->
  dict_get (hourly_of f) c = None ->
  DataFrame (hourly_of f) = Ok n ->
  transform_city_file f = Ok out ->
  map fst out = seq 0 n /\
  (forall i r, In (i, r) out -> dict_get (numeric_fields r) c = Some (Fin 0)).
Proof.
  intros Hc Hnone Hd Hf.
  assert (Hzero : forall i, (i < n)%nat ->
            nth i (numeric_column (hourly_of f) n c) NaN = Fin 0).
  { intros i Hi. unfold numeric_column. rewrite Hnone.
    apply nth_repeat_lt. exact Hi. }
  split.
  - destruct (transform_city_file_shape f n out Hd Hf) as (times & ->).
    rewrite map_fst_features. unfold dropna_all.
    rewrite filter_all; [apply map_fst_num_rows|].
    intros [i nr] Hin. cbn [snd]. apply negb_true_iff.
    apply (all_missing_row _ _ _ _ _ Hin). exists c. split; [exact Hc|].
    apply in_num_rows in Hin. rewrite Hzero; [reflexivity | tauto].
  - intros i r Hin.
    destruct (in_transform_city_file f out i r Hf Hin)
      as (n' & nr & times & Hd' & _ & Hnr & _ & ->).
    rewrite Hd in Hd'. injection Hd' as <-.
    apply in_num_rows in Hnr. destruct Hnr as [Hi ->].
    unfold pollutants in Hc. simpl in Hc.
    destruct Hc as [H|[H|[H|[H|[H|[H|[]]]]]]]; subst c;
      cbn; rewrite Hzero by exact Hi; reflexivity.
Qed.

(** X5. The rows of the frame of a file keep the order of the payload: the
    indices they carry increase strictly and are below the number of hours
    of the payload. *)
Theorem frame_rows_in_order (f : raw_file) (n : nat) out :
  DataFrame (hourly_of f) = Ok n ->
  transform_city_file f = Ok out ->
  StronglySorted lt (map fst out) /\
  Forall (fun i => (i < n)%nat) (map fst out).
Proof.
  intros Hd Hf.
  destruct (transform_city_file_shape f n out Hd Hf) as (times & ->).
  rewrite map_fst_features. unfold dropna_all. split.
  - apply sorted_map_fst_filter. rewrite map_fst_num_rows. apply sorted_seq.
  - apply Forall_forall. intros i Hi.
    apply in_map_iff in Hi. destruct Hi as ([j nr] & <- & Hin).
    apply filter_In in Hin. destruct Hin as [Hin _].
    apply in_num_rows in Hin. cbn [fst]. tauto.
Qed.

(** X9. In a row whose six pollutants are all present and not negative, a
    PM2.5 value above 80 alone makes the risk high; so no such row labelled
    "Unhealthy", "Very Unhealthy" or "Hazardous" has a lower tier. *)
Theorem unhealthy_rows_are_high_risk (f : raw_file) out (i : nat)
    (r : staged_row) (a b c d e g : Q) :
  transform_city_file f = Ok out ->
  In (i, r) out ->
  pm2_5 r = Fin a -> pm10 r = Fin b -> nitrogen_dioxide r = Fin c ->
  sulphur_dioxide r = Fin d -> carbon_monoxide r = Fin e -> ozone r = Fin g ->
  0 <= b -> 0 <= c -> 0 <= d -> 0 <= e -> 0 <= g ->
  (80 < a -> risk r = "High Risk") /\
  (In (AQI_category r) ["Unhealthy"; "Very Unhealthy"; "Hazardous"] ->
   risk r = "High Risk").
Proof.
  intros Hf Hin H1 H2 H3 H4 H5 H6 Hb Hc Hd He Hg.
  destruct (in_transform_city_file f out i r Hf Hin)
    as (n & nr & times & _ & _ & _ & _ & Hr).
  destruct (add_features_derived nr (nth i times JNull)) as (Hcat & Hs & Hk).
  rewrite <- Hr in Hcat, Hs, Hk.
  assert (Hhigh : 80 < a -> risk r = "High Risk").
  { intros Ha. rewrite Hk, Hs, H1, H2, H3, H4, H5, H6. cbn [mul add].
    unfold classify_risk.
    replace (gt (Fin (a * 5 + b * 3 + c * 4 + d * 4 + e * 2 + g * 3)) 400)
      with true; [reflexivity|].
    symmetry. apply gt_true. lra. }
  split; [exact Hhigh|].
  intros Hlab. apply Hhigh. rewrite Hcat, H1 in Hlab.
  unfold compute_aqi in Hlab.
  destruct (le (Fin a) 50) eqn:E1.
  { exfalso. simpl in Hlab. intuition discriminate. }
  destruct (le (Fin a) 100) eqn:E2.
  { exfalso. simpl in Hlab. intuition discriminate. }
  apply le_false in E2. lra.
Qed.

End Frames.

Lemma run_delhi :
  transform_city_file (P := iso_minutes) Inputs.file_delhi
  = Ok (MoreInputs.rows_of MoreInputs.staged_delhi).
Proof. vm_compute. reflexivity. Qed.

Lemma run_mumbai :
  transform_city_file (P := iso_minutes) Inputs.file_mumbai
  = Ok (MoreInputs.rows_of MoreInputs.staged_mumbai).
Proof. vm_compute. reflexivity. Qed.

Lemma run_no_ozone :
  transform_city_file (P := iso_minutes) MoreInputs.file_no_ozone
  = Ok (MoreInputs.rows_of MoreInputs.staged_no_ozone).
Proof. vm_compute. reflexivity. Qed.

Lemma staged_file_written_iff_rows_witness :
  (exists final,
     transform_all (P := iso_minutes) [MoreInputs.file_all_null]
     = Ok (final, None) /\ final = []) /\
  exists final lines,
    transform_all (P := iso_minutes) Inputs.two_files
    = Ok (final, Some lines) /\
    List.length lines = 4%nat.
Proof.
  assert (H0 : transform_all (P := iso_minutes) [MoreInputs.file_all_null]
               = Ok ([], None)) by (vm_compute; reflexivity).
  assert (H2 : transform_all (P := iso_minutes) Inputs.two_files
               = Inputs.staged_two_files) by (vm_compute; reflexivity).
  unfold Inputs.staged_two_files in H2.
  split.
  - exists []. split; [exact H0|].
    exact (proj1 (proj1 (staged_file_written_iff_rows _ _ _ H0)) eq_refl).
  - eexists. eexists. split; [exact H2|].
    destruct (staged_file_written_iff_rows _ _ _ H2) as [_ Hl].
    destruct (Hl _ eq_refl) as (_ & Hlen & _). rewrite Hlen. reflexivity.
Defined.

Lemma transform_all_aborts_witness :
  exists e,
    transform_all (P := iso_minutes)
      [Inputs.file_delhi; MoreInputs.file_ragged; Inputs.file_mumbai]
    = Raise e.
Proof.
  apply (transform_all_aborts (P := iso_minutes) _ MoreInputs.file_ragged
           "ValueError").
  - right. left. reflexivity.
  - vm_compute. reflexivity.
Defined.

Lemma missing_pollutant_column_is_zero_witness :
  map fst (MoreInputs.rows_of MoreInputs.staged_no_ozone) = [0; 1]%nat /\
  ozone MoreInputs.no_ozone_1 = Fin 0 /\
  pm2_5 MoreInputs.no_ozone_1 = NaN.
Proof.
  destruct (missing_pollutant_column_is_zero (P := iso_minutes)
              MoreInputs.file_no_ozone "ozone" 2 _
              (or_intror (or_intror (or_intror (or_intror (or_introl eq_refl)))))
              eq_refl eq_refl run_no_ozone) as [Hidx Hz].
  split; [exact Hidx|]. split; [|reflexivity].
  specialize (Hz 1%nat MoreInputs.no_ozone_1
                (or_intror (or_introl eq_refl))).
  exact (f_equal (fun o => match o with Some v => v | None => NaN end) Hz).
Defined.

Lemma frame_rows_in_order_witness :
  StronglySorted lt (map fst (MoreInputs.rows_of MoreInputs.staged_delhi)) /\
  map fst (MoreInputs.rows_of MoreInputs.staged_delhi) = [0; 2]%nat.
Proof.
  split; [|reflexivity].
  exact (proj1 (frame_rows_in_order (P := iso_minutes) Inputs.file_delhi 3 _
                  eq_refl run_delhi)).
Defined.

Lemma unhealthy_rows_are_high_risk_witness :
  AQI_category MoreInputs.mumbai_2 = "Hazardous" /\
  risk MoreInputs.mumbai_2 = "High Risk".
Proof.
  split; [reflexivity|].
  refine (proj2 (unhealthy_rows_are_high_risk (P := iso_minutes)
                   Inputs.file_mumbai _ 2 MoreInputs.mumbai_2 301 41 4 2 11 9
                   run_mumbai (or_intror (or_introl eq_refl))
                   eq_refl eq_refl eq_refl eq_refl eq_refl eq_refl
                   _ _ _ _ _) _); try qcmp.
  right. right. left. reflexivity.
Defined.

End TransformerMore.

(* ================================================================== *)
(** * Which rows the filter on missing pollutants keeps *)

Module TransformerRows.
Import Py Num Transformer.

(** C6, as the claim words it, does not hold.  In the payload of Delhi the
    hour 1 has a measurement, its UV index, and is discarded, because the
    filter looks at the six pollutants only.  In the payload without an
    ozone array the hour 1 has no measurement at all, and is retained,
    because the absent array has become the number 0 in every row. *)
Lemma measured_row_dropped_and_empty_row_kept :
  (dict_get (hourly_of Inputs.file_delhi) "uv_index"
   = Some [JNum 0; JNum 1; JNum 2] /\
   exists out,
     transform_city_file (P := iso_minutes) Inputs.file_delhi = Ok out /\
     map fst out = [0; 2]%nat /\
     forall r, ~ In (1%nat, r) out) /\
  ((forall c v, dict_get (hourly_of MoreInputs.file_no_ozone) c = Some v ->
                c <> "time" -> nth 1 v (JNum 0) = JNull) /\
   exists out r,
     transform_city_file (P := iso_minutes) MoreInputs.file_no_ozone = Ok out /\
     In (1%nat, r) out /\
     ozone r = Fin 0).
Proof.
  split.
  - split; [reflexivity|].
    exists (MoreInputs.rows_of MoreInputs.staged_delhi).
    split; [vm_compute; reflexivity|]. split; [reflexivity|].
    intros r Hin. apply (in_map fst) in Hin.
    vm_compute in Hin. destruct Hin as [H|[H|[]]]; discriminate.
  - split.
    + intros c v Hc Hne. unfold MoreInputs.file_no_ozone in Hc.
      cbn [hourly_of dict_get] in Hc.
      repeat match type of Hc with
             | (if String.eqb ?a c then _ else _) = _ =>
                 let E := fresh "E" in
                 destruct (String.eqb_spec a c) as [E|E];
                 [subst c; try congruence;
                  injection Hc as <-; reflexivity|]
             end.
      discriminate.
    + exists (MoreInputs.rows_of MoreInputs.staged_no_ozone),
             MoreInputs.no_ozone_1.
      split; [vm_compute; reflexivity|].
      split; [vm_compute; right; left; reflexivity | reflexivity].
Qed.

End TransformerRows.

(* ================================================================== *)
(** * The first transform script on floats *)

Module DoubleFacts.
Import SpecFloat Double.

Lemma shr_1_nonneg (mrs : shr_record) :
  (0 <= shr_m mrs)%Z -> (0 <= shr_m (shr_1 mrs))%Z.
Proof.
  destruct mrs as [m r s]. destruct m as [|p|p]; cbn; intros H.
  - lia.
  - destruct p; cbn; lia.
  - lia.
Qed.

Lemma iter_shr_1_nonneg (p : positive) (mrs : shr_record) :
  (0 <= shr_m mrs)%Z -> (0 <= shr_m (iter_pos shr_1 p mrs))%Z.
Proof.
  revert mrs. induction p as [p IH|p IH|]; cbn; intros mrs H.
  - apply IH, IH, shr_1_nonneg, H.
  - apply IH, IH, H.
  - apply shr_1_nonneg, H.
Qed.

Lemma shr_fexp_nonneg (m e : Z) (l : location) :
  (0 <= m)%Z -> (0 <= shr_m (fst (shr_fexp prec emax m e l)))%Z.
Proof.
  intros H. unfold shr_fexp, shr.
  assert (H0 : (0 <= shr_m (shr_record_of_loc m l))%Z)
    by (destruct l as [|[]]; exact H).
  destruct (fexp prec emax (Zdigits2 m + e) - e)%Z; cbn [fst];
    [exact H0 | apply iter_shr_1_nonneg, H0 | exact H0].
Qed.

Lemma round_nearest_even_nonneg (m : Z) (l : location) :
  (0 <= m)%Z -> (0 <= round_nearest_even m l)%Z.
Proof.
  intros H. destruct l as [|[]]; cbn; try lia. destruct (Z.even m); lia.
Qed.

(** Rounding a magnitude gives a zero, a finite double or an infinity. *)
Lemma binary_round_aux_is_number (s : bool) (m e : Z) (l : location) :
  (0 <= m)%Z -> isna (binary_round_aux prec emax s m e l) = false.
Proof.
  intros H. unfold binary_round_aux.
  pose proof (shr_fexp_nonneg m e l H) as H1.
  destruct (shr_fexp prec emax m e l) as [mrs' e']. cbn [fst] in H1.
  pose proof (shr_fexp_nonneg _ e' loc_Exact
                (round_nearest_even_nonneg _ (loc_of_shr_record mrs') H1))
    as H2.
  destruct (shr_fexp prec emax
              (round_nearest_even (shr_m mrs') (loc_of_shr_record mrs'))
              e' loc_Exact) as [mrs'' e''].
  cbn [fst] in H2.
  destruct (shr_m mrs'') as [|p|p]; [reflexivity | | lia].
  destruct (e'' <=? emax - prec)%Z; reflexivity.
Qed.

Lemma binary_round_is_number (s : bool) (m : positive) (e : Z) :
  isna (binary_round prec emax s m e) = false.
Proof.
  unfold binary_round.
  destruct (shl_align m e _) as [mz ez].
  apply binary_round_aux_is_number. lia.
Qed.

(** An integer is read as a number. *)
Lemma of_Z_is_number (z : Z) : isna (of_Z z) = false.
Proof.
  unfold of_Z, binary_normalize.
  destruct z; [reflexivity | apply binary_round_is_number ..].
Qed.

Lemma div_core_nonneg (n d : positive) :
  (0 <= fst (fst (SFdiv_core_binary prec emax (Zpos n) 0 (Zpos d) 0)))%Z.
Proof.
  unfold SFdiv_core_binary.
  set (s := (0 - 0 - _)%Z).
  set (m' := match s with Zpos _ => Z.shiftl (Zpos n) s | Z0 => Zpos n
                     | Zneg _ => 0%Z end).
  assert (Hm : (0 <= m')%Z).
  { subst m'. destruct s; [lia | apply Z.shiftl_nonneg; lia | lia]. }
  pose proof (Z_div_mod m' (Zpos d) eq_refl) as Hd.
  destruct (Z.div_eucl m' (Zpos d)) as [q r]. cbn [fst].
  destruct Hd as [Hq Hr]. nia.
Qed.

(** A number of a JSON document is read as a number: a zero, a finite
    double, or an infinity when it is beyond the range. *)
Lemma of_Q_is_number (q : Q) : isna (of_Q q) = false.
Proof.
  unfold of_Q. destruct (Qnum q) as [|n|n]; [reflexivity | |].
  - pose proof (div_core_nonneg n (Qden q)) as H.
    destruct (SFdiv_core_binary prec emax (Zpos n) 0 (Zpos (Qden q)) 0)
      as [[m e] l].
    apply binary_round_aux_is_number. exact H.
  - pose proof (div_core_nonneg n (Qden q)) as H.
    destruct (SFdiv_core_binary prec emax (Zpos n) 0 (Zpos (Qden q)) 0)
      as [[m e] l].
    apply binary_round_aux_is_number. exact H.
Qed.

(** NaN is absorbing. *)
Lemma mul_nan_l (y : double) : mul nan y = nan.
Proof. reflexivity. Qed.

Lemma add_nan_l (y : double) : add nan y = nan.
Proof. reflexivity. Qed.

Lemma add_nan_r (x : double) : add x nan = nan.
Proof. destruct x; reflexivity. Qed.

Lemma isna_nan (x : double) : isna x = true <-> x = nan.
Proof. destruct x; cbn; split; intros H; try discriminate; reflexivity. Qed.

End DoubleFacts.

Module Transformer64Facts.
Import SpecFloat Py PyFacts Double DoubleFacts Transformer64.

Lemma nth_repeat_lt {A : Type} (a d : A) (n i : nat) :
  (i < n)%nat -> nth i (repeat a n) d = a.
Proof.
  revert i. induction n as [|n IH]; intros i H; [lia|].
  destruct i; cbn; [reflexivity | apply IH; lia].
Qed.

(** What [to_csv] writes for a float. *)
Lemma csv_of_double_number (x : double) :
  isna x = false -> csv_of_double x = CsvNum x.
Proof. unfold csv_of_double. intros ->. reflexivity. Qed.

Lemma csv_of_double_empty (x : double) :
  csv_of_double x = CsvText na_rep <-> x = nan.
Proof.
  unfold csv_of_double. destruct x; cbn; split; intros H;
    try discriminate; reflexivity.
Qed.

Lemma number_cases (x : double) :
  isna x = false -> is_finite x = true \/ x = inf \/ x = neg_inf.
Proof.
  destruct x as [s|[|]| |s m e]; cbn; intros H; auto; discriminate.
Qed.

Lemma csv_of_double_cases (x : double) :
  csv_of_double x = CsvText na_rep \/
  exists y, csv_of_double x = CsvNum y /\
            (is_finite y = true \/ y = inf \/ y = neg_inf).
Proof.
  destruct (isna x) eqn:E.
  - left. apply csv_of_double_empty, isna_nan, E.
  - right. exists x. split; [apply csv_of_double_number, E|].
    apply number_cases, E.
Qed.

Section Frames.
Context {P : Parsers}.

(** The row of index [i] of the frame after the numeric conversion. *)
Lemma in_num_rows_double (city_name : string) (hourly : dict (list json)) (n i : nat)
    (nr : num_row) :
  In (i, nr) (num_rows city_name hourly n) <->
  (i < n)%nat /\
  nr = mk_num_row city_name
         (nth i (numeric_column hourly n "pm10") nan)
         (nth i (numeric_column hourly n "pm2_5") nan)
         (nth i (numeric_column hourly n "carbon_monoxide") nan)
         (nth i (numeric_column hourly n "nitrogen_dioxide") nan)
         (nth i (numeric_column hourly n "ozone") nan)
         (nth i (numeric_column hourly n "sulphur_dioxide") nan)
         (nth i (numeric_column hourly n "uv_index") nan).
Proof.
  unfold num_rows. rewrite in_map_iff. split.
  - intros (j & Heq & Hj). apply in_seq in Hj.
    injection Heq as Hi Hr. subst j. split; [lia | now symmetry].
  - intros (Hi & Hr). exists i. split; [now rewrite Hr | apply in_seq; lia].
Qed.

(** The cell of a column at an index below the number of rows. *)
Lemma numeric_column_nth (hourly : dict (list json)) (n i : nat)
    (c : string) :
  (i < n)%nat ->
  nth i (numeric_column hourly n c) nan
  = match dict_get hourly c with
    | Some col => to_numeric (nth i col JNull)
    | None => of_Z 0
    end.
Proof.
  intros Hi. unfold numeric_column. destruct (dict_get hourly c) as [col|].
  - change nan with (to_numeric JNull). apply map_nth.
  - apply nth_repeat_lt, Hi.
Qed.

(** Where a row of the frame of a city file comes from: the row of index
    [i] after the numeric conversion, kept by the filter at position [k],
    with the entry [k] of the parsed times of the rows kept. *)
Lemma in_transform_city_file_double (f : Transformer.raw_file) out (i : nat)
    (r : staged_row) :
  transform_city_file f = Ok out ->
  In (i, r) out ->
  exists n nr times parsed k,
    let df := dropna_all Transformer.pollutants
                (num_rows (Transformer.split_head "_raw_" (Transformer.stem f))
                          (Transformer.hourly_of f) n) in
    Transformer.DataFrame (Transformer.hourly_of f) = Ok n /\
    dict_get (Transformer.hourly_of f) "time" = Some times /\
    to_datetime_column (map (fun ir => nth (fst ir) times JNull) df)
    = Ok parsed /\
    map fst out = map fst df /\
    nth_error df k = Some (i, nr) /\
    (i < n)%nat /\
    all_missing Transformer.pollutants nr = false /\
    r = add_features nr (parsed k).
Proof.
  unfold transform_city_file. intros Hf Hin.
  destruct (Transformer.hourly_of f) as [|kv hourly] eqn:Eh.
  { inversion Hf; subst. destruct Hin. }
  destruct (Transformer.DataFrame (kv :: hourly)) as [n|e] eqn:Ed;
    [|discriminate].
  destruct n as [|n]. { inversion Hf; subst. destruct Hin. }
  destruct (dict_get (kv :: hourly) "time") as [times|] eqn:Et;
    [|discriminate].
  set (df := dropna_all Transformer.pollutants _) in *.
  destruct (to_datetime_column _) as [parsed|e] eqn:Ep; [|discriminate].
  injection Hf as Hf. rewrite <- Hf in Hin.
  apply in_map_iff in Hin. destruct Hin as [[k [j nr]] [Heq Hin]].
  cbn [fst snd] in Heq. injection Heq as Hj Hr. subst j.
  apply in_enumerate in Hin.
  assert (Hdf : In (i, nr) df) by (apply nth_error_In with k; exact Hin).
  apply filter_In in Hdf. destruct Hdf as [Hrow Hk].
  cbn [snd] in Hk. apply negb_true_iff in Hk.
  apply in_num_rows_double in Hrow.
  exists (S n), nr, times, parsed, k. cbv zeta. fold df.
  repeat apply conj; try assumption; try tauto; try reflexivity.
  - rewrite <- Hf, map_map. cbn [fst].
    rewrite <- (map_snd_enumerate df) at 2. rewrite map_map. reflexivity.
  - symmetry. exact Hr.
Qed.

(** The frames collected by [transform_all] hold the rows of the frames of
    the files, and nothing else. *)
Lemma collect_rows_double (files : list Transformer.raw_file) all_dfs :
  collect files = Ok all_dfs ->
  forall ir, In ir (List.concat all_dfs) <->
    exists f out, In f files /\ transform_city_file f = Ok out /\ In ir out.
Proof.
  revert all_dfs. induction files as [|f files IH]; simpl; intros all_dfs H.
  - injection H as <-. simpl.
    split; [intros [] | intros (f & out & [] & _)].
  - destruct (transform_city_file f) as [df|e] eqn:Ef; [|discriminate].
    destruct (collect files) as [rest|e] eqn:Ec; [|discriminate].
    pose proof (IH rest eq_refl) as IH2.
    intros ir.
    assert (Hcat : In ir (List.concat all_dfs) <->
                   In ir df \/ In ir (List.concat rest)).
    { destruct df as [|x df]; injection H as <-.
      - simpl. tauto.
      - rewrite concat_cons, in_app_iff. tauto. }
    rewrite Hcat, IH2. split.
    + intros [Hd | (g & out & Hg & Ho & Hin)].
      * exists f, df. auto.
      * exists g, out. auto.
    + intros (g & out & [<-|Hg] & Ho & Hin).
      * left. rewrite Ef in Ho. injection Ho as <-. exact Hin.
      * right. exists g, out. auto.
Qed.

Lemma transform_all_inv_double (files : list Transformer.raw_file) final csv :
  transform_all files = Ok (final, Some csv) ->
  exists all_dfs,
    collect files = Ok all_dfs /\
    final = concat_ignore_index all_dfs /\
    csv = to_csv final.
Proof.
  unfold transform_all. intros H.
  destruct (collect files) as [all_dfs|e]; [|discriminate].
  exists all_dfs. destruct all_dfs; [discriminate|].
  injection H as <- <-. auto.
Qed.

(** NaN in one of the six pollutants makes the severity NaN. *)
Lemma severity_nan (nr : num_row) (h : double) (c : string) :
  In c Transformer.pollutants ->
  get (num_items nr) c nan = nan ->
  compute_severity (row_items nr h) = nan.
Proof.
  unfold Transformer.pollutants, compute_severity. cbn.
  intros [H|[H|[H|[H|[H|[H|[]]]]]]] E; subst c; cbn in E; rewrite E;
    rewrite ?mul_nan_l, ?add_nan_l, ?add_nan_r; reflexivity.
Qed.

(** C1, amended.  In the staged file written by the transform, every line
    is the line of a row of the frame, taken from an hour of a raw file;
    and each of its nine numeric fields (pm10, pm2_5, carbon_monoxide,
    nitrogen_dioxide, ozone, sulphur_dioxide, uv_index, severity, hour) is
    written either as a number, which is finite or an infinity, or as the
    empty field, which is what the file holds for NaN: NaN itself is never
    written, and the empty field is not a number.  A measurement is written
    as the number 0 when the payload lacks its array, as the float of the
    payload's number when there is one (an infinity when it is beyond the
    range), and as the empty field when the payload has null; the hour is
    empty exactly when the time is not parsed; the severity is empty
    whenever one of the six pollutants is. *)
Theorem staged_numeric_fields (files : list Transformer.raw_file) final csv :
  transform_all files = Ok (final, Some csv) ->
  List.length csv = List.length final /\
  forall line, In line csv ->
    exists r f n i,
      In r final /\ line = to_csv_row r /\
      In f files /\
      Transformer.DataFrame (Transformer.hourly_of f) = Ok n /\
      (i < n)%nat /\
      (forall c, In c measured ->
         match dict_get (Transformer.hourly_of f) c with
         | None => dict_get line c = Some (CsvNum (of_Z 0))
         | Some col =>
             match nth i col JNull with
             | JNum q => dict_get line c = Some (CsvNum (of_Q q))
             | JNull => dict_get line c = Some (CsvText na_rep)
             | JStr s =>
                 dict_get line c = Some (csv_of_double (to_numeric (JStr s)))
             end
         end) /\
      match time r with
      | Some ts => dict_get line "hour" = Some (CsvNum (of_Z (dt_hour ts)))
      | None => dict_get line "hour" = Some (CsvText na_rep)
      end /\
      dict_get line "severity" = Some (csv_of_double (severity r)) /\
      ((exists c, In c Transformer.pollutants /\
                  dict_get line c = Some (CsvText na_rep)) ->
       dict_get line "severity" = Some (CsvText na_rep)) /\
      (forall c, In c numeric_names ->
         dict_get line c = Some (CsvText na_rep) \/
         exists x, dict_get line c = Some (CsvNum x) /\
                   (is_finite x = true \/ x = inf \/ x = neg_inf)) /\
      (forall x, CsvText na_rep <> CsvNum x).
Proof.
  intros H.
  destruct (transform_all_inv_double files final csv H) as (all_dfs & Hc & Hfin & ->).
  split; [apply length_map|].
  intros line Hline. unfold to_csv in Hline.
  apply in_map_iff in Hline. destruct Hline as (r & <- & Hr).
  assert (Hsrc : exists i, In (i, r) (List.concat all_dfs)).
  { rewrite Hfin in Hr. unfold concat_ignore_index in Hr.
    apply in_map_iff in Hr. destruct Hr as ([i r'] & Heq & Hin).
    cbn in Heq. subst r'. exists i. exact Hin. }
  destruct Hsrc as (i & Hin).
  apply (collect_rows_double files all_dfs Hc) in Hin.
  destruct Hin as (f & out & Hf & Hout & Hin).
  destruct (in_transform_city_file_double f out i r Hout Hin)
    as (n & nr & times & parsed & k & Hd & _ & _ & _ & Hk & Hi & _ & Hadd).
  assert (Hnr : In (i, nr)
                  (num_rows (Transformer.split_head "_raw_"
                               (Transformer.stem f))
                            (Transformer.hourly_of f) n)).
  { apply nth_error_In in Hk. apply filter_In in Hk. tauto. }
  apply in_num_rows_double in Hnr. destruct Hnr as [_ Hnr].
  exists r, f, n, i.
  split; [exact Hr|]. split; [reflexivity|]. split; [exact Hf|].
  split; [exact Hd|]. split; [exact Hi|].
  assert (Hcell : forall c, In c measured ->
            dict_get (to_csv_row r) c
            = Some (csv_of_double
                      (nth i (numeric_column (Transformer.hourly_of f) n c)
                           nan))).
  { intros c Hc'. unfold measured in Hc'. cbn in Hc'. subst r nr.
    destruct Hc' as [E|[E|[E|[E|[E|[E|[E|[]]]]]]]]; subst c; reflexivity. }
  split; [|split; [|split; [|split; [|split]]]].
  - intros c Hc'. pose proof (Hcell c Hc') as E.
    rewrite (numeric_column_nth _ _ _ _ Hi) in E.
    destruct (dict_get (Transformer.hourly_of f) c) as [col|].
    + destruct (nth i col JNull) as [q| |s]; [|exact E|exact E].
      rewrite E. cbn [to_numeric].
      rewrite (csv_of_double_number _ (of_Q_is_number q)). reflexivity.
    + exact E.
  - subst r. cbn [time add_features]. destruct (parsed k) as [ts|].
    + cbn. rewrite (csv_of_double_number _ (of_Z_is_number (dt_hour ts))).
      reflexivity.
    + reflexivity.
  - reflexivity.
  - intros (c & Hc' & E).
    assert (Hm : In c measured).
    { unfold Transformer.pollutants in Hc'. unfold measured. cbn in *. tauto. }
    rewrite (Hcell c Hm) in E. injection E as E.
    apply csv_of_double_empty in E.
    assert (Hs : severity r = nan).
    { subst r. cbn [severity add_features].
      apply (severity_nan nr _ c Hc'). rewrite <- E. subst nr.
      unfold Transformer.pollutants in Hc'. cbn in Hc'.
      destruct Hc' as [E'|[E'|[E'|[E'|[E'|[E'|[]]]]]]]; subst c; reflexivity. }
    cbn. rewrite Hs. reflexivity.
  - intros c Hc'. unfold numeric_names in Hc'. cbn in Hc'.
    assert (Hx : exists x, dict_get (to_csv_row r) c
                           = Some (csv_of_double x)).
    { destruct Hc' as [E|[E|[E|[E|[E|[E|[E|[E|[E|[]]]]]]]]]]; subst c;
        eexists; reflexivity. }
    destruct Hx as (x & ->).
    destruct (csv_of_double_cases x) as [E | (y & E & Hy)]; rewrite E.
    + left. reflexivity.
    + right. exists y. split; [reflexivity | exact Hy].
  - intros x. discriminate.
Qed.

(** X6. A row of the frame stores the converted cells of its hour as they
    are: the seven measurements, each the float of the payload's value at
    the row's index, or 0 for an array the payload lacks; the city read from
    the file name; and the time, which is the entry, at the row's position
    among the rows kept, of the column that [pd.to_datetime] makes of the
    times of the rows kept; the hour is the hour of that time. *)
Theorem frame_rows_store_cells (f : Transformer.raw_file) (n : nat) out
    (i : nat) (r : staged_row) :
  Transformer.DataFrame (Transformer.hourly_of f) = Ok n ->
  transform_city_file f = Ok out ->
  In (i, r) out ->
  (i < n)%nat /\
  pm10 r = nth i (numeric_column (Transformer.hourly_of f) n "pm10") nan /\
  pm2_5 r = nth i (numeric_column (Transformer.hourly_of f) n "pm2_5") nan /\
  carbon_monoxide r
  = nth i (numeric_column (Transformer.hourly_of f) n "carbon_monoxide") nan /\
  nitrogen_dioxide r
  = nth i (numeric_column (Transformer.hourly_of f) n "nitrogen_dioxide") nan /\
  ozone r = nth i (numeric_column (Transformer.hourly_of f) n "ozone") nan /\
  sulphur_dioxide r
  = nth i (numeric_column (Transformer.hourly_of f) n "sulphur_dioxide") nan /\
  uv_index r
  = nth i (numeric_column (Transformer.hourly_of f) n "uv_index") nan /\
  (forall c, In c measured ->
     nth i (numeric_column (Transformer.hourly_of f) n c) nan
     = match dict_get (Transformer.hourly_of f) c with
       | Some col => to_numeric (nth i col JNull)
       | None => of_Z 0
       end) /\
  city r = Transformer.split_head "_raw_" (Transformer.stem f) /\
  (exists times parsed k,
     dict_get (Transformer.hourly_of f) "time" = Some times /\
     to_datetime_column (map (fun j => nth j times JNull) (map fst out))
     = Ok parsed /\
     nth_error (map fst out) k = Some i /\
     time r = parsed k) /\
  hour r = hour_of (time r).
Proof.
  intros Hd Hf Hin.
  destruct (in_transform_city_file_double f out i r Hf Hin)
    as (n' & nr & times & parsed & k & Hd' & Ht & Hp & Hfst & Hk & Hi & _
        & ->).
  rewrite Hd in Hd'. injection Hd' as <-.
  assert (Hnr : In (i, nr)
                  (num_rows (Transformer.split_head "_raw_"
                               (Transformer.stem f))
                            (Transformer.hourly_of f) n)).
  { apply nth_error_In in Hk. apply filter_In in Hk. tauto. }
  apply in_num_rows_double in Hnr. destruct Hnr as [_ ->].
  repeat apply conj; try reflexivity; try exact Hi.
  - intros c _. apply numeric_column_nth, Hi.
  - exists times, parsed, k. repeat apply conj.
    + exact Ht.
    + rewrite Hfst, map_map. exact Hp.
    + rewrite Hfst, nth_error_map, Hk. reflexivity.
    + reflexivity.
Qed.

End Frames.

(** C1, as the claim words it, does not hold.  The staged file of a payload
    whose PM2.5 value is 1e308 has a severity field that is neither a finite
    number nor the empty field: five times 1e308 is beyond the range of a
    float, so the severity is the infinity, and it is written, as [inf]. *)
Lemma infinite_severity_is_staged :
  ~ (forall files final csv,
       transform_all (P := iso_columns) files = Ok (final, Some csv) ->
       forall line c, In line csv -> In c numeric_names ->
         dict_get line c = Some (CsvText na_rep) \/
         exists x, is_finite x = true /\ dict_get line c = Some (CsvNum x)).
Proof.
  intros H.
  assert (Hrun : exists final line,
             transform_all (P := iso_columns) [file_huge_pm2_5]
             = Ok (final, Some [line]) /\
             dict_get line "severity" = Some (CsvNum inf)).
  { eexists. eexists. split; vm_compute; reflexivity. }
  destruct Hrun as (final & line & Hrun & Hsev).
  destruct (H _ _ _ Hrun line "severity" (or_introl eq_refl))
    as [E | (x & Hfin & E)].
  - unfold numeric_names. cbn. tauto.
  - rewrite Hsev in E. discriminate.
  - rewrite Hsev in E. injection E as <-. discriminate.
Qed.

Lemma staged_numeric_fields_witness :
  exists final line,
    transform_all (P := iso_columns) [file_huge_pm2_5]
    = Ok (final, Some [line]) /\
    dict_get line "pm2_5" = Some (CsvNum (of_Q (10 ^ 308))) /\
    dict_get line "severity" = Some (CsvNum inf).
Proof.
  assert (Hrun : exists final line,
             transform_all (P := iso_columns) [file_huge_pm2_5]
             = Ok (final, Some [line]) /\
             dict_get line "severity" = Some (CsvNum inf)).
  { eexists. eexists. split; vm_compute; reflexivity. }
  destruct Hrun as (final & line & Hrun & Hsev).
  exists final, line. split; [exact Hrun|]. split; [|exact Hsev].
  destruct (staged_numeric_fields (P := iso_columns) _ _ _ Hrun)
    as (_ & Hlines).
  destruct (Hlines line (or_introl eq_refl))
    as (r & f & n & i & _ & _ & Hf & Hd & Hi & Hcells & _).
  destruct Hf as [<-|[]].
  injection Hd as <-.
  assert (i = 0%nat) by lia. subst i.
  exact (Hcells "pm2_5" (or_intror (or_introl eq_refl))).
Defined.

Lemma run_huge_pm2_5 :
  exists r,
    transform_city_file (P := iso_columns) file_huge_pm2_5 = Ok [(0%nat, r)].
Proof. eexists. vm_compute. reflexivity. Qed.

Lemma frame_rows_store_cells_witness :
  exists r,
    transform_city_file (P := iso_columns) file_huge_pm2_5 = Ok [(0%nat, r)] /\
    city r = "delhi" /\
    hour r = hour_of (time r).
Proof.
  destruct run_huge_pm2_5 as (r & Hrun).
  exists r. split; [exact Hrun|].
  destruct (frame_rows_store_cells (P := iso_columns) file_huge_pm2_5 1 _
              0 r eq_refl Hrun (or_introl eq_refl))
    as (_ & _ & _ & _ & _ & _ & _ & _ & _ & Hcity & _ & Hhour).
  split; [rewrite Hcity; reflexivity | exact Hhour].
Defined.

(** X8. The severity is a sum of floats, each step rounded, so at a
    boundary of the risk tiers the rounding decides: for PM10 86.4 and
    nitrogen dioxide 35.2, the other pollutants 0, the weighted sum of the
    payload's numbers is exactly 400, the severity computed is the float
    next above 400 (printed 400.00000000000006), and the tier is "High
    Risk"; a severity of 400 is "Moderate Risk". *)
Theorem severity_rounds_at_the_boundary :
  (86.4 * 3 + 35.2 * 4 == 400)%Q /\
  exists r,
    transform_city_file (P := iso_columns) file_boundary = Ok [(0%nat, r)] /\
    pm10 r = of_Q 86.4 /\
    nitrogen_dioxide r = of_Q 35.2 /\
    pm2_5 r = of_Z 0 /\ sulphur_dioxide r = of_Z 0 /\
    carbon_monoxide r = of_Z 0 /\ ozone r = of_Z 0 /\
    of_Z 400 = S754_finite false 7036874417766400 (-44) /\
    severity r = S754_finite false 7036874417766401 (-44) /\
    risk r = "High Risk" /\
    classify_risk (of_Z 400) = "Moderate Risk".
Proof.
  split; [reflexivity|].
  eexists. repeat apply conj; vm_compute; reflexivity.
Qed.

End Transformer64Facts.

(* ================================================================== *)
(** * The second transform script *)

Module Transformer2Facts.
Import Py Num NumFacts Transformer TransformerFacts TransformerMore Transformer2.

Lemma combine_nil_iff {A B : Type} (a : list A) (b : list B) :
  combine a b = [] <-> a = [] \/ b = [].
Proof.
  destruct a, b; simpl; split; intros H; auto; try discriminate;
    destruct H; discriminate.
Qed.

Lemma flat_map_nil_iff {A B : Type} (g : A -> list B) (l : list A) :
  flat_map g l = [] <-> forall x, In x l -> g x = [].
Proof.
  induction l as [|a l IH]; simpl.
  - split; [intros _ x [] | reflexivity].
  - split.
    + intros H x [<-|Hx]; apply app_eq_nil in H; [tauto|].
      apply IH; tauto.
    + intros H. rewrite (H a (or_introl eq_refl)). simpl.
      apply IH. intros x Hx. apply H. right. exact Hx.
Qed.

(** The [zip] yields no tuple exactly when one of the eight arrays is
    missing or empty. *)
Lemma zipped_nil_iff (hourly : dict (list json)) :
  zipped hourly = [] <-> exists key, In key arrays /\ get_list hourly key = [].
Proof.
  unfold zipped, zipped_row. rewrite !combine_nil_iff.
  unfold arrays, num_cols. split.
  - intros H. repeat (destruct H as [H|H]; [eexists; split; [|exact H];
                                            simpl; tauto|]).
    eexists; split; [|exact H]. simpl; tauto.
  - intros (key & Hk & Hg). simpl in Hk.
    repeat (destruct Hk as [<-|Hk]; [tauto|]). destruct Hk.
Qed.

Section Frames.
Context {P : Pandas}.

(** X10. When there are raw files but none yields a row, because the
    ["hourly"] dictionary of each lacks one of the eight arrays or holds an
    empty one and the [zip] stops with the shortest, the second script
    raises KeyError at [df["time"]], the frame built from no row having no
    column: it writes no staged file and does not report that nothing was
    transformed.  Without raw files it returns without writing. *)
Theorem transform_data_without_rows (raw_files : list raw_file) :
  (raw_files = [] -> transform_data raw_files = Ok None) /\
  (raw_files <> [] ->
   (forall f, In f raw_files ->
      exists key, In key arrays /\ get_list (hourly_of f) key = []) ->
   transform_data raw_files = Raise "KeyError").
Proof.
  split; [intros ->; reflexivity|].
  intros Hne Hall. unfold transform_data.
  destruct raw_files as [|f0 rest]; [congruence|].
  assert (Hnil : flat_map file_rows (f0 :: rest) = []).
  { apply flat_map_nil_iff. intros f Hf. unfold file_rows.
    rewrite (proj2 (zipped_nil_iff (hourly_of f)) (Hall f Hf)). reflexivity. }
  rewrite Hnil. reflexivity.
Qed.








End Frames.


End Transformer2Facts.

(* ================================================================== *)
(** * Further properties of the extraction *)

Module FetcherExtras.
Import Ascii.
Import Py Fetcher FetcherFacts FetcherMore.

(** The sum of a doubling schedule. *)
Lemma sum_doubling (m : nat) :
  forall base : Z,
    fold_right Z.add 0%Z (doubling base m)
    = (base * (2 ^ Z.of_nat m - 1))%Z.
Proof.
  induction m as [|m IH]; intros base.
  - simpl. lia.
  - cbn [doubling fold_right]. rewrite IH.
    rewrite Nat2Z.inj_succ, Z.pow_succ_r by lia. lia.
Qed.

Lemma sum_inject_Z (l : list Z) :
  fold_right Qplus 0 (map inject_Z l) == inject_Z (fold_right Z.add 0%Z l).
Proof.
  induction l as [|z l IH]; [reflexivity|].
  cbn [map fold_right]. rewrite IH, inject_Z_plus. reflexivity.
Qed.

Lemma total_sleep_app (a b : list event) :
  total_sleep (a ++ b) == total_sleep a + total_sleep b.
Proof.
  unfold total_sleep, sleeps. rewrite flat_map_app.
  induction (flat_map (fun e => match e with Get _ => [] | Sleep s => [s] end) a)
    as [|x l IH]; simpl.
  - lra.
  - rewrite IH. lra.
Qed.

Lemma gets_app (a b : list event) : gets (a ++ b) = (gets a ++ gets b)%list.
Proof. unfold gets. apply flat_map_app. Qed.

Lemma total_sleep_exhausted_trace (city : string) (k : nat) :
  total_sleep (exhausted_trace city 1 k)
  == inject_Z (2 ^ Z.of_nat (k - 1) - 1).
Proof.
  unfold total_sleep. rewrite sleeps_exhausted_trace, sum_inject_Z, sum_doubling.
  rewrite Z.mul_1_l. reflexivity.
Qed.

Section Fetch.
Context {Src : Source}.

(** Whatever the outcome of the loop, its events are requests separated by
    the doubling delays. *)
Lemma attempts_shape (max_retries : Z) (city : string) (lat lon : Q)
    (fuel : nat) :
  forall (attempt : Z) (st : state) res st',
    attempts max_retries fuel attempt city lat lon st = (res, st') ->
    (1 <= attempt)%Z ->
    (attempt + Z.of_nat fuel = max_retries + 1)%Z ->
    exists k,
      (k <= fuel)%nat /\
      (1 <= fuel -> 1 <= k)%nat /\
      snd st' = (snd st ++ exhausted_trace city (2 ^ (attempt - 1)) k)%list /\
      (res = Ok None -> k = fuel).
Proof.
  induction fuel as [|fuel IH]; intros attempt st res st' H H1 Hsum.
  - simpl in H. injection H as <- <-. exists 0%nat.
    rewrite app_nil_r. repeat split; auto; lia.
  - cbn [attempts] in H.
    destruct (try_get city lat lon (fst st)) as [o w].
    destruct o as [path | e | e].
    + injection H as <- <-. exists 1%nat.
      repeat split; try lia; try reflexivity. discriminate.
    + destruct (attempt <? max_retries)%Z eqn:Elt.
      * apply Z.ltb_lt in Elt. destruct fuel as [|fuel]; [lia|].
        apply IH in H; [|lia|lia].
        destruct H as (k & Hk & Hpos & Hlog & Hex).
        destruct k as [|k]; [lia|].
        exists (S (S k)). repeat split; try lia.
        -- rewrite Hlog. unfold log. cbn [fst snd].
           rewrite <- !app_assoc. cbn [app exhausted_trace].
           replace (attempt + 1 - 1)%Z with (Z.succ (attempt - 1)) by lia.
           rewrite Z.pow_succ_r by lia. reflexivity.
        -- intros Hres. rewrite (Hex Hres). reflexivity.
      * apply Z.ltb_ge in Elt. destruct fuel as [|fuel]; [|lia].
        simpl in H. injection H as <- <-. exists 1%nat.
        repeat split; try lia; reflexivity.
    + injection H as <- <-. exists 1%nat.
      repeat split; try lia; try reflexivity. discriminate.
Qed.

Lemma fetch_city_with_shape (max_retries : Z) (city : string) (lat lon : Q)
    (st : state) res st' :
  fetch_city_with max_retries city lat lon st = (res, st') ->
  exists k evs,
    (k <= Z.to_nat max_retries)%nat /\
    snd st' = (snd st ++ evs)%list /\
    evs = exhausted_trace city 1 k /\
    gets evs = repeat city k /\
    sleeps evs = map inject_Z (doubling 1 (k - 1)) /\
    total_sleep evs == inject_Z (2 ^ Z.of_nat (k - 1) - 1) /\
    (forall r, res = Ok r -> success r = false -> k = Z.to_nat max_retries).
Proof.
  unfold fetch_city_with. intros H.
  destruct (attempts max_retries (Z.to_nat max_retries) 1 city lat lon st)
    as [res0 st0] eqn:Ea.
  assert (Hshape : exists k,
            (k <= Z.to_nat max_retries)%nat /\
            snd st0 = (snd st ++ exhausted_trace city 1 k)%list /\
            (res0 = Ok None -> k = Z.to_nat max_retries)).
  { destruct (Z_le_gt_dec max_retries 0) as [Hle|Hgt].
    - assert (E0 : Z.to_nat max_retries = 0%nat) by lia.
      rewrite E0 in Ea. cbn [attempts] in Ea.
      assert (Er : res0 = Ok None) by congruence.
      assert (Es : st0 = st) by congruence.
      subst res0 st0. exists 0%nat. rewrite app_nil_r, E0. auto.
    - destruct (attempts_shape _ _ _ _ _ _ _ _ _ Ea) as (k & Hk & _ & Hlog & Hex);
        [lia | lia |].
      exists k. auto. }
  destruct Hshape as (k & Hk & Hlog & Hex).
  assert (Hst : st' = st0) by (destruct res0 as [[r0|]|e]; congruence).
  subst st'. exists k, (exhausted_trace city 1 k).
  split; [exact Hk|]. split; [exact Hlog|]. split; [reflexivity|].
  split; [apply gets_exhausted_trace|].
  split; [apply sleeps_exhausted_trace|].
  split; [apply total_sleep_exhausted_trace|].
  intros r Hr Hs. apply Hex.
  destruct res0 as [[r0|]|e]; [|reflexivity|congruence].
  exfalso. injection H as H. rewrite Hr in H. injection H as ->.
  apply attempts_some_success in Ea. destruct Ea as [Ea _]. congruence.
Qed.

(** X12. Whatever its outcome and whatever the bound on the attempts, the
    events of a fetch are [k] requests for its city, [k] at most the bound,
    separated by the delays 1, 2, 4, ... and followed by none; the time
    slept is 2^(k-1) - 1 seconds.  A fetch that returns a failure record has
    used all the attempts. *)
Theorem fetch_events_shape (max_retries : Z) (city : string) (lat lon : Q)
    (st : state) res st' :
  fetch_city_with max_retries city lat lon st = (res, st') ->
  exists k evs,
    (k <= Z.to_nat max_retries)%nat /\
    snd st' = (snd st ++ evs)%list /\
    evs = exhausted_trace city 1 k /\
    gets evs = repeat city k /\
    sleeps evs = map inject_Z (doubling 1 (k - 1)) /\
    total_sleep evs == inject_Z (2 ^ Z.of_nat (k - 1) - 1) /\
    (forall r, res = Ok r -> success r = false -> k = Z.to_nat max_retries).
Proof. apply fetch_city_with_shape. Qed.

(** X13. The record a fetch returns names its city and has exactly one of
    the path of the saved file and the error text: the path when it
    succeeded, the text "Failed after 3 attempts" when it did not. *)
Theorem fetch_record_shape (city : string) (lat lon : Q) (st : state)
    (r : fetch_result) st' :
  fetch_city city lat lon st = (Ok r, st') ->
  fr_city r = city /\
  (success r = true ->
     (exists path, raw_path r = Some path) /\ error r = None) /\
  (success r = false ->
     raw_path r = None /\ error r = Some "Failed after 3 attempts").
Proof.
  unfold fetch_city, fetch_city_with. intros H.
  destruct (attempts MAX_RETRIES (Z.to_nat MAX_RETRIES) 1 city lat lon st)
    as [res0 st0] eqn:Ea.
  destruct res0 as [[r0|]|e]; [| |discriminate].
  - injection H as -> _. clear st'.
    revert Ea. generalize (Z.to_nat MAX_RETRIES) 1%Z st.
    intros fuel. induction fuel as [|fuel IH]; intros attempt st1 Ea.
    + discriminate.
    + cbn [attempts] in Ea.
      destruct (try_get city lat lon (fst st1)) as [o w].
      destruct o as [path | e | e].
      * injection Ea as <- _. cbn. repeat split; eauto; discriminate.
      * eapply IH. exact Ea.
      * discriminate.
  - injection H as <- _. cbn. repeat split; try discriminate; reflexivity.
Qed.

(** The requests and the delays of the fetch of one city. *)
Lemma fetch_city_cost (city : string) (lat lon : Q) (st : state) res st' :
  fetch_city city lat lon st = (res, st') ->
  exists evs,
    snd st' = (snd st ++ evs)%list /\
    (List.length (gets evs) <= 3)%nat /\
    0 <= total_sleep evs /\ total_sleep evs <= 3.
Proof.
  intros H. apply fetch_city_with_shape in H.
  destruct H as (k & evs & Hk & Hlog & -> & Hg & _ & _ & _).
  exists (exhausted_trace city 1 k). split; [exact Hlog|].
  rewrite Hg, repeat_length. change (Z.to_nat MAX_RETRIES) with 3%nat in Hk.
  split; [exact Hk|].
  destruct k as [|[|[|[|k]]]]; try lia; vm_compute; split; discriminate.
Qed.

Lemma fetch_each_cost (cities : dict (Q * Q)) :
  forall (st : state) res st',
    fetch_each cities st = (res, st') ->
    exists evs,
      snd st' = (snd st ++ evs)%list /\
      (List.length (gets evs) <= 3 * List.length cities)%nat /\
      total_sleep evs <= inject_Z (4 * Z.of_nat (List.length cities)) /\
      (forall results, res = Ok results ->
         List.length results = List.length cities /\
         inject_Z (Z.of_nat (List.length cities)) <= total_sleep evs).
Proof.
  induction cities as [|[city [lat lon]] cities IH]; intros st res st' H.
  - simpl in H. injection H as <- <-. exists []. rewrite app_nil_r.
    split; [reflexivity|]. split; [simpl; lia|].
    split; [vm_compute; discriminate|].
    intros results Hr. injection Hr as <-.
    split; [reflexivity | vm_compute; discriminate].
  - cbn [fetch_each] in H.
    destruct (fetch_city city lat lon st) as [r1 st1] eqn:Ef.
    destruct (fetch_city_cost _ _ _ _ _ _ Ef) as (e1 & Hl1 & Hg1 & Hs0 & Hs1).
    assert (Hlen : inject_Z (4 * Z.of_nat (List.length ((city, (lat, lon)) :: cities)))
                   == 4 + inject_Z (4 * Z.of_nat (List.length cities))).
    { cbn [List.length]. rewrite Nat2Z.inj_succ.
      replace (4 * Z.succ (Z.of_nat (List.length cities)))%Z
        with (4 + 4 * Z.of_nat (List.length cities))%Z by lia.
      rewrite inject_Z_plus. reflexivity. }
    assert (Hlen1 : inject_Z (Z.of_nat (List.length ((city, (lat, lon)) :: cities)))
                    == 1 + inject_Z (Z.of_nat (List.length cities))).
    { cbn [List.length]. rewrite Nat2Z.inj_succ.
      replace (Z.succ (Z.of_nat (List.length cities)))
        with (1 + Z.of_nat (List.length cities))%Z by lia.
      rewrite inject_Z_plus. reflexivity. }
    destruct r1 as [r|e].
    + destruct (fetch_each cities (log (Sleep SLEEP_BETWEEN_CALLS) st1))
        as [r2 st2] eqn:Ee.
      destruct (IH _ _ _ Ee) as (e2 & Hl2 & Hg2 & Hs2 & Hok).
      assert (Hst : st' = st2) by (destruct r2; congruence). subst st'.
      exists (e1 ++ Sleep SLEEP_BETWEEN_CALLS :: e2)%list.
      assert (Hts : total_sleep (e1 ++ Sleep SLEEP_BETWEEN_CALLS :: e2)
                    == total_sleep e1 + (1 + total_sleep e2)).
      { rewrite total_sleep_app. unfold total_sleep at 2. cbn.
        fold (sleeps e2). fold (total_sleep e2).
        unfold SLEEP_BETWEEN_CALLS. lra. }
      split; [|split; [|split]].
      * rewrite Hl2. unfold log. cbn [fst snd]. rewrite Hl1.
        rewrite <- !app_assoc. reflexivity.
      * rewrite gets_app, length_app. cbn. fold (gets e2).
        cbn [List.length]. lia.
      * rewrite Hts, Hlen. lra.
      * intros results Hr. destruct r2 as [rs|e]; [|congruence].
        destruct (Hok rs eq_refl) as [Hn Hlow].
        split.
        -- assert (results = r :: rs) by congruence. subst results.
           cbn [List.length]. rewrite Hn. reflexivity.
        -- rewrite Hts, Hlen1. lra.
    + injection H as <- <-. exists e1.
      split; [exact Hl1|]. split; [cbn [List.length]; lia|].
      split; [rewrite Hlen|].
      * assert (0 <= inject_Z (4 * Z.of_nat (List.length cities))).
        { change 0 with (inject_Z 0). rewrite <- Zle_Qle. lia. }
        lra.
      * intros results Hr. discriminate.
Qed.

(** X14. A run over the five configured cities makes at most 15 requests
    and sleeps at most 20 seconds, however it ends; a run that returns has
    one record per city and has slept at least 5 seconds, the pause after
    each city. *)
Theorem fetch_all_cities_cost (st : state) res st' :
  fetch_all_cities st = (res, st') ->
  exists evs,
    snd st' = (snd st ++ evs)%list /\
    (List.length (gets evs) <= 15)%nat /\
    total_sleep evs <= 20 /\
    (forall results, res = Ok results ->
       List.length results = 5%nat /\ 5 <= total_sleep evs).
Proof.
  unfold fetch_all_cities. intros H.
  destruct (fetch_each_cost CITIES st res st' H) as (evs & Hl & Hg & Hs & Hok).
  exists evs. split; [exact Hl|]. split; [exact Hg|]. split; [exact Hs|].
  exact Hok.
Qed.

End Fetch.

Lemma fetch_events_shape_witness :
  exists st',
    fetch_city_with (Src := source_down) 5 "Pune" 18.52 73.85 (0%nat, [])
    = (Ok (mk_fetch_result "Pune" false None (Some "Failed after 5 attempts")),
       st') /\
    total_sleep (snd st') == 15.
Proof.
  eexists. split; [vm_compute; reflexivity|].
  match goal with
  | |- total_sleep (snd ?s) == _ =>
      destruct (fetch_events_shape (Src := source_down) 5 "Pune" 18.52 73.85
                  (0%nat, []) _ s eq_refl)
        as (k & evs & _ & Hlog & _ & _ & _ & Hsum & Hk)
  end.
  rewrite (Hk _ eq_refl eq_refl) in Hsum.
  cbn [snd app] in Hlog. rewrite Hlog, Hsum. reflexivity.
Defined.

Lemma fetch_record_shape_witness :
  let r := mk_fetch_result "Mumbai" true (Some "Mumbai.json") None in
  fetch_city (Src := source_flaky) "Mumbai" 19.0760 72.8777 (1%nat, [])
  = (Ok r, (0%nat, [Get "Mumbai"; Sleep 1; Get "Mumbai"])) /\
  fr_city r = "Mumbai" /\ error r = None.
Proof.
  intros r.
  assert (H : fetch_city (Src := source_flaky) "Mumbai" 19.0760 72.8777
                (1%nat, [])
              = (Ok r, (0%nat, [Get "Mumbai"; Sleep 1; Get "Mumbai"])))
    by (vm_compute; reflexivity).
  destruct (fetch_record_shape (Src := source_flaky) _ _ _ _ _ _ H)
    as (Hc & Hs & _).
  split; [exact H|]. split; [exact Hc|]. exact (proj2 (Hs eq_refl)).
Defined.

Lemma fetch_all_cities_cost_witness :
  fetch_all_cities (Src := source_down) (0%nat, []) = run_source_down /\
  (List.length (gets (snd (snd run_source_down))) <= 15)%nat /\
  total_sleep (snd (snd run_source_down)) <= 20.
Proof.
  assert (H : fetch_all_cities (Src := source_down) (0%nat, [])
              = run_source_down) by (vm_compute; reflexivity).
  split; [exact H|].
  destruct (fetch_all_cities_cost (Src := source_down) (0%nat, [])
              (fst run_source_down) (snd run_source_down) H)
    as (evs & Hl & Hg & Hs & _).
  cbn [fst snd app] in Hl. rewrite Hl. split; [exact Hg | exact Hs].
Defined.

Lemma string_app_assoc (a b c : string) :
  ((a ++ b) ++ c = a ++ (b ++ c))%string.
Proof. induction a as [|x a IH]; simpl; [|rewrite IH]; reflexivity. Qed.

Lemma string_length_app (a b : string) :
  String.length (a ++ b) = (String.length a + String.length b)%nat.
Proof. induction a as [|x a IH]; simpl; [|rewrite IH]; reflexivity. Qed.

Lemma name_of_plain (s : string) :
  RawNames.has_char "/"%char s = false -> RawNames.name_of s = s.
Proof.
  intros H. destruct s as [|a s]; [reflexivity|].
  cbn [RawNames.name_of]. rewrite H. reflexivity.
Qed.

Lemma has_char_app (a : ascii) (s t : string) :
  RawNames.has_char a (s ++ t)
  = RawNames.has_char a s || RawNames.has_char a t.
Proof.
  induction s as [|b s IH]; [reflexivity|].
  cbn [String.append RawNames.has_char]. rewrite IH, orb_assoc. reflexivity.
Qed.

(** The entry of the raw directory for a file name without a slash. *)
Lemma name_of_raw_path (name : string) :
  RawNames.has_char "/"%char name = false ->
  RawNames.name_of ("data/raw/" ++ name) = name.
Proof.
  intros H.
  change ("data/raw/" ++ name)%string
    with (String "d" (String "a" (String "t" (String "a" (String "/"
           (String "r" (String "a" (String "w" (String "/" name))))))))).
  cbn [RawNames.name_of RawNames.has_char Ascii.eqb Bool.eqb orb andb].
  apply name_of_plain. exact H.
Qed.

Lemma before_last_dot_json (x : string) :
  RawNames.before_last_dot (x ++ ".json") = Some x.
Proof.
  induction x as [|a x IH]; [reflexivity|].
  cbn [String.append RawNames.before_last_dot]. rewrite IH. reflexivity.
Qed.

Lemma stem_of_json (x : string) :
  x <> ""%string -> RawNames.stem_of (x ++ ".json") = x.
Proof.
  intros Hx. unfold RawNames.stem_of. rewrite before_last_dot_json.
  rewrite string_length_app. cbn [String.length].
  destruct x as [|a x]; [congruence|]. cbn [String.length].
  replace (S (String.length x) =? 0)%nat with false by reflexivity.
  replace (S (String.length x) + 5 - 1 <=? S (String.length x))%nat
    with false; [reflexivity|].
  symmetry. apply Nat.leb_gt. lia.
Qed.

(** The stem of the file saved for a city. *)
Lemma raw_file_stem_plain (city ts : string) :
  RawNames.has_char "/"%char (RawNames.lower city) = false ->
  RawNames.has_char "/"%char ts = false ->
  RawNames.raw_file_stem city ts
  = (RawNames.lower city ++ "_raw_" ++ ts)%string.
Proof.
  intros Hc Ht. unfold RawNames.raw_file_stem, RawNames.raw_file_path.
  rewrite name_of_raw_path.
  - unfold RawNames.raw_file_name.
    replace (RawNames.lower city ++ "_raw_" ++ ts ++ ".json")%string
      with ((RawNames.lower city ++ "_raw_" ++ ts) ++ ".json")%string
      by (rewrite !string_app_assoc; reflexivity).
    apply stem_of_json. destruct (RawNames.lower city); discriminate.
  - unfold RawNames.raw_file_name.
    rewrite !has_char_app, Hc, Ht. reflexivity.
Qed.

(** X15. For a city whose name is in ASCII and has no underscore and no
    slash, the city a transform script reads back from the raw file that
    [save_raw] wrote is the lower-case name of the city: the stem of the
    directory entry is the lower-case name, ["_raw_"] and the time stamp;
    the first script, which cuts the stem at ["_raw_"], and the second,
    which cuts the file name at ["_"], both recover the name, and the first
    script stores it in every row of the file. *)
Theorem city_name_round_trip {P : Pandas} (city ts : string)
    (hourly : dict (list json)) :
  RawNames.is_ascii city = true ->
  RawNames.has_char "_"%char (RawNames.lower city) = false ->
  RawNames.has_char "/"%char (RawNames.lower city) = false ->
  RawNames.has_char "/"%char ts = false ->
  RawNames.raw_file_stem city ts
  = (RawNames.lower city ++ "_raw_" ++ ts)%string /\
  Transformer.split_head "_raw_" (RawNames.raw_file_stem city ts)
  = RawNames.lower city /\
  Transformer2.city_of (RawNames.saved_file city ts hourly)
  = RawNames.lower city /\
  (forall out i r,
     Transformer.transform_city_file (RawNames.saved_file city ts hourly)
     = Ok out ->
     In (i, r) out -> Transformer.city r = RawNames.lower city).
Proof.
  intros _ Hno Hslash Hts.
  pose proof (raw_file_stem_plain city ts Hslash Hts) as Hst.
  assert (H1 : forall c rest,
            RawNames.has_char "_"%char c = false ->
            Transformer.split_head "_raw_" (c ++ "_raw_" ++ rest) = c).
  { induction c as [|a c IH]; intros rest Hc.
    - cbn. destruct rest; reflexivity.
    - cbn [RawNames.has_char] in Hc. apply orb_false_iff in Hc.
      destruct Hc as [Ha Hc].
      change ((String a c ++ "_raw_" ++ rest)%string)
        with (String a (c ++ "_raw_" ++ rest)).
      cbn [Transformer.split_head String.prefix].
      destruct (Ascii.ascii_dec "_"%char a) as [E|E].
      + subst a. rewrite Ascii.eqb_refl in Ha. discriminate.
      + rewrite IH by exact Hc. reflexivity. }
  assert (H2 : forall c rest,
            RawNames.has_char "_"%char c = false ->
            Transformer.split_head "_" (c ++ "_" ++ rest) = c).
  { induction c as [|a c IH]; intros rest Hc.
    - cbn. destruct rest; reflexivity.
    - cbn [RawNames.has_char] in Hc. apply orb_false_iff in Hc.
      destruct Hc as [Ha Hc].
      change ((String a c ++ "_" ++ rest)%string)
        with (String a (c ++ "_" ++ rest)).
      cbn [Transformer.split_head String.prefix].
      destruct (Ascii.ascii_dec "_"%char a) as [E|E].
      + subst a. rewrite Ascii.eqb_refl in Ha. discriminate.
      + rewrite IH by exact Hc. reflexivity. }
  assert (Hstem : Transformer.split_head "_raw_" (RawNames.raw_file_stem city ts)
                  = RawNames.lower city).
  { rewrite Hst. apply H1. exact Hno. }
  split; [exact Hst|]. split; [exact Hstem|]. split.
  - unfold Transformer2.city_of, Transformer2.file_name, RawNames.saved_file.
    cbn [Transformer.stem]. rewrite Hst.
    replace ((RawNames.lower city ++ "_raw_" ++ ts) ++ ".json")%string
      with (RawNames.lower city ++ "_" ++ ("raw_" ++ ts ++ ".json"))%string.
    + apply H2. exact Hno.
    + rewrite !string_app_assoc. reflexivity.
  - intros out i r Hf Hin.
    destruct (TransformerFacts.in_transform_city_file _ _ _ _ Hf Hin)
      as (n & nr & times & _ & _ & Hnr & _ & ->).
    apply TransformerFacts.in_num_rows in Hnr. destruct Hnr as [_ ->].
    cbn. exact Hstem.
Qed.

Lemma city_name_round_trip_witness :
  RawNames.raw_file_stem "Delhi" "20240101T000000Z"
  = "delhi_raw_20240101T000000Z" /\
  Transformer.split_head "_raw_"
    (RawNames.raw_file_stem "Delhi" "20240101T000000Z") = "delhi".
Proof.
  destruct (city_name_round_trip (P := Transformer.iso_minutes)
              "Delhi" "20240101T000000Z" [] eq_refl eq_refl eq_refl eq_refl)
    as (Hst & Hcity & _).
  split; [exact Hst | exact Hcity].
Defined.

(** A city name with a slash: the stem keeps what follows the slash only. *)
Example stem_of_city_with_slash :
  RawNames.raw_file_stem "a/b" "20240101T000000Z"
  = "b_raw_20240101T000000Z".
Proof. reflexivity. Qed.

End FetcherExtras.

(* ================================================================== *)
(** * A run over the cities, city by city *)

Module FetcherRun.
Import Py Fetcher FetcherFacts FetcherMore FetcherExtras.


Section Fetch.
Context {Src : Source}.




End Fetch.



(** The run in which Delhi is down: three requests for Delhi, then one for
    each of the four other cities, which are saved. *)
Example run_with_delhi_down :
  let run := fetch_all_cities (Src := source_down_for "Delhi") (0%nat, []) in
  snd (snd run) = run_trace (map fst CITIES) [3; 1; 1; 1; 1]%nat /\
  gets (snd (snd run))
  = ["Delhi"; "Delhi"; "Delhi"; "Mumbai"; "Bengaluru"; "Hyderabad"; "Kolkata"]
  /\
  match fst run with
  | Ok results => map success results = [false; true; true; true; true]
  | Raise _ => False
  end.
Proof. vm_compute. repeat split. Qed.

End FetcherRun.

(* ================================================================== *)
(** * Further properties of the load *)

Module LoaderExtras.
Import Py Num Loader LoaderFacts LoaderMore.

Lemma dict_get_map_key {V : Type} (g : string -> V) (l : list string)
    (c : string) :
  In c l -> dict_get (map (fun k => (k, g k)) l) c = Some (g c).
Proof.
  induction l as [|k l IH]; intros Hin; [destruct Hin|].
  cbn [map dict_get]. destruct (String.eqb k c) eqn:E.
  - apply String.eqb_eq in E. subst k. reflexivity.
  - destruct Hin as [->|Hin]; [rewrite String.eqb_refl in E; discriminate|].
    apply IH, Hin.
Qed.

Lemma mem_numeric (c : string) :
  In c numeric_cols -> mem c numeric_cols = true /\ String.eqb c "time" = false.
Proof.
  intros Hc. split.
  - unfold mem. apply existsb_exists. exists c.
    split; [exact Hc | apply String.eqb_refl].
  - apply String.eqb_neq. intros ->. unfold numeric_cols in Hc.
    simpl in Hc. intuition discriminate.
Qed.

Lemma numeric_is_expected (c : string) : In c numeric_cols -> In c expected.
Proof. unfold numeric_cols, expected. simpl. intuition. Qed.

Lemma dict_get_rename_none (row : dict json) (c : string) :
  (forall k v, In (k, v) row -> rename_col k <> c) ->
  dict_get (rename_row row) c = None.
Proof.
  intros Hno. unfold rename_row.
  induction row as [|[k v] row IH]; [reflexivity|].
  cbn [map dict_get fst snd].
  destruct (String.eqb (rename_col k) c) eqn:E.
  - apply String.eqb_eq in E. exfalso.
    exact (Hno k v (or_introl eq_refl) E).
  - apply IH. intros k' v' Hin. apply (Hno k' v'). right. exact Hin.
Qed.

Section Prepare.
Context {P : Pandas}.

Lemma prepare_row_get (dtypes : dict bool) (t : option Timestamp)
    (row : dict json) (c : string) :
  In c expected ->
  dict_get (prepare_row dtypes t row) c
  = Some (match dict_get row c with
          | Some v => prepare_value dtypes t c v
          | None => prepare_absent c
          end).
Proof.
  intros Hc. unfold prepare_row. exact (dict_get_map_key _ expected c Hc).
Qed.

(** X16. For a frame whose columns get distinct names by the renaming, the
    records prepared for the table are as many as its rows, and each has
    the thirteen expected columns, in order, and no other.  A numeric
    column holds a number or the float nan, never [None] and never a text:
    the conversion of missing numbers to [None] that the docstring
    announces does not take place.  The time is a text or [None].  An
    expected column the frame lacks is nan in every record when it is
    numeric, and [None] otherwise. *)
Theorem prepared_records_shape (df : list (dict json)) :
  is_frame df ->
  List.length (normalize_and_prepare df) = List.length df /\
  (forall rec, In rec (normalize_and_prepare df) ->
     map fst rec = expected /\
     (forall c, In c numeric_cols ->
        dict_get rec c = Some VNaN \/ exists q, dict_get rec c = Some (VNum q)) /\
     (dict_get rec "time" = Some VNone \/
      exists s, dict_get rec "time" = Some (VStr s))) /\
  (forall c,
     In c expected ->
     (forall row k v, In row df -> In (k, v) row -> rename_col k <> c) ->
     forall rec, In rec (normalize_and_prepare df) ->
       dict_get rec c = Some (if mem c numeric_cols then VNaN else VNone)).
Proof.
  intros _. unfold normalize_and_prepare. cbv zeta.
  set (dtypes := object_columns (map rename_row df)).
  set (times := to_datetime_coerce (time_column (map rename_row df))).
  split; [rewrite length_map, PyFacts.length_enumerate; apply length_map|].
  split.
  - intros rec Hin. apply in_map_iff in Hin.
    destruct Hin as ([k row] & <- & _). cbn [fst snd].
    split; [|split].
    + unfold prepare_row. rewrite map_map. cbn [fst]. apply map_id.
    + intros c Hc. destruct (mem_numeric c Hc) as [Hm Hnt].
      rewrite (prepare_row_get dtypes _ _ c (numeric_is_expected c Hc)).
      destruct (dict_get row c) as [v|].
      * unfold prepare_value. rewrite Hnt, Hm.
        destruct (to_numeric v) as [q|]; eauto.
      * unfold prepare_absent. rewrite Hnt, Hm. left. reflexivity.
    + rewrite (prepare_row_get dtypes _ _ "time")
        by (unfold expected; simpl; tauto).
      destruct (dict_get row "time") as [v|].
      * unfold prepare_value. cbn [String.eqb Ascii.eqb Bool.eqb].
        destruct (times k) as [t|]; eauto.
      * left. reflexivity.
  - intros c Hc Hno rec Hin. apply in_map_iff in Hin.
    destruct Hin as ([k row'] & <- & Hrow). cbn [fst snd].
    apply PyFacts.in_enumerate, nth_error_In, in_map_iff in Hrow.
    destruct Hrow as (row & <- & Hrow).
    rewrite (prepare_row_get dtypes _ _ c Hc).
    rewrite (dict_get_rename_none row c (fun k v => Hno row k v Hrow)).
    unfold prepare_absent.
    destruct (String.eqb c "time") eqn:Et; [|reflexivity].
    apply String.eqb_eq in Et. subst c. reflexivity.
Qed.

(** X17. The rows written by the first transform script and read back reach
    the table in order, one record per row, each with the nine numbers of
    its row; a missing number arrives as the float nan, neither as [None]
    nor as zero.  The category label is lost: the script names the column
    [AQI_category], which the renaming does not know, so [aqi_category] is
    [None] in every record. *)
Theorem staged_row_to_record (final : list Transformer.staged_row)
    (read : Transformer.csv_cell -> json) :
  (forall q, read (Transformer.CsvNum q) = JNum q) ->
  read (Transformer.CsvText "") = JNull ->
  let records :=
    normalize_and_prepare (map (read_line read) (Transformer.to_csv final)) in
  List.length records = List.length final /\
  forall i r, nth_error final i = Some r ->
    exists rec,
      nth_error records i = Some rec /\
      dict_get rec "aqi_category" = Some VNone /\
      dict_get rec "severity_score"
      = Some (value_of_cell (Transformer.severity r)) /\
      dict_get rec "pm10" = Some (value_of_cell (Transformer.pm10 r)) /\
      dict_get rec "pm2_5" = Some (value_of_cell (Transformer.pm2_5 r)) /\
      dict_get rec "carbon_monoxide"
      = Some (value_of_cell (Transformer.carbon_monoxide r)) /\
      dict_get rec "nitrogen_dioxide"
      = Some (value_of_cell (Transformer.nitrogen_dioxide r)) /\
      dict_get rec "sulphur_dioxide"
      = Some (value_of_cell (Transformer.sulphur_dioxide r)) /\
      dict_get rec "ozone" = Some (value_of_cell (Transformer.ozone r)) /\
      dict_get rec "uv_index" = Some (value_of_cell (Transformer.uv_index r)) /\
      dict_get rec "hour" = Some (value_of_cell (Transformer.hour r)).
Proof.
  intros Hnum Hnull records. subst records.
  unfold normalize_and_prepare, Transformer.to_csv. cbv zeta.
  set (dtypes := object_columns _).
  set (times := to_datetime_coerce _).
  split; [rewrite length_map, PyFacts.length_enumerate, !length_map;
          reflexivity|].
  intros i r Hi. eexists. split.
  - rewrite nth_error_map, PyFacts.nth_error_enumerate, !nth_error_map, Hi.
    reflexivity.
  - cbn [fst snd].
    assert (Hcell : forall c, read (Transformer.csv_of_cell c)
                              = json_of_cell c).
    { intros [q|]; cbn; [apply Hnum | exact Hnull]. }
    assert (Hval : forall c name,
               mem name numeric_cols = true ->
               String.eqb name "time" = false ->
               prepare_value dtypes (times i) name (json_of_cell c)
               = value_of_cell c).
    { intros c name Hm Hnt. unfold prepare_value. rewrite Hnt, Hm.
      destruct c; reflexivity. }
    unfold read_line, Transformer.to_csv_row, prepare_row, rename_row.
    cbn [map fst snd expected]. unfold rename_col.
    cbn [rename_map dict_get String.eqb Ascii.eqb Bool.eqb].
    rewrite !Hcell.
    repeat apply conj; try reflexivity; f_equal; apply Hval; reflexivity.
Qed.

End Prepare.

Lemma staged_rows_frame (n : nat) : is_frame (staged_rows n).
Proof.
  exists ["city"; "pm10"]. split.
  - cbn. repeat constructor; cbn; intuition discriminate.
  - intros row Hin. unfold staged_rows in Hin. apply in_map_iff in Hin.
    destruct Hin as (i & <- & _). reflexivity.
Qed.

Lemma prepared_records_shape_witness :
  let records :=
    normalize_and_prepare (P := Transformer.iso_minutes) (staged_rows 3) in
  List.length records = 3%nat /\
  (forall rec, In rec records ->
     dict_get rec "ozone" = Some VNaN /\
     dict_get rec "aqi_category" = Some VNone).
Proof.
  intros records.
  destruct (prepared_records_shape (P := Transformer.iso_minutes)
              (staged_rows 3) (staged_rows_frame 3))
    as (Hlen & _ & Habs).
  fold records in Hlen, Habs.
  split; [exact Hlen|].
  assert (Hno : forall c, c <> "city" -> c <> "pm10" ->
            forall row k v, In row (staged_rows 3) -> In (k, v) row ->
                            rename_col k <> c).
  { intros c H1 H2 row k v Hrow Hin. unfold staged_rows in Hrow.
    apply in_map_iff in Hrow. destruct Hrow as (i & <- & _).
    destruct Hin as [E|[E|[]]]; injection E as <- _; cbn; congruence. }
  assert (Ho : In "ozone" expected) by (unfold expected; simpl; tauto).
  assert (Ha : In "aqi_category" expected) by (unfold expected; simpl; tauto).
  intros rec Hin. split.
  - exact (Habs "ozone" Ho (Hno "ozone" ltac:(discriminate) ltac:(discriminate))
             rec Hin).
  - exact (Habs "aqi_category" Ha
             (Hno "aqi_category" ltac:(discriminate) ltac:(discriminate))
             rec Hin).
Defined.

Lemma staged_row_to_record_witness :
  exists rec,
    nth_error
      (normalize_and_prepare (P := Transformer.iso_minutes)
         (map (read_line read_field)
              (Transformer.to_csv [Inputs.row_null_pm2_5]))) 0
    = Some rec /\
    dict_get rec "aqi_category" = Some VNone /\
    dict_get rec "pm2_5" = Some VNaN /\
    dict_get rec "pm10" = Some (VNum 10).
Proof.
  destruct (staged_row_to_record (P := Transformer.iso_minutes)
              [Inputs.row_null_pm2_5] read_field (fun q => eq_refl) eq_refl)
    as (_ & Hrows).
  destruct (Hrows 0%nat Inputs.row_null_pm2_5 eq_refl)
    as (rec & Hrec & Ha & _ & Hp10 & Hp25 & _).
  exists rec. split; [exact Hrec|]. split; [exact Ha|].
  split; [exact Hp25 | exact Hp10].
Defined.

(** *** The batches *)

Lemma firstn_add {A : Type} (a c : nat) (l : list A) :
  firstn (a + c) l = (firstn a l ++ firstn c (skipn a l))%list.
Proof.
  revert l. induction a as [|a IH]; intros l; [reflexivity|].
  destruct l as [|x l]; simpl.
  - rewrite firstn_nil. reflexivity.
  - rewrite IH. reflexivity.
Qed.

Lemma chunks_concat {A : Type} (b m : nat) (l : list A) :
  List.concat (map (fun k => firstn b (skipn (k * b) l)) (seq 0 m))
  = firstn (m * b) l.
Proof.
  induction m as [|m IH]; [reflexivity|].
  rewrite seq_S, map_app, concat_app, IH. cbn [map List.concat Nat.add].
  rewrite app_nil_r. replace (S m * b)%nat with (m * b + b)%nat by lia.
  symmetry. apply firstn_add.
Qed.

(** The number of batches, for a batch size that is positive. *)
Lemma ceil_bounds (n B : Z) :
  (0 < B)%Z -> (0 <= n)%Z ->
  let m := (- ((- n) / B))%Z in
  (0 <= m /\ n <= m * B /\ m * B < n + B)%Z.
Proof.
  intros HB Hn m. subst m.
  pose proof (Z.div_mod (- n) B (ltac:(lia))) as Hdm.
  pose proof (Z.mod_pos_bound (- n) B HB) as Hmod.
  nia.
Qed.

Lemma range_step_batches (cfg : config) (records : list record) :
  (0 < BATCH_SIZE cfg)%Z ->
  exists m,
    batches_of cfg records
    = map (fun k => firstn (Z.to_nat (BATCH_SIZE cfg))
                      (skipn (k * Z.to_nat (BATCH_SIZE cfg)) records))
          (seq 0 m) /\
    (List.length records <= m * Z.to_nat (BATCH_SIZE cfg))%nat /\
    (m * Z.to_nat (BATCH_SIZE cfg)
     < List.length records + Z.to_nat (BATCH_SIZE cfg))%nat.
Proof.
  intros HB.
  destruct (ceil_bounds (Z.of_nat (List.length records)) (BATCH_SIZE cfg) HB
              (Nat2Z.is_nonneg _)) as (Hm0 & Hlo & Hhi).
  exists (Z.to_nat (- ((- Z.of_nat (List.length records)) / BATCH_SIZE cfg))).
  split; [|split].
  - unfold batches_of, range_step.
    replace (0 <? BATCH_SIZE cfg)%Z with true by (symmetry; apply Z.ltb_lt; exact HB).
    rewrite map_map. apply map_ext. intros k. unfold slice.
    replace (Z.to_nat (Z.of_nat k * BATCH_SIZE cfg + BATCH_SIZE cfg
                       - Z.of_nat k * BATCH_SIZE cfg))
      with (Z.to_nat (BATCH_SIZE cfg)) by (f_equal; lia).
    rewrite Z2Nat.inj_mul, Nat2Z.id by lia. reflexivity.
  - nia.
  - nia.
Qed.

(** X18. With a positive batch size, the batches are a partition of the
    records in their order: put end to end they give the records back; none
    is empty and none is longer than the batch size. *)
Theorem batches_partition (cfg : config) (records : list record) :
  (0 < BATCH_SIZE cfg)%Z ->
  List.concat (batches_of cfg records) = records /\
  Forall (fun batch =>
            (1 <= List.length batch <= Z.to_nat (BATCH_SIZE cfg))%nat)
         (batches_of cfg records).
Proof.
  intros HB.
  destruct (range_step_batches cfg records HB) as (m & Hb & Hlo & Hhi).
  rewrite Hb. split.
  - rewrite chunks_concat. apply firstn_all2. exact Hlo.
  - apply Forall_forall. intros batch Hin.
    apply in_map_iff in Hin. destruct Hin as (k & <- & Hk).
    apply in_seq in Hk. rewrite length_firstn, length_skipn.
    assert (Hb1 : (1 <= Z.to_nat (BATCH_SIZE cfg))%nat) by lia.
    assert (Hkm : (S k * Z.to_nat (BATCH_SIZE cfg)
                   <= m * Z.to_nat (BATCH_SIZE cfg))%nat)
      by (apply Nat.mul_le_mono_r; lia).
    cbn [Nat.mul] in Hkm. lia.
Qed.

Lemma length_concat_batches (cfg : config) (records : list record) :
  (0 < BATCH_SIZE cfg)%Z ->
  fold_right Z.add 0%Z
    (map (fun b => Z.of_nat (List.length b)) (batches_of cfg records))
  = Z.of_nat (List.length records).
Proof.
  intros HB.
  destruct (range_step_batches cfg records HB) as (m & Hb & Hlo & _).
  assert (Hcat : List.concat (batches_of cfg records) = records).
  { rewrite Hb, chunks_concat. apply firstn_all2. exact Hlo. }
  rewrite <- Hcat at 2. clear.
  induction (batches_of cfg records) as [|b l IH]; [reflexivity|].
  cbn [map fold_right List.concat]. rewrite length_app, IH. lia.
Qed.

Lemma batches_partition_witness :
  map (@List.length record) (batches_of default_config records_450)
  = [200; 200; 50]%nat /\
  List.concat (batches_of default_config records_450) = records_450.
Proof.
  split; [vm_compute; reflexivity|].
  apply (batches_partition default_config records_450). reflexivity.
Defined.


Lemma sent_app (a b : list event) : sent (a ++ b) = (sent a ++ sent b)%list.
Proof. unfold sent. apply flat_map_app. Qed.

Lemma skipped_app (a b : list event) :
  skipped (a ++ b) = (skipped a ++ skipped b)%list.
Proof. unfold skipped. apply flat_map_app. Qed.


Lemma slept_app (a b : list event) :
  slept (a ++ b) = (slept a ++ slept b)%list.
Proof. unfold slept. apply flat_map_app. Qed.

Section Batches.
Context {K : Sink}.






Lemma insert_loop_accepting (cfg : config) (records : list record)
    (batches : Z) (idxs : list Z) :
  (0 <= LOAD_MAX_RETRIES cfg)%Z ->
  (forall batch s, fst (execute_insert batch s) = true) ->
  forall (inserted : Z) (st : state) inserted' st',
    insert_loop cfg idxs records batches inserted st = (inserted', st') ->
    exists evs,
      snd st' = (snd st ++ evs)%list /\
      inserted' = (inserted + sizes cfg records idxs)%Z /\
      sent evs = map (fun idx => slice records idx (idx + BATCH_SIZE cfg)) idxs /\
      skipped evs = [] /\ slept evs = [].
Proof.
  intros HR Hacc.
  induction idxs as [|idx idxs IH]; intros inserted st inserted' st' H.
  - simpl in H. injection H as <- <-. exists []. rewrite app_nil_r.
    cbn. repeat split; lia.
  - cbn [insert_loop] in H.
    destruct (execute_insert (slice records idx (idx + BATCH_SIZE cfg)) (fst st))
      as [ok s1] eqn:Ex.
    assert (Hok : ok = true).
    { pose proof (Hacc (slice records idx (idx + BATCH_SIZE cfg)) (fst st))
        as Ha. rewrite Ex in Ha. exact Ha. }
    subst ok.
    replace (Z.to_nat (LOAD_MAX_RETRIES cfg + 1))
      with (S (Z.to_nat (LOAD_MAX_RETRIES cfg))) in H by lia.
    rewrite (try_insert_ok _ _ _ _ _ _ _ _ _ Ex) in H.
    apply IH in H. destruct H as (evs & Hl & Hi & Hs & Hk & Hz).
    cbn [snd] in Hl.
    eexists. split; [rewrite Hl, <- app_assoc; reflexivity|].
    rewrite sent_app, skipped_app, slept_app, Hs, Hk, Hz.
    unfold sizes in *. cbn. repeat split. lia.
Qed.

(** X20. When the table takes every batch, a load with a positive batch
    size and a retry count that is not negative sends each batch exactly
    once, in order, gives up none, never sleeps, and returns the number of
    records. *)
Theorem load_into_accepting_table (cfg : config) (records : list record)
    (st : state) res st' :
  (0 < BATCH_SIZE cfg)%Z ->
  (0 <= LOAD_MAX_RETRIES cfg)%Z ->
  (forall batch s, fst (execute_insert batch s) = true) ->
  insert_batches cfg records st = (res, st') ->
  exists evs,
    res = Ok (Z.of_nat (List.length records)) /\
    snd st' = (snd st ++ evs)%list /\
    sent evs = batches_of cfg records /\
    skipped evs = [] /\ slept evs = [].
Proof.
  intros HB HR Hacc H. unfold insert_batches in H.
  destruct (Z.of_nat (List.length records) =? 0)%Z eqn:E0.
  - injection H as <- <-. apply Z.eqb_eq in E0.
    exists [PrintNoRecords]. rewrite E0.
    assert (Hnil : batches_of cfg records = []).
    { unfold batches_of. rewrite E0. unfold range_step.
      destruct (0 <? BATCH_SIZE cfg)%Z; reflexivity. }
    rewrite Hnil. repeat split.
  - replace (BATCH_SIZE cfg =? 0)%Z with false in H
      by (symmetry; apply Z.eqb_neq; lia).
    destruct (insert_loop cfg _ records _ 0 st) as [ins st1] eqn:El.
    injection H as <- <-.
    destruct (insert_loop_accepting cfg records _ _ HR Hacc _ _ _ _ El)
      as (evs & Hl & Hi & Hs & Hk & Hz).
    exists evs. repeat split; try assumption.
    f_equal. rewrite Hi.
    pose proof (length_concat_batches cfg records HB) as Hcat.
    unfold batches_of in Hcat. rewrite map_map in Hcat.
    unfold sizes. rewrite Hcat. lia.
Qed.

Lemma insert_loop_no_attempt (cfg : config) (records : list record)
    (batches : Z) (idxs : list Z) :
  (LOAD_MAX_RETRIES cfg < 0)%Z ->
  forall (inserted : Z) (st : state),
    insert_loop cfg idxs records batches inserted st = (inserted, st).
Proof.
  intros HR. induction idxs as [|idx idxs IH]; intros inserted st;
    [reflexivity|].
  cbn [insert_loop].
  replace (Z.to_nat (LOAD_MAX_RETRIES cfg + 1)) with 0%nat by lia.
  cbn [try_insert]. apply IH.
Qed.

(** X21. With records to load and a setting out of range, nothing is sent
    to the table: a batch size of zero raises ZeroDivisionError; a negative
    batch size, or a negative retry count, makes the load return 0 without
    sending, printing or raising anything. *)
Theorem load_with_degenerate_settings (cfg : config) (records : list record)
    (st : state) :
  records <> [] ->
  ((BATCH_SIZE cfg = 0)%Z ->
   insert_batches cfg records st = (Raise "ZeroDivisionError", st)) /\
  ((BATCH_SIZE cfg < 0)%Z ->
   insert_batches cfg records st = (Ok 0%Z, st)) /\
  ((0 < BATCH_SIZE cfg)%Z -> (LOAD_MAX_RETRIES cfg < 0)%Z ->
   insert_batches cfg records st = (Ok 0%Z, st)).
Proof.
  intros Hne.
  assert (E0 : (Z.of_nat (List.length records) =? 0)%Z = false).
  { apply Z.eqb_neq. destruct records; [congruence|]. simpl. lia. }
  unfold insert_batches. rewrite E0. repeat apply conj.
  - intros ->. reflexivity.
  - intros HB.
    replace (BATCH_SIZE cfg =? 0)%Z with false
      by (symmetry; apply Z.eqb_neq; lia).
    unfold range_step.
    replace (0 <? BATCH_SIZE cfg)%Z with false
      by (symmetry; apply Z.ltb_ge; lia).
    reflexivity.
  - intros HB HR.
    replace (BATCH_SIZE cfg =? 0)%Z with false
      by (symmetry; apply Z.eqb_neq; lia).
    rewrite (insert_loop_no_attempt cfg records _ _ HR). reflexivity.
Qed.

End Batches.

Lemma records_450_length : List.length records_450 = 450%nat.
Proof. vm_compute. reflexivity. Qed.

Lemma records_450_not_nil : records_450 <> [].
Proof.
  intros E. pose proof records_450_length as H. rewrite E in H. discriminate.
Qed.

Lemma retries_nonneg : (0 <= LOAD_MAX_RETRIES default_config)%Z.
Proof. discriminate. Qed.

Lemma batch_positive : (0 < BATCH_SIZE default_config)%Z.
Proof. reflexivity. Qed.




Lemma load_into_accepting_table_witness :
  fst (insert_batches (K := sink_accepting) default_config records_450
         ([], []))
  = Ok 450%Z.
Proof.
  destruct (load_into_accepting_table (K := sink_accepting) default_config
              records_450 ([], []) _ _ batch_positive
              retries_nonneg
              (fun _ _ => eq_refl)
              (surjective_pairing _))
    as (evs & Hres & _).
  rewrite Hres, records_450_length. reflexivity.
Defined.

Lemma load_with_degenerate_settings_witness :
  insert_batches (K := sink_accepting) (mk_config (-200) 2 3) records_450
    ([], [])
  = (Ok 0%Z, ([], [])) /\
  insert_batches (K := sink_accepting) (mk_config 200 (-1) 3) records_450
    ([], [])
  = (Ok 0%Z, ([], [])).
Proof.
  split.
  - exact (proj1 (proj2 (load_with_degenerate_settings (K := sink_accepting)
                           (mk_config (-200) 2 3) records_450 ([], [])
                           records_450_not_nil)) eq_refl).
  - exact (proj2 (proj2 (load_with_degenerate_settings (K := sink_accepting)
                           (mk_config 200 (-1) 3) records_450 ([], [])
                           records_450_not_nil)) eq_refl eq_refl).
Defined.

End LoaderExtras.


(* ================================================================== *)
(** * The upload of the telecom pipeline *)

Module ChurnLoaderFacts.
Import Py ChurnLoader.

Lemma batches_sent_app (a b : list event) : sent (a ++ b) = (sent a ++ sent b)%list.
Proof. unfold sent. apply flat_map_app. Qed.

Lemma uploaded_app (a b : list event) :
  uploaded (a ++ b) = (uploaded a ++ uploaded b)%list.
Proof. unfold uploaded. apply flat_map_app. Qed.

Lemma given_up_app (a b : list event) :
  given_up (a ++ b) = (given_up a ++ given_up b)%list.
Proof. unfold given_up. apply flat_map_app. Qed.

Lemma waited_app (a b : list event) :
  waited (a ++ b) = (waited a ++ waited b)%list.
Proof. unfold waited. apply flat_map_app. Qed.

Section Upload.
Context {K : Loader.Sink}.

(** Three iterations are all the loop of one batch can make: more fuel
    changes nothing. *)
Lemma upload_attempts_fuel (batch : list Loader.record) (start end_ : Z)
    (fuel : nat) :
  forall (attempts : Z) (st : state),
    (0 <= attempts)%Z -> (3 - attempts <= Z.of_nat fuel)%Z ->
    upload_attempts fuel attempts batch start end_ st
    = upload_attempts (Z.to_nat (3 - attempts)) attempts batch start end_ st.
Proof.
  induction fuel as [|fuel IH]; intros attempts st H0 Hf.
  - replace (Z.to_nat (3 - attempts)) with 0%nat by lia. reflexivity.
  - destruct (Z.ltb_spec attempts 3) as [Hlt|Hge].
    + replace (Z.to_nat (3 - attempts))
        with (S (Z.to_nat (3 - (attempts + 1)))) by lia.
      cbn [upload_attempts].
      replace (attempts <? 3)%Z with true by (symmetry; apply Z.ltb_lt; exact Hlt).
      destruct (Loader.execute_insert batch (fst st)) as [ok s'].
      destruct ok; [reflexivity|].
      apply IH; lia.
    + replace (Z.to_nat (3 - attempts)) with 0%nat by lia.
      cbn [upload_attempts].
      replace (attempts <? 3)%Z with false by (symmetry; apply Z.ltb_ge; exact Hge).
      reflexivity.
Qed.

(** How the loop of one batch ends. *)
Lemma upload_attempts_outcome (batch : list Loader.record) (start end_ : Z)
    (st : state) (ok : bool) (st' : state) :
  upload_attempts 3 0 batch start end_ st = (ok, st') ->
  exists evs n,
    snd st' = (snd st ++ evs)%list /\
    (1 <= n <= 3)%nat /\
    sent evs = repeat batch n /\
    given_up evs = [] /\
    ((ok = true /\ uploaded evs = [(start, end_)] /\
      waited evs = repeat 2%Z (n - 1)) \/
     (ok = false /\ uploaded evs = [] /\
      waited evs = repeat 2%Z n /\ n = 3%nat)).
Proof.
  cbn [upload_attempts]. change (0 <? 3)%Z with true. cbv iota.
  destruct (Loader.execute_insert batch (fst st)) as [ok1 s1].
  destruct ok1.
  { intros H. injection H as <- <-.
    exists [SendBatch batch; PrintUploaded start end_], 1%nat.
    cbn [log fst snd]. rewrite <- !app_assoc.
    repeat split; try lia. left. repeat split. }
  change (0 + 1 <? 3)%Z with true. cbv iota. cbn [log fst snd].
  destruct (Loader.execute_insert batch s1) as [ok2 s2].
  destruct ok2.
  { intros H. injection H as <- <-.
    exists [SendBatch batch; PrintUploadFailed (0 + 1) start end_; PrintError;
            Wait 2; SendBatch batch; PrintUploaded start end_], 2%nat.
    cbn [log fst snd]. rewrite <- !app_assoc.
    repeat split; try lia. left. repeat split. }
  change (0 + 1 + 1 <? 3)%Z with true. cbv iota. cbn [log fst snd].
  destruct (Loader.execute_insert batch s2) as [ok3 s3].
  destruct ok3.
  { intros H. injection H as <- <-.
    exists [SendBatch batch; PrintUploadFailed (0 + 1) start end_; PrintError;
            Wait 2; SendBatch batch;
            PrintUploadFailed (0 + 1 + 1) start end_; PrintError; Wait 2;
            SendBatch batch; PrintUploaded start end_], 3%nat.
    cbn [log fst snd]. rewrite <- !app_assoc.
    repeat split; try lia. left. repeat split. }
  intros H. injection H as <- <-.
  exists [SendBatch batch; PrintUploadFailed (0 + 1) start end_; PrintError;
          Wait 2; SendBatch batch;
          PrintUploadFailed (0 + 1 + 1) start end_; PrintError; Wait 2;
          SendBatch batch; PrintUploadFailed (0 + 1 + 1 + 1) start end_;
          PrintError; Wait 2], 3%nat.
  cbn [log fst snd]. rewrite <- !app_assoc.
  repeat split; try lia. right. repeat split.
Qed.

Lemma repeat_all_two (l : list Z) (n : nat) :
  l = repeat 2%Z n -> l = repeat 2%Z (List.length l).
Proof. intros ->. rewrite repeat_length. reflexivity. Qed.

(** How the loop over the batches ends, from any point of the range on. *)
Lemma upload_batches_outcome (data_records : list Loader.record)
    (total_rows : Z) (starts : list Z) :
  forall st : state,
    exists evs k tries,
      snd (upload_batches starts data_records total_rows st)
      = (snd st ++ evs)%list /\
      (k <= List.length starts)%nat /\
      uploaded evs = firstn k (map (bounds_at total_rows) starts) /\
      given_up evs = firstn 1 (skipn k (map (bounds_at total_rows) starts)) /\
      sent evs
      = repeated
          (map (fun start =>
                  Loader.slice data_records start
                    (Z.min (start + batch_size) total_rows)) starts)
          tries /\
      List.length tries = (k + List.length (given_up evs))%nat /\
      Forall (fun n => (1 <= n <= 3)%nat) tries /\
      (given_up evs <> [] -> last tries 0%nat = 3%nat) /\
      waited evs = repeat 2%Z (List.length (waited evs)) /\
      (List.length (waited evs) + k = list_sum tries)%nat.
Proof.
  induction starts as [|start rest IH]; intros st.
  - exists [], 0%nat, []. cbn. rewrite app_nil_r.
    repeat split; try lia; try constructor. intros H; contradiction.
  - cbn [upload_batches].
    destruct (upload_attempts 3 0
                (Loader.slice data_records start
                   (Z.min (start + batch_size) total_rows))
                start (Z.min (start + batch_size) total_rows) st)
      as [ok st1] eqn:E.
    apply upload_attempts_outcome in E.
    destruct E as (evs1 & n & Hlog & Hn & Hsent & Hgu & Hcase).
    destruct Hcase as [(-> & Hup & Hw) | (-> & Hup & Hw & ->)].
    + destruct (IH st1)
        as (evs2 & k & tries & Hlog2 & Hk & Hup2 & Hgu2 & Hsent2 & Hlen
            & Hall & Hlast & Hw2 & Hsum).
      exists (evs1 ++ evs2)%list, (S k), (n :: tries).
      rewrite Hlog2, Hlog, <- app_assoc.
      rewrite uploaded_app, given_up_app, batches_sent_app, waited_app.
      rewrite Hup, Hgu, Hsent, Hup2, Hgu2, Hsent2.
      cbn [app map firstn skipn List.length].
      repeat apply conj.
      * reflexivity.
      * lia.
      * reflexivity.
      * reflexivity.
      * unfold repeated. cbn [combine map List.concat fst snd]. reflexivity.
      * rewrite Hlen, Hgu2. reflexivity.
      * constructor; [exact Hn | exact Hall].
      * intros Hne. rewrite Hgu2 in Hlast, Hlen. specialize (Hlast Hne).
        destruct tries as [|t tries]; [|exact Hlast].
        cbn [List.length] in Hlen.
        destruct (skipn k (map (bounds_at total_rows) rest));
          [exfalso; apply Hne; reflexivity | cbn in Hlen; lia].
      * rewrite length_app, repeat_app. f_equal; [|exact Hw2].
        apply repeat_all_two with (n - 1)%nat. exact Hw.
      * rewrite Hw, length_app, repeat_length.
        change (list_sum (n :: tries)) with (n + list_sum tries)%nat. lia.
    + exists (evs1 ++ [PrintFailedAfterRetries start
                          (Z.min (start + batch_size) total_rows)])%list,
             0%nat, [3%nat].
      cbn [log fst snd]. rewrite Hlog, <- app_assoc.
      rewrite uploaded_app, given_up_app, batches_sent_app, waited_app.
      rewrite Hup, Hgu, Hsent, Hw.
      cbn [app map firstn skipn List.length uploaded given_up sent waited
           flat_map].
      repeat apply conj.
      * reflexivity.
      * lia.
      * reflexivity.
      * reflexivity.
      * unfold repeated. cbn [combine map List.concat fst snd].
        rewrite combine_nil. cbn [map List.concat].
        rewrite !app_nil_r. reflexivity.
      * reflexivity.
      * constructor; [lia | constructor].
      * reflexivity.
      * rewrite app_nil_r. reflexivity.
      * rewrite app_nil_r. reflexivity.
Qed.

(** X22. The upload of the telecom pipeline stops at the first batch the
    table refuses three times: the batches before it are each sent between
    one and three times in a row and reported as uploaded, the refused
    batch is sent three times and reported once, and no later batch is sent
    at all.  Two seconds are slept after every refused attempt, the last
    included.  Whatever happened, the run ends by printing that the upload
    completed and raises nothing. *)
Theorem upload_stops_at_first_failed_batch
    (data_records : list Loader.record) (st : state) :
  exists evs k tries,
    fst (load_data (Some data_records) st) = Ok tt /\
    snd (snd (load_data (Some data_records) st))
    = (snd st
       ++ PrintUploading (Z.of_nat (List.length data_records)) :: evs
       ++ [PrintUploadCompleted])%list /\
    (k <= List.length (starts_of data_records))%nat /\
    uploaded evs
    = firstn k (map (bounds_at (Z.of_nat (List.length data_records)))
                  (starts_of data_records)) /\
    given_up evs
    = firstn 1 (skipn k (map (bounds_at (Z.of_nat (List.length data_records)))
                           (starts_of data_records))) /\
    sent evs
    = repeated (map (batch_at data_records) (starts_of data_records)) tries /\
    List.length tries = (k + List.length (given_up evs))%nat /\
    Forall (fun n => (1 <= n <= 3)%nat) tries /\
    (given_up evs <> [] -> last tries 0%nat = 3%nat) /\
    waited evs = repeat 2%Z (List.length (waited evs)) /\
    (List.length (waited evs) + k = list_sum tries)%nat.
Proof.
  cbn [load_data fst snd].
  destruct (upload_batches_outcome data_records
              (Z.of_nat (List.length data_records)) (starts_of data_records)
              (log (PrintUploading (Z.of_nat (List.length data_records))) st))
    as (evs & k & tries & Hlog & Hrest).
  exists evs, k, tries. split; [reflexivity|]. split; [|exact Hrest].
  cbn [log fst snd]. unfold starts_of in Hlog. rewrite Hlog.
  cbn [log fst snd]. rewrite <- !app_assoc. reflexivity.
Qed.

(** When the table takes every batch, each is sent once. *)
Lemma upload_batches_accepting (data_records : list Loader.record)
    (total_rows : Z) (starts : list Z) :
  (forall batch s, fst (Loader.execute_insert batch s) = true) ->
  forall st : state,
    snd (upload_batches starts data_records total_rows st)
    = (snd st
       ++ flat_map
            (fun start =>
               [SendBatch (Loader.slice data_records start
                             (Z.min (start + batch_size) total_rows));
                PrintUploaded start (Z.min (start + batch_size) total_rows)])
            starts)%list.
Proof.
  intros Hacc. induction starts as [|start rest IH]; intros st.
  - cbn. rewrite app_nil_r. reflexivity.
  - cbn [upload_batches upload_attempts]. change (0 <? 3)%Z with true.
    cbv iota.
    pose proof (Hacc (Loader.slice data_records start
                        (Z.min (start + batch_size) total_rows)) (fst st))
      as Ha.
    destruct (Loader.execute_insert
                (Loader.slice data_records start
                   (Z.min (start + batch_size) total_rows)) (fst st))
      as [ok s1].
    cbn [fst] in Ha. subst ok. rewrite IH. cbn [log fst snd flat_map].
    rewrite <- !app_assoc. reflexivity.
Qed.

End Upload.

Lemma firstn_min_length {A : Type} (n : nat) (l : list A) :
  firstn (Nat.min n (List.length l)) l = firstn n l.
Proof.
  destruct (Nat.le_gt_cases n (List.length l)) as [H|H].
  - rewrite Nat.min_l by exact H. reflexivity.
  - rewrite Nat.min_r by lia. rewrite firstn_all, firstn_all2 by lia.
    reflexivity.
Qed.

(** Cutting a batch at [min(start + batch_size, total_rows)] or at
    [start + batch_size] gives the same slice. *)
Lemma batch_at_slice (data_records : list Loader.record) (start : Z) :
  (0 <= start)%Z ->
  batch_at data_records start
  = Loader.slice data_records start (start + batch_size).
Proof.
  intros H0. unfold batch_at, Loader.slice.
  replace (Z.to_nat (start + batch_size - start))
    with (Z.to_nat batch_size) by (f_equal; lia).
  rewrite <- (firstn_min_length (Z.to_nat batch_size)).
  f_equal. rewrite length_skipn. unfold batch_size. lia.
Qed.

Lemma batches_concat (data_records : list Loader.record) :
  List.concat (map (batch_at data_records) (starts_of data_records))
  = data_records.
Proof.
  assert (HB : (0 < Loader.BATCH_SIZE Loader.default_config)%Z)
    by reflexivity.
  destruct (LoaderExtras.range_step_batches Loader.default_config
              data_records HB) as (m & Hb & Hlo & _).
  assert (Heq : map (batch_at data_records) (starts_of data_records)
                = LoaderMore.batches_of Loader.default_config data_records).
  { unfold LoaderMore.batches_of, starts_of. apply map_ext_in.
    intros start Hin. apply batch_at_slice.
    unfold Loader.range_step in Hin. cbn [batch_size Z.ltb] in Hin.
    change (0 <? batch_size)%Z with true in Hin. cbv iota in Hin.
    apply in_map_iff in Hin. destruct Hin as (k & <- & _).
    unfold batch_size. lia. }
  rewrite Heq, Hb, LoaderExtras.chunks_concat.
  apply firstn_all2. exact Hlo.
Qed.

Lemma sent_each_once (data_records : list Loader.record) (total_rows : Z)
    (starts : list Z) :
  let evs :=
    flat_map
      (fun start =>
         [SendBatch (Loader.slice data_records start
                       (Z.min (start + batch_size) total_rows));
          PrintUploaded start (Z.min (start + batch_size) total_rows)])
      starts in
  sent evs
  = map (fun start => Loader.slice data_records start
                        (Z.min (start + batch_size) total_rows)) starts /\
  uploaded evs = map (bounds_at total_rows) starts /\
  given_up evs = [] /\ waited evs = [].
Proof.
  induction starts as [|start rest IH]; cbn zeta in *.
  - repeat split.
  - destruct IH as (Hs & Hu & Hg & Hw).
    cbn [flat_map app map sent uploaded given_up waited] in *.
    fold (sent) in *. fold uploaded in *. fold given_up in *.
    fold waited in *.
    unfold sent, uploaded, given_up, waited in *.
    rewrite Hs, Hu, Hg, Hw. repeat split.
Qed.

(** X23. When the table takes every batch, the upload of the telecom
    pipeline sends each batch once, in order, and the batches put end to end
    are the records read from the staged file: every record is sent exactly
    once.  Nothing is reported as failed and no time is slept. *)
Theorem upload_into_accepting_table {K : Loader.Sink}
    (data_records : list Loader.record) (st : state) :
  (forall batch s, fst (Loader.execute_insert batch s) = true) ->
  exists evs,
    snd (snd (load_data (Some data_records) st))
    = (snd st
       ++ PrintUploading (Z.of_nat (List.length data_records)) :: evs
       ++ [PrintUploadCompleted])%list /\
    sent evs = map (batch_at data_records) (starts_of data_records) /\
    List.concat (sent evs) = data_records /\
    uploaded evs
    = map (bounds_at (Z.of_nat (List.length data_records)))
        (starts_of data_records) /\
    given_up evs = [] /\
    waited evs = [].
Proof.
  intros Hacc.
  pose proof (sent_each_once data_records
                (Z.of_nat (List.length data_records))
                (starts_of data_records)) as Hev.
  cbn zeta in Hev. destruct Hev as (Hs & Hu & Hg & Hw).
  eexists. split; [|split; [exact Hs|split; [|split; [exact Hu|split;
                    [exact Hg|exact Hw]]]]].
  - cbn [load_data fst snd log].
    rewrite (upload_batches_accepting data_records _ _ Hacc).
    cbn [log fst snd]. rewrite <- !app_assoc. reflexivity.
  - rewrite Hs. apply batches_concat.
Qed.

Lemma upload_into_accepting_table_witness :
  exists evs,
    snd (snd (load_data (K := LoaderMore.sink_accepting)
                (Some Loader.records_450) ([], [])))
    = ([] ++ PrintUploading (Z.of_nat (List.length Loader.records_450))
          :: evs ++ [PrintUploadCompleted])%list /\
    sent evs
    = map (batch_at Loader.records_450) (starts_of Loader.records_450) /\
    List.concat (sent evs) = Loader.records_450 /\
    uploaded evs
    = map (bounds_at (Z.of_nat (List.length Loader.records_450)))
        (starts_of Loader.records_450) /\
    given_up evs = [] /\
    waited evs = [].
Proof.
  exact (upload_into_accepting_table (K := LoaderMore.sink_accepting)
           Loader.records_450 ([], []) (fun _ _ => eq_refl)).
Defined.

(** A table that refuses the batch starting at row 200: the first batch is
    sent once, the second three times, the third never; six seconds are
    slept. *)
Example upload_450_second_batch_refused :
  let evs :=
    snd (snd (load_data (K := sink_full_from 200)
                (Some Loader.records_450) ([], []))) in
  map (@List.length Loader.record) (sent evs) = [200; 200; 200; 200]%nat /\
  uploaded evs = [(0, 200)]%Z /\
  given_up evs = [(200, 400)]%Z /\
  waited evs = [2; 2; 2]%Z /\
  last evs PrintError = PrintUploadCompleted.
Proof. vm_compute. repeat split. Qed.

End ChurnLoaderFacts.


(* ================================================================== *)
(** * The engineered columns of the telecom transform *)

Module TelecomFacts.
Import Py Num Telecom.

Ltac qcase a b :=
  let E := fresh "E" in
  destruct (Qle_bool a b) eqn:E;
  [ apply Qle_bool_iff in E
  | apply not_true_iff_false in E; rewrite Qle_bool_iff in E;
    apply Qnot_le_lt in E ].

Lemma qmax_cases (a b : Q) :
  (qmax a b = b /\ a <= b) \/ (qmax a b = a /\ b < a).
Proof. unfold qmax. qcase a b; [left | right]; split; auto. Qed.

Lemma fold_qmax_ge (l : list Q) :
  forall acc, acc <= fold_left qmax l acc /\
              (forall x, In x l -> x <= fold_left qmax l acc).
Proof.
  induction l as [|y l IH]; intros acc; cbn [fold_left].
  - split; [apply Qle_refl | intros x []].
  - destruct (IH (qmax acc y)) as (Hacc & Hall).
    destruct (qmax_cases acc y) as [(Hm & Hle) | (Hm & Hlt)];
      rewrite Hm in *; split.
    + apply Qle_trans with y; assumption.
    + intros x [<-|Hin]; [exact Hacc | apply Hall, Hin].
    + exact Hacc.
    + intros x [<-|Hin]; [|apply Hall, Hin].
      apply Qle_trans with acc; [apply Qlt_le_weak, Hlt | exact Hacc].
Qed.

Lemma fold_qmax_in (l : list Q) :
  forall acc, fold_left qmax l acc = acc \/ In (fold_left qmax l acc) l.
Proof.
  induction l as [|y l IH]; intros acc; cbn [fold_left]; [left; reflexivity|].
  destruct (IH (qmax acc y)) as [H|H]; [|right; right; exact H].
  rewrite H.
  destruct (qmax_cases acc y) as [(Hm & _) | (Hm & _)]; rewrite Hm.
  - right. left. reflexivity.
  - left. reflexivity.
Qed.

(** The maximum of a column is one of its values and bounds them all. *)
Lemma series_max_ge (s : series) (x : Q) :
  In x (values s) -> x <= series_max s.
Proof.
  unfold values, series_max.
  destruct (fold_qmax_ge (other_values s) (first_value s)) as (H0 & Hall).
  intros [<-|Hin]; [exact H0 | apply Hall, Hin].
Qed.

Lemma series_max_in (s : series) : In (series_max s) (values s).
Proof.
  unfold values, series_max.
  destruct (fold_qmax_in (other_values s) (first_value s)) as [H|H].
  - left. symmetry. exact H.
  - right. exact H.
Qed.

Lemma series_max_above (s : series) (k : Q) :
  k < series_max s <-> exists x, In x (values s) /\ k < x.
Proof.
  split.
  - intros H. exists (series_max s). split; [apply series_max_in | exact H].
  - intros (x & Hin & Hx).
    apply Qlt_le_trans with x; [exact Hx | apply series_max_ge, Hin].
Qed.

Lemma series_max_below (s : series) (k : Q) :
  series_max s <= k <-> forall x, In x (values s) -> x <= k.
Proof.
  split.
  - intros H x Hin.
    apply Qle_trans with (series_max s); [apply series_max_ge, Hin | exact H].
  - intros H. apply H, series_max_in.
Qed.

Lemma tenure_bins_increasing (m : Q) :
  increasing [0; 12; 36; 60; m] = true <-> 60 < m.
Proof.
  cbn [increasing]. change (Qle_bool 12 0) with false.
  change (Qle_bool 36 12) with false. change (Qle_bool 60 36) with false.
  cbn [negb andb]. rewrite andb_true_r, negb_true_iff.
  rewrite <- not_true_iff_false, Qle_bool_iff.
  split; [apply Qnot_le_lt | apply Qlt_not_le].
Qed.

Lemma charge_bins_increasing (m : Q) :
  increasing [0; 30; 70; m] = true <-> 70 < m.
Proof.
  cbn [increasing]. change (Qle_bool 30 0) with false.
  change (Qle_bool 70 30) with false.
  cbn [negb andb]. rewrite andb_true_r, negb_true_iff.
  rewrite <- not_true_iff_false, Qle_bool_iff.
  split; [apply Qnot_le_lt | apply Qlt_not_le].
Qed.

Lemma cut_outcome (x bins : list Q) (labels : list string) :
  (increasing bins = true /\
   cut x bins labels = Ok (map (cut_value bins labels) x)) \/
  (increasing bins = false /\ cut x bins labels = Raise "ValueError").
Proof. unfold cut. destruct (increasing bins); [left | right]; auto. Qed.

(** X24. Both binned columns need a row beyond their last fixed edge: the
    tenure groups are computed exactly when some tenure is above 60, the
    charge segments exactly when some monthly charge is above 70.  On a
    column without such a row the call of [pd.cut] raises ValueError, so the
    transform writes no staged file. *)
Theorem binned_columns_raise_iff (s : series) :
  (tenure_group s = Raise "ValueError"
   <-> forall x, In x (values s) -> x <= 60) /\
  ((exists labels, tenure_group s = Ok labels)
   <-> exists x, In x (values s) /\ 60 < x) /\
  (monthly_charge_segment s = Raise "ValueError"
   <-> forall x, In x (values s) -> x <= 70) /\
  ((exists labels, monthly_charge_segment s = Ok labels)
   <-> exists x, In x (values s) /\ 70 < x).
Proof.
  rewrite <- !series_max_below, <- !series_max_above.
  unfold tenure_group, monthly_charge_segment.
  split; [|split; [|split]].
  - destruct (cut_outcome (values s) [0; 12; 36; 60; series_max s]
                ["New"; "Regular"; "Loyal"; "Champion"])
      as [(Hi & ->) | (Hi & ->)].
    + apply tenure_bins_increasing in Hi. split; [discriminate|].
      intros H. exfalso. apply (Qlt_not_le _ _ Hi H).
    + split; [|reflexivity]. intros _. apply Qnot_lt_le. intros H.
      apply tenure_bins_increasing in H. congruence.
  - destruct (cut_outcome (values s) [0; 12; 36; 60; series_max s]
                ["New"; "Regular"; "Loyal"; "Champion"])
      as [(Hi & ->) | (Hi & ->)].
    + apply tenure_bins_increasing in Hi. split; [intros _; exact Hi|].
      intros _. eexists. reflexivity.
    + split; [intros (l & H); discriminate|].
      intros H. apply tenure_bins_increasing in H. congruence.
  - destruct (cut_outcome (values s) [0; 30; 70; series_max s]
                ["Low"; "Medium"; "High"])
      as [(Hi & ->) | (Hi & ->)].
    + apply charge_bins_increasing in Hi. split; [discriminate|].
      intros H. exfalso. apply (Qlt_not_le _ _ Hi H).
    + split; [|reflexivity]. intros _. apply Qnot_lt_le. intros H.
      apply charge_bins_increasing in H. congruence.
  - destruct (cut_outcome (values s) [0; 30; 70; series_max s]
                ["Low"; "Medium"; "High"])
      as [(Hi & ->) | (Hi & ->)].
    + apply charge_bins_increasing in Hi. split; [intros _; exact Hi|].
      intros _. eexists. reflexivity.
    + split; [intros (l & H); discriminate|].
      intros H. apply charge_bins_increasing in H. congruence.
Qed.

Ltac qeqcase a b :=
  let E := fresh "E" in
  destruct (Qeq_bool a b) eqn:E;
  [ apply Qeq_bool_iff in E
  | apply Qeq_bool_neq in E ].

(** The label of one tenure, the last edge being at least the tenure. *)
Lemma tenure_label (m x : Q) :
  x <= m ->
  let l := cut_value [0; 12; 36; 60; m]
             ["New"; "Regular"; "Loyal"; "Champion"] x in
  (x < 0 -> l = None) /\
  (0 <= x <= 12 -> l = Some "New") /\
  (12 < x <= 36 -> l = Some "Regular") /\
  (36 < x <= 60 -> l = Some "Loyal") /\
  (60 < x -> l = Some "Champion").
Proof.
  intros Hm. cbn zeta. unfold cut_value. cbn [bin_label hd_error].
  qeqcase x 0; [repeat split; intros; (reflexivity || (exfalso; lra))|].
  qcase x 0; qcase x 12; qcase x 36; qcase x 60; qcase x m;
    cbn [negb andb];
    repeat split; intros; (reflexivity || (exfalso; lra)).
Qed.

Lemma charge_label (m x : Q) :
  x <= m ->
  let l := cut_value [0; 30; 70; m] ["Low"; "Medium"; "High"] x in
  (x < 0 -> l = None) /\
  (0 <= x <= 30 -> l = Some "Low") /\
  (30 < x <= 70 -> l = Some "Medium") /\
  (70 < x -> l = Some "High").
Proof.
  intros Hm. cbn zeta. unfold cut_value. cbn [bin_label hd_error].
  qeqcase x 0; [repeat split; intros; (reflexivity || (exfalso; lra))|].
  qcase x 0; qcase x 30; qcase x 70; qcase x m;
    cbn [negb andb];
    repeat split; intros; (reflexivity || (exfalso; lra)).
Qed.

(** X25. When some tenure is above 60, every row gets its tenure group by
    bins that are closed on the right: "New" from 0 to 12, "Regular" above
    12 and up to 36, "Loyal" above 36 and up to 60, "Champion" above 60; a
    negative tenure gets no group.  The group "Champion" is then always
    present. *)
Theorem tenure_group_bands (s : series) (y : Q) :
  In y (values s) -> 60 < y ->
  exists labels,
    tenure_group s = Ok labels /\
    List.length labels = List.length (values s) /\
    (forall i x, nth_error (values s) i = Some x ->
       exists l, nth_error labels i = Some l /\
         (x < 0 -> l = None) /\
         (0 <= x <= 12 -> l = Some "New") /\
         (12 < x <= 36 -> l = Some "Regular") /\
         (36 < x <= 60 -> l = Some "Loyal") /\
         (60 < x -> l = Some "Champion")) /\
    In (Some "Champion") labels.
Proof.
  intros Hy Hy60.
  assert (Hmax : 60 < series_max s)
    by (apply series_max_above; exists y; split; assumption).
  unfold tenure_group.
  destruct (cut_outcome (values s) [0; 12; 36; 60; series_max s]
              ["New"; "Regular"; "Loyal"; "Champion"])
    as [(Hi & ->) | (Hi & _)].
  2:{ apply tenure_bins_increasing in Hmax. congruence. }
  eexists. split; [reflexivity|]. split; [apply length_map|]. split.
  - intros i x Hx. eexists. split.
    + rewrite nth_error_map, Hx. reflexivity.
    + apply tenure_label. apply series_max_ge.
      apply nth_error_In with i. exact Hx.
  - apply in_map_iff. exists y. split; [|exact Hy].
    apply (tenure_label (series_max s) y (series_max_ge s y Hy)). exact Hy60.
Qed.

(** X26. When some monthly charge is above 70, every row gets its segment
    by bins that are closed on the right: "Low" from 0 to 30, a charge of
    exactly 30 included, "Medium" above 30 and up to 70, "High" above 70; a
    negative charge gets no segment.  The segment "High" is then always
    present. *)
Theorem monthly_charge_segment_bands (s : series) (y : Q) :
  In y (values s) -> 70 < y ->
  exists labels,
    monthly_charge_segment s = Ok labels /\
    List.length labels = List.length (values s) /\
    (forall i x, nth_error (values s) i = Some x ->
       exists l, nth_error labels i = Some l /\
         (x < 0 -> l = None) /\
         (0 <= x <= 30 -> l = Some "Low") /\
         (30 < x <= 70 -> l = Some "Medium") /\
         (70 < x -> l = Some "High")) /\
    In (Some "High") labels.
Proof.
  intros Hy Hy70.
  assert (Hmax : 70 < series_max s)
    by (apply series_max_above; exists y; split; assumption).
  unfold monthly_charge_segment.
  destruct (cut_outcome (values s) [0; 30; 70; series_max s]
              ["Low"; "Medium"; "High"])
    as [(Hi & ->) | (Hi & _)].
  2:{ apply charge_bins_increasing in Hmax. congruence. }
  eexists. split; [reflexivity|]. split; [apply length_map|]. split.
  - intros i x Hx. eexists. split.
    + rewrite nth_error_map, Hx. reflexivity.
    + apply charge_label. apply series_max_ge.
      apply nth_error_In with i. exact Hx.
  - apply in_map_iff. exists y. split; [|exact Hy].
    apply (charge_label (series_max s) y (series_max_ge s y Hy)). exact Hy70.
Qed.

Lemma in_tenures_72 : In 72 (values tenures).
Proof. unfold tenures, values. cbn. tauto. Qed.

Lemma in_charges_118 : In 118.75 (values charges).
Proof. unfold charges, values. cbn. tauto. Qed.

Lemma tenure_group_bands_witness :
  exists labels,
    tenure_group tenures = Ok labels /\
    List.length labels = List.length (values tenures) /\
    (forall i x, nth_error (values tenures) i = Some x ->
       exists l, nth_error labels i = Some l /\
         (x < 0 -> l = None) /\
         (0 <= x <= 12 -> l = Some "New") /\
         (12 < x <= 36 -> l = Some "Regular") /\
         (36 < x <= 60 -> l = Some "Loyal") /\
         (60 < x -> l = Some "Champion")) /\
    In (Some "Champion") labels.
Proof.
  exact (tenure_group_bands tenures 72 in_tenures_72 eq_refl).
Defined.

Lemma monthly_charge_segment_bands_witness :
  exists labels,
    monthly_charge_segment charges = Ok labels /\
    List.length labels = List.length (values charges) /\
    (forall i x, nth_error (values charges) i = Some x ->
       exists l, nth_error labels i = Some l /\
         (x < 0 -> l = None) /\
         (0 <= x <= 30 -> l = Some "Low") /\
         (30 < x <= 70 -> l = Some "Medium") /\
         (70 < x -> l = Some "High")) /\
    In (Some "High") labels.
Proof.
  exact (monthly_charge_segment_bands charges 118.75 in_charges_118 eq_refl).
Defined.

(** The two columns of the worked examples, and a column without a tenure
    above 60. *)
Example tenure_group_of_tenures :
  tenure_group tenures
  = Ok [Some "New"; Some "New"; Some "New"; Some "Regular"; Some "Regular";
        Some "Loyal"; Some "Loyal"; Some "Champion"; Some "Champion"] /\
  monthly_charge_segment charges
  = Ok [Some "Low"; Some "Low"; Some "Medium"; Some "Medium"; Some "High";
        Some "High"] /\
  tenure_group short_tenures = Raise "ValueError".
Proof. repeat split. Qed.

End TelecomFacts.


(* ================================================================== *)
(** * The coded columns and their validation *)

Module ValidatorExtras.
Import Py Num Validator Cells.

Lemma py_eq_same (a b : json) : py_eq a b = true <-> same a b.
Proof.
  destruct a, b; cbn; try (split; [discriminate | contradiction]).
  - apply Qeq_bool_iff.
  - tauto.
  - apply String.eqb_eq.
Qed.

Lemma same_refl (a : json) : same a a.
Proof. destruct a; cbn; [apply Qeq_refl | exact I | reflexivity]. Qed.

Lemma same_sym (a b : json) : same a b -> same b a.
Proof.
  destruct a, b; cbn; try contradiction; auto.
  apply Qeq_sym.
Qed.

Lemma same_trans (a b c : json) : same a b -> same b c -> same a c.
Proof.
  destruct a, b, c; cbn; try contradiction; auto.
  - apply Qeq_trans.
  - intros -> ->. reflexivity.
Qed.

(** Every member of a column is equal to a member of [unique]. *)
Lemma unique_complete (l : list json) (x : json) :
  In x l -> exists u, In u (unique l) /\ same u x.
Proof.
  induction l as [|a l IH]; [intros []|].
  cbn [unique]. intros [<-|Hin].
  - exists a. split; [left; reflexivity | apply same_refl].
  - destruct (IH Hin) as (u & Hu & Hux).
    destruct (py_eq a u) eqn:E.
    + exists a. split; [left; reflexivity|].
      apply same_trans with u; [apply py_eq_same, E | exact Hux].
    + exists u. split; [|exact Hux]. right.
      apply filter_In. split; [exact Hu|]. rewrite E. reflexivity.
Qed.

Lemma accepted_iff (v : json) :
  existsb (py_eq v) accepted_codes = true
  <-> exists q, v = JNum q /\ (q == -1 \/ q == 0 \/ q == 1 \/ q == 2).
Proof.
  unfold accepted_codes. cbn [existsb]. rewrite !orb_true_iff.
  rewrite !py_eq_same. split.
  - destruct v as [q| |s]; cbn [same]; try (intuition discriminate).
    intros H. exists q. split; [reflexivity|]. intuition discriminate.
  - intros (q & -> & H). cbn [same]. tauto.
Qed.

Lemma accepted_same (u v : json) :
  same u v ->
  existsb (py_eq u) accepted_codes = true ->
  existsb (py_eq v) accepted_codes = true.
Proof.
  intros Huv. rewrite !existsb_exists.
  intros (c & Hc & Hu). exists c. split; [exact Hc|].
  apply py_eq_same. apply same_trans with u; [apply same_sym, Huv|].
  apply py_eq_same, Hu.
Qed.

(** X27. The check of the contract codes succeeds exactly when every value
    of the column that is not missing is one of the numbers -1, 0, 1 and 2;
    a text never passes, not even the text of such a number, and a table
    without the column passes. *)
Theorem contract_codes_ok_iff (df : frame) :
  contract_codes_ok (validate df) = true
  <-> (forall col v,
         dict_get df "contract_type_code" = Some col ->
         In v col -> isnull v = false ->
         exists q, v = JNum q /\ (q == -1 \/ q == 0 \/ q == 1 \/ q == 2)).
Proof.
  unfold validate. cbn [contract_codes_ok]. unfold present, issubset.
  destruct (dict_get df "contract_type_code") as [col|].
  - rewrite forallb_forall. split.
    + intros H col' v Hc Hv Hnn. injection Hc as <-.
      apply accepted_iff.
      assert (Hin : In v (filter (fun v => negb (isnull v)) col))
        by (apply filter_In; split; [exact Hv | rewrite Hnn; reflexivity]).
      destruct (unique_complete _ _ Hin) as (u & Hu & Huv).
      apply accepted_same with u; [exact Huv | apply H, Hu].
    + intros H v Hv. apply ValidatorFacts.in_unique, filter_In in Hv.
      destruct Hv as (Hv & Hnn). apply accepted_iff.
      apply (H col v eq_refl Hv). apply negb_true_iff. exact Hnn.
  - split; [intros _ col v Hc; discriminate | reflexivity].
Qed.

Lemma filter_none {A : Type} (f : A -> bool) (l : list A) :
  (forall x, In x l -> f x = false) -> filter f l = [].
Proof.
  induction l as [|a l IH]; intros H; [reflexivity|].
  cbn [filter]. rewrite (H a (or_introl eq_refl)).
  apply IH. intros x Hx. apply H. right. exact Hx.
Qed.

Lemma coded_cell (d : dict Q) (x : string) :
  exists q, fillna 0 (series_map d x) = Fin q /\
            (q = 0 \/ exists k, In (k, q) d).
Proof.
  unfold series_map.
  induction d as [|[k q] d IH]; cbn [dict_get].
  - exists 0. split; [reflexivity | left; reflexivity].
  - destruct (String.eqb k x).
    + exists q. split; [reflexivity|]. right. exists k. left. reflexivity.
    + destruct IH as (q' & Hq & [H0 | (k' & Hk)]); exists q';
        (split; [exact Hq|]); [left; exact H0 | right; exists k'; right; exact Hk].
Qed.

(** X28. The three coded columns of the transform hold no missing value and
    only their codes: 0 or 1 for the two flags, 0, 1 or 2 for the contract,
    a name the mapping does not know being coded 0 like "Month-to-month"
    and "No".  The contract codes, once staged, therefore pass the check of
    the validation, which counts no missing value among them, and the value
    -1 that the check tolerates is never among them. *)
Theorem coded_columns_pass_validation (df : frame)
    (Contract InternetService MultipleLines : list string) :
  dict_get df "contract_type_code"
  = Some (Telecom.staged_codes (contract_type_code Contract)) ->
  contract_codes_ok (validate df) = true /\
  (forall v, In v (contract_codes_present (validate df)) ->
             in_defined_codes v = true) /\
  isnull_sum (Telecom.staged_codes (contract_type_code Contract)) = 0%Z /\
  (forall name, name <> "One year" -> name <> "Two year" ->
                contract_type_code [name] = [Fin 0]) /\
  (forall c, In c (Telecom.has_internet_service InternetService) ->
             c = Fin 0 \/ c = Fin 1) /\
  (forall z, In z (Telecom.is_multi_line_user MultipleLines) ->
             z = 0%Z \/ z = 1%Z).
Proof.
  intros Hcol.
  assert (Hcodes : forall v,
             In v (Telecom.staged_codes (contract_type_code Contract)) ->
             isnull v = false /\ in_defined_codes v = true).
  { intros v Hv. unfold Telecom.staged_codes in Hv.
    apply in_map_iff in Hv. destruct Hv as (c & <- & Hc).
    apply ValidatorFacts.contract_type_code_range in Hc.
    destruct Hc as [-> | [-> | ->]]; split; reflexivity. }
  split; [|split; [|split; [|split; [|split]]]].
  - apply (ValidatorFacts.contract_codes_ok_sound df _ Hcol).
    intros v Hv _. apply Hcodes, Hv.
  - unfold validate. cbn [contract_codes_present]. unfold present.
    rewrite Hcol. intros v Hv.
    apply ValidatorFacts.in_unique, filter_In in Hv.
    apply Hcodes, Hv.
  - unfold isnull_sum.
    replace (filter isnull (Telecom.staged_codes (contract_type_code Contract)))
      with (@nil json); [reflexivity|].
    symmetry. apply filter_none. intros v Hv. apply Hcodes, Hv.
  - intros name H1 H2. unfold contract_type_code, series_map, contract_map.
    cbn [map dict_get].
    destruct (String.eqb_spec "Month-to-month" name); [reflexivity|].
    destruct (String.eqb_spec "One year" name); [congruence|].
    destruct (String.eqb_spec "Two year" name); [congruence|].
    reflexivity.
  - intros c Hc. unfold Telecom.has_internet_service in Hc.
    apply in_map_iff in Hc. destruct Hc as (x & <- & _).
    destruct (coded_cell Telecom.internet_map x) as (q & -> & [-> | (k & Hk)]);
      [left; reflexivity|].
    unfold Telecom.internet_map in Hk. cbn [In] in Hk.
    destruct Hk as [Hk | [Hk | [Hk | []]]]; injection Hk as _ <-; auto.
  - intros z Hz. unfold Telecom.is_multi_line_user in Hz.
    apply in_map_iff in Hz. destruct Hz as (x & <- & _).
    destruct (String.eqb x "Yes"); auto.
Qed.

Lemma coded_columns_pass_validation_witness :
  let df := [("contract_type_code",
              Telecom.staged_codes (contract_type_code Telecom.contracts))] in
  contract_codes_ok (validate df) = true /\
  contract_codes_present (validate df) = [JNum 0; JNum 2; JNum 1].
Proof.
  intros df. split; [|reflexivity].
  exact (proj1 (coded_columns_pass_validation df Telecom.contracts [] []
                  eq_refl)).
Defined.

End ValidatorExtras.

(* ================================================================== *)
(** * The pipeline runner *)

Module PipelineFacts.
Import Py Pipeline.

Lemma launched_app (a b : list event) :
  launched (a ++ b) = (launched a ++ launched b)%list.
Proof. unfold launched. apply flat_map_app. Qed.

Lemma completed_app (a b : list event) :
  completed (a ++ b) = (completed a ++ completed b)%list.
Proof. unfold completed. apply flat_map_app. Qed.

Lemma failed_app (a b : list event) :
  failed (a ++ b) = (failed a ++ failed b)%list.
Proof. unfold failed. apply flat_map_app. Qed.

Lemma finished_app (a b : list event) :
  finished (a ++ b) = (finished a + finished b)%nat.
Proof. unfold finished. rewrite filter_app, length_app. reflexivity. Qed.

Section Steps.
Context {Sh : Shell}.

(** One step: the script is launched once; the step is reported as
    completed, or as failed and then the runner exits. *)
Lemma run_step_outcome (title command : string) (st : state) :
  exists evs,
    snd (snd (run_step title command st)) = (snd st ++ evs)%list /\
    launched evs = [command] /\ finished evs = 0%nat /\
    ((fst (run_step title command st) = Ok tt /\
      completed evs = [title] /\ failed evs = []) \/
     (fst (run_step title command st) = Raise "SystemExit(1)" /\
      completed evs = [] /\ failed evs = [title])).
Proof.
  unfold run_step. cbn [log fst snd].
  destruct (subprocess_run command (fst st)) as [returncode w].
  destruct (returncode =? 0)%Z.
  - exists [PrintTitle title; Run command; PrintStepCompleted title].
    cbn [log fst snd]. rewrite <- !app_assoc.
    repeat split. left. repeat split.
  - exists [PrintTitle title; Run command;
            PrintStepFailed title returncode; PrintStopping].
    cbn [log fst snd]. rewrite <- !app_assoc.
    repeat split. right. repeat split.
Qed.

Lemma run_steps_outcome (l : list (string * string)) :
  forall st : state,
    exists evs k,
      snd (snd (run_steps l st)) = (snd st ++ evs)%list /\
      (k <= List.length l)%nat /\
      completed evs = firstn k (map fst l) /\
      failed evs = firstn 1 (skipn k (map fst l)) /\
      launched evs = firstn (k + List.length (failed evs)) (map snd l) /\
      finished evs = 0%nat /\
      ((fst (run_steps l st) = Ok tt /\ k = List.length l) \/
       (fst (run_steps l st) = Raise "SystemExit(1)" /\
        (k < List.length l)%nat)).
Proof.
  induction l as [|[title command] rest IH]; intros st.
  - exists [], 0%nat. cbn. rewrite app_nil_r.
    repeat apply conj; try reflexivity. left. split; reflexivity.
  - cbn [run_steps].
    destruct (run_step_outcome title command st)
      as (evs1 & Hlog & Hl & Hf & Hcase).
    destruct (run_step title command st) as [[u|e] st1].
    + cbn [fst snd] in *.
      destruct Hcase as [(_ & Hc & Hfl) | (Hr & _)]; [|discriminate].
      destruct (IH st1) as (evs2 & k & Hlog2 & Hk & Hc2 & Hfl2 & Hl2 & Hf2
                            & Hcase2).
      exists (evs1 ++ evs2)%list, (S k).
      rewrite Hlog2, Hlog, <- app_assoc.
      rewrite completed_app, failed_app, launched_app, finished_app.
      rewrite Hc, Hfl, Hl, Hf, Hf2, Hc2, Hl2.
      cbn [app map firstn skipn List.length fst snd Nat.add].
      repeat apply conj; try reflexivity.
      * lia.
      * exact Hfl2.
      * destruct Hcase2 as [(Hr & ->) | (Hr & Hlt)];
          [left | right]; split; try exact Hr; lia.
    + cbn [fst snd] in *.
      destruct Hcase as [(Hr & _) | (Hr & Hc & Hfl)]; [discriminate|].
      exists evs1, 0%nat.
      rewrite Hc, Hfl, Hl, Hf.
      cbn [app map firstn skipn List.length fst snd Nat.add].
      repeat apply conj; try reflexivity.
      * exact Hlog.
      * lia.
      * right. split; [exact Hr | lia].
Qed.

(** X29. The runner launches the four scripts in order and stops at the
    first one that ends with a status other than zero: the scripts after it
    are not launched, the runner exits with status 1 and does not print that
    the pipeline completed.  It prints that line exactly when all four
    scripts ended with status zero, and then each has been launched once. *)
Theorem pipeline_stops_at_first_failed_step (st : state) :
  exists evs k,
    snd (snd (main st)) = (snd st ++ PrintHeader :: evs)%list /\
    (k <= 4)%nat /\
    completed evs = firstn k (map fst steps) /\
    failed evs = firstn 1 (skipn k (map fst steps)) /\
    launched evs
    = firstn (k + List.length (failed evs))
        ["extract.py"; "transform.py"; "load.py"; "etl_analysis.py"] /\
    ((fst (main st) = Ok tt /\ k = 4%nat /\ finished evs = 1%nat /\
      last evs PrintHeader = PrintPipelineCompleted) \/
     (fst (main st) = Raise "SystemExit(1)" /\ (k < 4)%nat /\
      finished evs = 0%nat)).
Proof.
  unfold main.
  destruct (run_steps_outcome steps (log PrintHeader st))
    as (evs & k & Hlog & Hk & Hc & Hfl & Hl & Hf & Hcase).
  destruct (run_steps steps (log PrintHeader st)) as [[u|e] st1].
  - cbn [log fst snd] in *.
    destruct Hcase as [(_ & ->) | (Hr & _)]; [|discriminate].
    exists (evs ++ [PrintPipelineCompleted])%list, 4%nat.
    rewrite completed_app, failed_app, launched_app, finished_app.
    rewrite Hc, Hl, Hfl, Hf, Hlog.
    rewrite <- !app_assoc.
    repeat apply conj; try reflexivity.
    left. repeat apply conj; try reflexivity. apply last_last.
  - cbn [log fst snd] in *.
    destruct Hcase as [(Hr & _) | (Hr & Hlt)]; [discriminate|].
    exists evs, k. rewrite Hlog. rewrite <- !app_assoc.
    repeat apply conj; try assumption; try reflexivity.
    right. repeat apply conj; try assumption.
Qed.

End Steps.

(** A run in which the load script fails: the analysis is not launched. *)
Example pipeline_with_failing_load :
  let evs := snd (snd (main (Sh := shell_failing "load.py") (0%nat, []))) in
  launched evs = ["extract.py"; "transform.py"; "load.py"] /\
  completed evs
  = ["STEP 1 — Extract (extract.py)"; "STEP 2 — Transform (transform.py)"] /\
  failed evs = ["STEP 3 — Load to Supabase (load.py)"] /\
  finished evs = 0%nat /\
  fst (main (Sh := shell_failing "load.py") (0%nat, []))
  = Raise "SystemExit(1)".
Proof. repeat split. Qed.

End PipelineFacts.
